(** * Quizzium backend: the quiz session scoring engine

    A shallow embedding of the services that start, grade and complete quiz
    sessions ([quizSessionService.ts]), of the quiz definition service
    ([quizService.ts]) and of the notification service they call
    ([notificationService.ts]), together with the Mongoose models they read
    and write, the controllers and the routes in front of them.

    Modelling conventions.
    - A MongoDB collection is a finite map from [ObjectId] to documents.  An
      [ObjectId] is modelled by its 24-hex string form, which is what
      [toString()] gives of it.
    - A JavaScript [number] is a binary64 float, the kernel's [float]: sums,
      products and quotients round as the runtime rounds them, and [NaN],
      the infinities and the negative zero are values like the others.
    - An [async] service is a function in the monad [M]: it threads the
      database and may throw.  A throw does not roll back the writes made
      before it, exactly as with the real store.
    - Values produced by the runtime and not by the service (the [_id] of a
      new document, the clock, the random draws of [$sample]) are extra
      arguments.  What the services call and neither they nor the spec
      define, the decimal notation of a number and the window that the
      storage engine cuts for [skip] and [limit], is the class [Runtime].
    - Every [ObjectId] of the model is well formed: the format checks
      ([Types.ObjectId.isValid]) pass and are not represented. *)

From Stdlib Require Import ZArith Floats.
From stdpp Require Import gmap strings list fin_maps pretty.
From stdpp Require Import sorting.

Set Warnings "-register-all,-clear-no-such-hyp,-inexact-float".

Local Open Scope string_scope.
Local Open Scope list_scope.

(** ** Enumerations of [utils/types.ts] *)

Inductive UserRole := STUDENT | TEACHER | ADMIN | MANAGER.
Inductive AvailableLanguage := FR | EN | AR | ES.
Inductive QuestionType := QCM | TRUE_FALSE | CALCUL.
Inductive MediaType := IMAGE | AUDIO | VIDEO.
Inductive QuizType := FORMATIVE | SUMMATIVE | REVISION.
Inductive NotificationType :=
  NEW_ENROLLMENT_PENDING | ENROLLMENT_STATUS_CHANGED | QUIZ_GRADED.
Inductive NotificationStatus := UNREAD | READ.
Inductive Difficulty := easy | medium | hard.
Inductive PassStatus := passed | failed.

#[global] Instance UserRole_eq_dec : EqDecision UserRole.
Proof. solve_decision. Defined.
#[global] Instance AvailableLanguage_eq_dec : EqDecision AvailableLanguage.
Proof. solve_decision. Defined.
#[global] Instance QuestionType_eq_dec : EqDecision QuestionType.
Proof. solve_decision. Defined.
#[global] Instance QuizType_eq_dec : EqDecision QuizType.
Proof. solve_decision. Defined.
#[global] Instance Difficulty_eq_dec : EqDecision Difficulty.
Proof. solve_decision. Defined.

Definition UserRole_value (r : UserRole) : string :=
  match r with
  | STUDENT => "student" | TEACHER => "teacher"
  | ADMIN => "admin" | MANAGER => "manager"
  end.

Definition QuestionType_value (t : QuestionType) : string :=
  match t with
  | QCM => "QCM" | TRUE_FALSE => "TrueFalse" | CALCUL => "Calculation"
  end.

Definition MediaType_value (t : MediaType) : string :=
  match t with IMAGE => "image" | AUDIO => "audio" | VIDEO => "video" end.

Definition Difficulty_value (d : Difficulty) : string :=
  match d with easy => "easy" | medium => "medium" | hard => "hard" end.

(** ** Identifiers and numbers *)

Abbreviation ObjectId := string.

(** A JavaScript number.  [x === y], [x < y] and [x >= y] are [x =? y],
    [x <? y] and [y <=? x]: each is false when an operand is [NaN], and the
    two zeros are equal. *)
Abbreviation number := float.

(** The number that holds a count. *)
Definition Z2F (z : Z) : number :=
  SF2Prim (binary_normalize prec emax z 0 false).

(** [!x]: zero, of either sign, and [NaN] are falsy. *)
Definition falsy (x : number) : bool := (x =? 0)%float || is_nan x.

(** [x || null], for a number that may be missing. *)
Definition orNull (o : option number) : option number :=
  match o with
  | Some x => if falsy x then None else Some x
  | None => None
  end.

(** The double quote, which the messages of Mongoose hold. *)
Definition dq : string := String (Ascii.ascii_of_nat 34) EmptyString.

(** What Mongoose says of a number at a path with a [min] validator: [NaN]
    is not cast, and a number below the minimum is refused. *)
Definition checkMin (path : string) (min : number) (message : string)
    (x : number) : list string :=
  if is_nan x
  then [("Cast to Number failed for value " ++ dq ++ "NaN" ++ dq
         ++ " (type number) at path " ++ dq ++ path ++ dq)%string]
  else if (min <=? x)%float then [] else [message].

(** ** Localized text *)

Record ILocalizedString := {
  ls_fr : string;
  ls_en : string;
  ls_ar : option string;
  ls_es : option string;
}.

Record ILocalizedChoice := {
  lc_fr : string;
  lc_en : option string;
  lc_ar : option string;
  lc_es : option string;
}.

(** JavaScript truthiness of a possibly missing string: [undefined] and the
    empty string are falsy. *)
Definition truthy (o : option string) : bool :=
  match o with
  | Some s => negb (String.eqb s "")
  | None => false
  end.

(** [a || b] on possibly missing strings. *)
Definition js_or (a b : option string) : option string :=
  if truthy a then a else b.

(** [(c.text as any)[language]] *)
Definition choice_text_in (t : ILocalizedChoice) (l : AvailableLanguage)
  : option string :=
  match l with
  | FR => Some (lc_fr t)
  | EN => lc_en t
  | AR => lc_ar t
  | ES => lc_es t
  end.

(** ** Documents as the client sees them

    What a service returns is serialised to JSON.  Whether a field is present
    in a response is a question about that JSON tree, so populated documents
    are modelled as trees. *)

Inductive json :=
| JNull
| JBool (b : bool)
| JNum (n : number)
| JStr (s : string)
| JArr (items : list json)
| JObj (fields : list (string * json)).

(** Does the key [k] occur as a field name anywhere in the tree? *)
Fixpoint mentions (k : string) (j : json) : bool :=
  match j with
  | JObj fs =>
      (fix go (fs : list (string * json)) : bool :=
         match fs with
         | [] => false
         | (k', v) :: fs' => String.eqb k k' || mentions k v || go fs'
         end) fs
  | JArr l => existsb (mentions k) l
  | _ => false
  end.

(** The field names of an object (empty for any other value). *)
Definition keys (j : json) : list string :=
  match j with
  | JObj fs => fst <$> fs
  | _ => []
  end.

(** [j[k]] *)
Definition field (k : string) (j : json) : option json :=
  match j with
  | JObj fs => snd <$> List.find (λ kv, String.eqb k (fst kv)) fs
  | _ => None
  end.

(** *** Field selection

    [populate({ select: '...' })] keeps the listed paths of the populated
    document, and always its [_id].  A select string is a space-separated
    list of dotted paths. *)

Fixpoint split_on (sep : Ascii.ascii) (s : string) : list string :=
  match s with
  | EmptyString => [EmptyString]
  | String c s' =>
      if Ascii.eqb c sep then EmptyString :: split_on sep s'
      else match split_on sep s' with
           | [] => [String c EmptyString]
           | w :: ws => String c w :: ws
           end
  end.

Definition space : Ascii.ascii := Ascii.ascii_of_nat 32.
Definition dot : Ascii.ascii := Ascii.ascii_of_nat 46.
Definition comma : Ascii.ascii := Ascii.ascii_of_nat 44.

Definition parse_select (s : string) : list (list string) :=
  split_on dot <$>
    List.filter (λ w, negb (String.eqb w "")) (split_on space s).

(** The remainders of the paths that start with the field [k]. *)
Definition paths_under (k : string) (paths : list (list string))
  : list (list string) :=
  omap (λ p, match p with
             | k' :: rest => if String.eqb k k' then Some rest else None
             | [] => None
             end) paths.

Definition is_nil {A} (l : list A) : bool :=
  match l with [] => true | _ => false end.

(** Inclusion projection: a field is kept whole when a path ends at it, is
    projected further when paths go through it, and is dropped otherwise.
    Arrays are projected element by element. *)
Fixpoint project (paths : list (list string)) (j : json) : json :=
  match j with
  | JObj fs =>
      JObj ((fix go (fs : list (string * json)) : list (string * json) :=
               match fs with
               | [] => []
               | (k, v) :: fs' =>
                   let sub := paths_under k paths in
                   if is_nil sub then go fs'
                   else if existsb is_nil sub then (k, v) :: go fs'
                   else match v with
                        | JObj _ | JArr _ => (k, project sub v) :: go fs'
                        | _ => go fs'
                        end
               end) fs)
  | JArr l => JArr (project paths <$> l)
  | _ => j
  end.

Definition select (s : string) (doc : json) : json :=
  project (["_id"] :: parse_select s) doc.

(** ** The models

    Each record lists the fields of the Mongoose schema that the services
    below read or write; a document's [_id] is its key in the collection.
    Timestamps and the fields of [User] and [Training] that no service here
    touches are left out. *)

(** *** [models/Question.ts] *)

Record IChoice := {
  choice_text : ILocalizedChoice;
  choice_isCorrect : bool;
  choiceMediaType : option MediaType;
  choiceMediaUrl : option string;
  choiceMediaAltText : option string;
}.

Record IQuestion := {
  question_chapter : ObjectId;
  question_text : ILocalizedString;
  mediaType : option MediaType;
  mediaUrl : option string;
  mediaAltText : option string;
  question_type : QuestionType;
  choices : option (list IChoice);
  correctAnswerFormula : option string;
  explanation : option ILocalizedString;
  difficulty : Difficulty;
  question_tags : list string;
}.

(** *** [models/Quiz.ts] *)

Record IQuestionWithScore := {
  questionId : ObjectId;
  score : number;
}.

Record IQuiz := {
  quiz_training : ObjectId;
  quiz_title : ILocalizedString;
  quiz_description : option ILocalizedString;
  thumbnailUrl : option string;
  quiz_creator : ObjectId;
  quiz_slug : string;
  quizType : QuizType;
  deadline : option N;
  isPublished : bool;
  publishedAt : option N;
  durationMinutes : option number;
  quiz_questions : list IQuestionWithScore;
  globalScore : number;
  allowedAttempts : option number;
  quiz_tags : list string;
  isPublic : bool;
}.

(** *** [models/User.ts], [models/Training.ts], [models/Notification.ts] *)

Record IUser := {
  username : string;
  role : UserRole;
}.

Record ITraining := {
  training_title : ILocalizedString;
  teachers : list ObjectId;
  training_quizzes : list ObjectId;
}.

(** The message of a notification is a fixed sentence around the quiz title
    and the student's name; the record keeps these two parts. *)
Record INotification := {
  recipient : ObjectId;
  notification_type : NotificationType;
  message_quizTitle : string;
  message_student : string;
  relatedEntityId : option ObjectId;
  relatedEntityType : option string;
  notification_status : NotificationStatus;
}.

(** *** [models/QuizSession.ts] *)

(** [userAnswer: string | string[] | number] *)
Inductive UserAnswer :=
| AnswerText (s : string)
| AnswerList (l : list string)
| AnswerNumber (n : number).

(** The [question] of a response is an [ObjectId] in the store and a
    document once populated. *)
Inductive ResponseQuestion :=
| QuestionRef (id : ObjectId)
| QuestionDoc (doc : json).

Record IQuestionResponse := {
  response_question : ResponseQuestion;
  userAnswer : UserAnswer;
  isCorrect : bool;
  scoreEarned : number;
  timeTakenSeconds : number;
}.

Record IQuizSession := {
  session_user : ObjectId;
  session_quiz : ObjectId;
  totalScoreEarned : number;
  maxPossibleScore : number;
  quizGlobalScore : number;
  finalCalculatedScore : number;
  durationSeconds : number;
  responses : list IQuestionResponse;
  language : AvailableLanguage;
  isCompleted : bool;
  passStatus : option PassStatus;
  attemptNumber : nat;
}.

(** ** Questions as JSON *)

Definition opt_field {A} (k : string) (f : A → json) (o : option A)
  : list (string * json) :=
  match o with
  | Some a => [(k, f a)]
  | None => []
  end.

Definition ILocalizedString_json (t : ILocalizedString) : json :=
  JObj ([("fr", JStr (ls_fr t)); ("en", JStr (ls_en t))]
        ++ opt_field "ar" JStr (ls_ar t) ++ opt_field "es" JStr (ls_es t)).

Definition ILocalizedChoice_json (t : ILocalizedChoice) : json :=
  JObj ([("fr", JStr (lc_fr t))]
        ++ opt_field "en" JStr (lc_en t)
        ++ opt_field "ar" JStr (lc_ar t) ++ opt_field "es" JStr (lc_es t)).

Definition MediaType_json (t : MediaType) : json := JStr (MediaType_value t).

Definition IChoice_json (c : IChoice) : json :=
  JObj ([("text", ILocalizedChoice_json (choice_text c));
         ("isCorrect", JBool (choice_isCorrect c))]
        ++ opt_field "choiceMediaType" MediaType_json (choiceMediaType c)
        ++ opt_field "choiceMediaUrl" JStr (choiceMediaUrl c)
        ++ opt_field "choiceMediaAltText" JStr (choiceMediaAltText c)).

(** The stored question document, with every field it has. *)
Definition IQuestion_json (id : ObjectId) (q : IQuestion) : json :=
  JObj ([("_id", JStr id);
         ("chapter", JStr (question_chapter q));
         ("text", ILocalizedString_json (question_text q))]
        ++ opt_field "mediaType" MediaType_json (mediaType q)
        ++ opt_field "mediaUrl" JStr (mediaUrl q)
        ++ opt_field "mediaAltText" JStr (mediaAltText q)
        ++ [("type", JStr (QuestionType_value (question_type q)))]
        ++ opt_field "choices" (λ cs, JArr (IChoice_json <$> cs)) (choices q)
        ++ opt_field "correctAnswerFormula" JStr (correctAnswerFormula q)
        ++ opt_field "explanation" ILocalizedString_json (explanation q)
        ++ [("difficulty", JStr (Difficulty_value (difficulty q)));
            ("tags", JArr (JStr <$> question_tags q))]).

(** [IClientQuestion], as [startQuizSessionService] builds it: the choices
    keep their [text] only and exist only for a QCM question. *)
Definition clientChoices (q : IQuestion) : option (list json) :=
  match question_type q, choices q with
  | QCM, Some cs =>
      Some ((λ c, JObj [("text", ILocalizedChoice_json (choice_text c))])
              <$> cs)
  | _, _ => None
  end.

Definition clientQuestion (id : ObjectId) (q : IQuestion) : json :=
  JObj ([("_id", JStr id);
         ("text", ILocalizedString_json (question_text q));
         ("type", JStr (QuestionType_value (question_type q)))]
        ++ opt_field "choices" JArr (clientChoices q)
        ++ [("difficulty", JStr (Difficulty_value (difficulty q)));
            ("tags", JArr (JStr <$> question_tags q))]).

(** ** The store and the service monad *)

Record DB := {
  Users : gmap ObjectId IUser;
  Trainings : gmap ObjectId ITraining;
  Questions : gmap ObjectId IQuestion;
  Quizzes : gmap ObjectId IQuiz;
  QuizSessions : gmap ObjectId IQuizSession;
  Notifications : list INotification;
}.

(** What a service can throw: an [ApiError] of [utils/types.ts], or an error
    of the runtime that no [catch] of the service turns into one.  A
    [TypeError] is the reading of a property of [null]; a [ReferenceError]
    is the reading of a name that no scope declares. *)
Inductive Exception :=
| ApiError (message : string) (statusCode : nat)
| ValidationError (messages : list string)
| CastError (path : string)
| MongoServerError (code : N)
| TypeError
| ReferenceError (name : string).

(** Messages are the source's literals; a template literal keeps its
    placeholders. *)
Definition statusOf (e : Exception) : option nat :=
  match e with
  | ApiError _ c => Some c
  | _ => None
  end.

Definition M (A : Type) : Type := DB → DB * (Exception + A).

#[global] Instance M_ret : MRet M := λ A a db, (db, inr a).
#[global] Instance M_bind : MBind M := λ A B f m db,
  match m db with
  | (db', inr a) => f a db'
  | (db', inl e) => (db', inl e)
  end.

Definition throw {A} (e : Exception) : M A := λ db, (db, inl e).
Definition gets {A} (f : DB → A) : M A := λ db, (db, inr (f db)).
Definition modify (f : DB → DB) : M unit := λ db, (f db, inr tt).

(** [try { body } catch (error) { handler }] *)
Definition try_catch {A} (body : M A) (handler : Exception → M A) : M A :=
  λ db,
    match body db with
    | (db', inl e) => handler e db'
    | r => r
    end.

(** [if (!x) throw e] *)
Definition orThrow {A} (o : option A) (e : Exception) : M A :=
  match o with
  | Some a => mret a
  | None => throw e
  end.

(** [if (c) throw e] *)
Definition throwIf (c : bool) (e : Exception) : M unit :=
  if c then throw e else mret tt.

(** [Model.countDocuments(filter)] *)
Definition countDocuments {A} (P : A → bool) (coll : gmap ObjectId A) : nat :=
  size (filter (λ kv, P kv.2 = true) coll).

(** For each element of a list, in order. *)
Fixpoint forEachM {A} (f : A → M unit) (l : list A) : M unit :=
  match l with
  | [] => mret tt
  | a :: l' => f a ≫= λ _, forEachM f l'
  end.

(** The error taxonomy of the session engine. *)
Definition NotFound_user := ApiError "User not found." 404.
Definition NotFound_quiz := ApiError "Quiz not found." 404.
Definition Forbidden_quiz :=
  ApiError "Quiz is not published or not accessible to you." 403.
Definition AttemptsExceeded :=
  ApiError "You have exceeded the maximum number of allowed attempts (${quiz.allowedAttempts}) for this quiz." 403.
Definition InvalidQuiz :=
  ApiError "Quiz has no valid questions or question scores defined." 400.
Definition NotFound_session := ApiError "Quiz session not found." 404.
Definition Forbidden_submit :=
  ApiError "Not authorized to submit this quiz session." 403.
Definition AlreadyCompleted := ApiError "Quiz session already completed." 400.
Definition InvalidDuration := ApiError "Invalid duration provided." 400.
Definition MissingQuiz :=
  ApiError "Associated quiz not found for this session." 500.
Definition InvalidQuestion :=
  ApiError "Question with ID ${submittedResponse.question} is not part of this quiz or is invalid." 400.

(** ** The runtime

    What the services call and neither they nor the spec define:
    [Number.prototype.toString], and the window that the storage engine
    cuts out of the sorted result of a query for [skip(s).limit(l)], which
    it may also refuse. *)
Class Runtime := {
  Number_toString : number → string;
  skipLimit : ∀ A : Type, number → number → list A → Exception + list A;
}.

Section Services.
Context {runtime_ : Runtime}.

(** ** [services/quizSessionService.ts]: starting a session *)

Record StartQuizSessionData := {
  start_user : ObjectId;
  start_quizId : ObjectId;
  start_language : AvailableLanguage;
}.

(** The response placeholder pushed for a manifest entry whose question
    exists. *)
Definition initialResponse (id : ObjectId) (q : IQuestion)
  : IQuestionResponse :=
  {| response_question := QuestionDoc (clientQuestion id q);
     userAnswer := AnswerText "";
     isCorrect := false;
     scoreEarned := 0;
     timeTakenSeconds := 0 |}.

(** The loop over [quiz.questions], populated: an entry whose question is
    missing is skipped and adds nothing to [maxPossibleScore]. *)
Definition startLoop (qs : gmap ObjectId IQuestion)
    (manifest : list IQuestionWithScore) : number * list IQuestionResponse :=
  foldl (λ acc qItem,
           match qs !! questionId qItem with
           | None => acc
           | Some questionDoc =>
               ((acc.1 + score qItem)%float,
                (acc.2 ++ [initialResponse (questionId qItem) questionDoc])%list)
           end)
        (0%float, []) manifest.

(** [QuestionResponseSchema.question] has type [ObjectId]: an embedded
    document is stored as the reference held in its [_id]. *)
Definition castQuestion (rq : ResponseQuestion) : ResponseQuestion :=
  match rq with
  | QuestionDoc doc =>
      match field "_id" doc with
      | Some (JStr id) => QuestionRef id
      | _ => rq
      end
  | QuestionRef _ => rq
  end.

Definition set_question (rq : ResponseQuestion) (r : IQuestionResponse)
  : IQuestionResponse :=
  {| response_question := rq;
     userAnswer := userAnswer r;
     isCorrect := isCorrect r;
     scoreEarned := scoreEarned r;
     timeTakenSeconds := timeTakenSeconds r |}.

Definition castResponse (r : IQuestionResponse) : IQuestionResponse :=
  set_question (castQuestion (response_question r)) r.

(** The paths of [QuizSessionSchema] that a new session can fail: the two
    numbers that the service does not set itself. *)
Definition validateSession (s : IQuizSession) : list string :=
  (checkMin "maxPossibleScore" 1
     "Path `maxPossibleScore` ({VALUE}) is less than minimum allowed value (1)."
     (maxPossibleScore s)
   ++ checkMin "quizGlobalScore" 1
        "Path `quizGlobalScore` ({VALUE}) is less than minimum allowed value (1)."
        (quizGlobalScore s))%list.

Definition set_QuizSessions (f : gmap ObjectId IQuizSession →
                                 gmap ObjectId IQuizSession) (db : DB) : DB :=
  {| Users := Users db; Trainings := Trainings db; Questions := Questions db;
     Quizzes := Quizzes db; QuizSessions := f (QuizSessions db);
     Notifications := Notifications db |}.

(** [newSession.save()]: validation, then an insert that fails on a
    duplicate [_id]. *)
Definition saveNewSession (id : ObjectId) (s : IQuizSession) : M unit :=
  throwIf (negb (is_nil (validateSession s)))
          (ValidationError (validateSession s)) ≫= λ _,
  existing ← gets (λ db, QuizSessions db !! id);
  throwIf (bool_decide (is_Some existing)) (MongoServerError 11000%N) ≫= λ _,
  modify (set_QuizSessions (insert id s)).

(** [populate({ path: 'responses.question', select })] *)
Definition populateQuestion (qs : gmap ObjectId IQuestion) (sel : string)
    (r : IQuestionResponse) : IQuestionResponse :=
  match response_question r with
  | QuestionRef id =>
      set_question
        (QuestionDoc (match qs !! id with
                      | Some q => select sel (IQuestion_json id q)
                      | None => JNull
                      end)) r
  | QuestionDoc _ => r
  end.

Definition set_responses (rs : list IQuestionResponse) (s : IQuizSession)
  : IQuizSession :=
  {| session_user := session_user s; session_quiz := session_quiz s;
     totalScoreEarned := totalScoreEarned s;
     maxPossibleScore := maxPossibleScore s;
     quizGlobalScore := quizGlobalScore s;
     finalCalculatedScore := finalCalculatedScore s;
     durationSeconds := durationSeconds s;
     responses := rs;
     language := language s; isCompleted := isCompleted s;
     passStatus := passStatus s; attemptNumber := attemptNumber s |}.

Definition populateResponses (qs : gmap ObjectId IQuestion) (sel : string)
    (s : IQuizSession) : IQuizSession :=
  set_responses (populateQuestion qs sel <$> responses s) s.

(** The sessions of a user against a quiz. *)
Definition sessionOf (userId quizId : ObjectId) (s : IQuizSession) : bool :=
  bool_decide (session_user s = userId ∧ session_quiz s = quizId).

Definition startQuizSessionService (newId : ObjectId)
    (data : StartQuizSessionData) : M IQuizSession :=
  let userId := start_user data in
  let quizId := start_quizId data in
  (* 1. Validate user *)
  user ← gets (λ db, Users db !! userId) ≫= λ o, orThrow o NotFound_user;
  (* 2. Validate quiz *)
  quiz ← gets (λ db, Quizzes db !! quizId) ≫= λ o, orThrow o NotFound_quiz;
  let isCreator := bool_decide (quiz_creator quiz = userId) in
  throwIf (bool_decide (role user = STUDENT) && negb (isPublished quiz)
           && negb (isCreator && bool_decide (quizType quiz = REVISION)))
          Forbidden_quiz ≫= λ _,
  (* 3. Check allowed attempts *)
  match allowedAttempts quiz with
  | Some allowed =>
      existingSessions ←
        gets (λ db, countDocuments (sessionOf userId quizId) (QuizSessions db));
      throwIf (allowed <=? Z2F (Z.of_nat existingSessions))%float
              AttemptsExceeded
  | None => mret tt
  end ≫= λ _,
  (* 4. Max possible score and response placeholders *)
  loop ← gets (λ db, startLoop (Questions db) (quiz_questions quiz));
  let maxPossibleScore := loop.1 in
  let initialResponses := loop.2 in
  throwIf (maxPossibleScore =? 0)%float InvalidQuiz ≫= λ _,
  count ← gets (λ db, countDocuments (sessionOf userId quizId) (QuizSessions db));
  let newSession :=
    {| session_user := userId;
       session_quiz := quizId;
       totalScoreEarned := 0;
       maxPossibleScore := maxPossibleScore;
       quizGlobalScore := globalScore quiz;
       finalCalculatedScore := 0;
       durationSeconds := 0;
       responses := castResponse <$> initialResponses;
       language := start_language data;
       isCompleted := false;
       passStatus := None;
       attemptNumber := count + 1 |} in
  try_catch
    (saveNewSession newId newSession ≫= λ _,
     gets (λ db, populateResponses (Questions db)
                   "text type choices.text difficulty tags" newSession))
    (λ error,
       match error with
       | ValidationError messages =>
           throw (ApiError (String.concat ", " messages) 400)
       | _ =>
           throw (ApiError "Failed to start quiz session: ${error.message || 'Unknown error'}" 500)
       end).

(** ** [services/notificationService.ts] *)

Record CreateNotificationData := {
  recipientId : ObjectId;
  notif_type : NotificationType;
  notif_quizTitle : string;
  notif_student : string;
  notif_relatedEntityId : option ObjectId;
  notif_relatedEntityType : option string;
}.

(** The length of the message of a graded-quiz notification: 89 characters
    of fixed text around the title and the name. *)
Definition messageLength (d : CreateNotificationData) : nat :=
  89 + String.length (notif_quizTitle d) + String.length (notif_student d).

Definition set_Notifications (f : list INotification → list INotification)
    (db : DB) : DB :=
  {| Users := Users db; Trainings := Trainings db; Questions := Questions db;
     Quizzes := Quizzes db; QuizSessions := QuizSessions db;
     Notifications := f (Notifications db) |}.

(** [newNotification.save()], with the [maxlength] validator of the
    message. *)
Definition saveNotification (n : INotification) (len : nat) : M unit :=
  throwIf (500 <? len)%nat
    (ValidationError ["Path `message` (`{VALUE}`) is longer than the maximum allowed length (500)."]) ≫= λ _,
  modify (set_Notifications (λ ns, ns ++ [n])).

Definition createNotificationService (data : CreateNotificationData)
  : M INotification :=
  recipient ← gets (λ db, Users db !! recipientId data);
  throwIf (bool_decide (recipient = None))
          (ApiError "Notification recipient user not found." 404) ≫= λ _,
  let newNotification :=
    {| recipient := recipientId data;
       notification_type := notif_type data;
       message_quizTitle := notif_quizTitle data;
       message_student := notif_student data;
       relatedEntityId := notif_relatedEntityId data;
       relatedEntityType := notif_relatedEntityType data;
       notification_status := UNREAD |} in
  try_catch
    (saveNotification newNotification (messageLength data) ≫= λ _,
     mret newNotification)
    (λ error,
       match error with
       | ValidationError messages =>
           throw (ApiError (String.concat ", " messages) 400)
       | _ =>
           throw (ApiError "Failed to create notification: ${error.message || 'Unknown error'}" 500)
       end).

(** ** [services/quizSessionService.ts]: submitting a session *)

Record SubmittedResponse := {
  sub_question : ObjectId;
  sub_userAnswer : UserAnswer;
  sub_timeTakenSeconds : option number;
}.

Record SubmitQuizSessionData := {
  sub_responses : list SubmittedResponse;
  sub_durationSeconds : number;
}.

(** [userAnswer.toString()]; an array prints its elements joined by
    commas. *)
Definition answer_toString (a : UserAnswer) : string :=
  match a with
  | AnswerText s => s
  | AnswerList l => String.concat (String comma EmptyString) l
  | AnswerNumber n => Number_toString n
  end.

(** [Array.isArray(a) ? a.map(x => x.toString()) : [a.toString()]] *)
Definition userAnswers (a : UserAnswer) : list string :=
  match a with
  | AnswerList l => l
  | _ => [answer_toString a]
  end.

(** The texts of the choices flagged correct, in the session's language,
    else in English. *)
Definition correctChoiceTexts (lang : AvailableLanguage) (cs : list IChoice)
  : list (option string) :=
  (λ c, js_or (choice_text_in (choice_text c) lang) (lc_en (choice_text c)))
    <$> List.filter choice_isCorrect cs.

(** [texts.includes(ua)] *)
Definition includes (texts : list (option string)) (ua : string) : bool :=
  existsb (λ t, bool_decide (t = Some ua)) texts.

(** The grade of one answer against the authoritative question. *)
Definition gradeAnswer (lang : AvailableLanguage) (question : IQuestion)
    (answer : UserAnswer) : bool :=
  match question_type question with
  | QCM =>
      match choices question with
      | Some cs =>
          let correct := correctChoiceTexts lang cs in
          let uas := userAnswers answer in
          (length correct =? length uas)%nat
            && forallb (λ ua, includes correct ua) uas
      | None => false
      end
  | CALCUL =>
      if truthy (correctAnswerFormula question)
      then bool_decide (Some (answer_toString answer)
                        = correctAnswerFormula question)
      else false
  | TRUE_FALSE => false
  end.

(** [quizQuestionsMap]: the manifest entries whose question exists, by
    question id; a later entry for the same id replaces an earlier one. *)
Definition quizQuestionsMap (qs : gmap ObjectId IQuestion)
    (manifest : list IQuestionWithScore)
  : gmap ObjectId (IQuestion * number) :=
  foldl (λ m qItem,
           match qs !! questionId qItem with
           | Some question => <[questionId qItem := (question, score qItem)]> m
           | None => m
           end)
        ∅ manifest.

(** [t || 0] *)
Definition orZero (t : option number) : number :=
  match t with
  | Some x => if falsy x then 0 else x
  | None => 0
  end.

Definition gradeResponse (lang : AvailableLanguage)
    (questionData : IQuestion * number) (r : SubmittedResponse)
  : IQuestionResponse :=
  let correct := gradeAnswer lang questionData.1 (sub_userAnswer r) in
  {| response_question := QuestionRef (sub_question r);
     userAnswer := sub_userAnswer r;
     isCorrect := correct;
     scoreEarned := if correct then questionData.2 else 0;
     timeTakenSeconds := orZero (sub_timeTakenSeconds r) |}.

(** The loop over the submitted responses: it stops at the first response
    whose question is not in the map. *)
Fixpoint gradeLoop (lang : AvailableLanguage)
    (qmap : gmap ObjectId (IQuestion * number))
    (submitted : list SubmittedResponse)
    (totalScoreEarned : number) (updatedResponses : list IQuestionResponse)
  : Exception + (number * list IQuestionResponse) :=
  match submitted with
  | [] => inr (totalScoreEarned, updatedResponses)
  | r :: rest =>
      match qmap !! sub_question r with
      | None => inl InvalidQuestion
      | Some questionData =>
          let graded := gradeResponse lang questionData r in
          gradeLoop lang qmap rest
            (if isCorrect graded
             then (totalScoreEarned + scoreEarned graded)%float
             else totalScoreEarned)
            (updatedResponses ++ [graded])
      end
  end.

Definition finalScore
    (totalScoreEarned maxPossibleScore quizGlobalScore : number) : number :=
  if (0 <? maxPossibleScore)%float
  then (totalScoreEarned / maxPossibleScore * quizGlobalScore)%float
  else 0%float.

Definition passThreshold : number := 0.7%float.

Definition passStatusOf (finalCalculatedScore quizGlobalScore : number)
  : PassStatus :=
  if (passThreshold <=? finalCalculatedScore / quizGlobalScore)%float
  then passed else failed.

(** The update document passed to [findByIdAndUpdate]. *)
Record SessionUpdate := {
  upd_responses : list IQuestionResponse;
  upd_totalScoreEarned : number;
  upd_finalCalculatedScore : number;
  upd_durationSeconds : number;
  upd_passStatus : PassStatus;
}.

(** [toString()] of a document that [lean()] returned: a plain object
    prints as its class. *)
Definition Object_toString {A} (doc : A) : string := "[object Object]".

(** First half of [submitQuizSessionService]: read the session, check it,
    grade the answers.  It writes nothing.  [populate('user', 'username')]
    has put the document of the user, or [null] when there is none, in
    [session.user]; the owner test reads [toString()] of it. *)
Definition gradeSubmission (sessionId : ObjectId)
    (data : SubmitQuizSessionData) (requestingUserId : string)
  : M SessionUpdate :=
  session ← gets (λ db, QuizSessions db !! sessionId)
            ≫= λ o, orThrow o NotFound_session;
  user ← gets (λ db, Users db !! session_user session)
         ≫= λ o, orThrow o TypeError;
  throwIf (negb (String.eqb (Object_toString user) requestingUserId))
          Forbidden_submit ≫= λ _,
  throwIf (isCompleted session) AlreadyCompleted ≫= λ _,
  throwIf (sub_durationSeconds data <? 0)%float InvalidDuration ≫= λ _,
  quiz ← gets (λ db, Quizzes db !! session_quiz session)
         ≫= λ o, orThrow o MissingQuiz;
  qmap ← gets (λ db, quizQuestionsMap (Questions db) (quiz_questions quiz));
  match gradeLoop (language session) qmap (sub_responses data) 0 [] with
  | inl e => throw e
  | inr (totalScoreEarned, updatedResponses) =>
      let finalCalculatedScore :=
        finalScore totalScoreEarned (maxPossibleScore session)
                   (quizGlobalScore session) in
      mret {| upd_responses := updatedResponses;
              upd_totalScoreEarned := totalScoreEarned;
              upd_finalCalculatedScore := finalCalculatedScore;
              upd_durationSeconds := sub_durationSeconds data;
              upd_passStatus :=
                passStatusOf finalCalculatedScore (quizGlobalScore session) |}
  end.

Definition applyUpdate (u : SessionUpdate) (s : IQuizSession) : IQuizSession :=
  {| session_user := session_user s;
     session_quiz := session_quiz s;
     totalScoreEarned := upd_totalScoreEarned u;
     maxPossibleScore := maxPossibleScore s;
     quizGlobalScore := quizGlobalScore s;
     finalCalculatedScore := upd_finalCalculatedScore u;
     durationSeconds := upd_durationSeconds u;
     responses := upd_responses u;
     language := language s;
     isCompleted := true;
     passStatus := Some (upd_passStatus u);
     attemptNumber := attemptNumber s |}.

(** The paths of the update whose number Mongoose cannot cast. *)
Definition castUpdate (u : SessionUpdate) : list string :=
  (if forallb (λ r, negb (is_nan (scoreEarned r))
                    && negb (is_nan (timeTakenSeconds r))) (upd_responses u)
   then [] else ["responses"])
  ++ (if is_nan (upd_totalScoreEarned u) then ["totalScoreEarned"] else [])
  ++ (if is_nan (upd_finalCalculatedScore u)
      then ["finalCalculatedScore"] else [])
  ++ (if is_nan (upd_durationSeconds u) then ["durationSeconds"] else []).

(** [runValidators: true]: the [min: 0] validators of the updated paths. *)
Definition validateUpdate (u : SessionUpdate) : bool :=
  (0 <=? upd_totalScoreEarned u)%float
  && (0 <=? upd_finalCalculatedScore u)%float
  && (0 <=? upd_durationSeconds u)%float
  && forallb (λ r, (0 <=? scoreEarned r)%float
                   && (0 <=? timeTakenSeconds r)%float) (upd_responses u).

(** [QuizSession.findByIdAndUpdate(id, update, { new: true, runValidators:
    true })]: the update is cast, then validated; the filter is the [_id]
    alone, and the update is written whatever the stored document holds. *)
Definition findByIdAndUpdate (sessionId : ObjectId) (u : SessionUpdate)
  : M (option IQuizSession) :=
  match castUpdate u with
  | path :: _ => throw (CastError path)
  | [] => mret tt
  end ≫= λ _,
  throwIf (negb (validateUpdate u))
          (ValidationError ["Validation failed"]) ≫= λ _,
  stored ← gets (λ db, QuizSessions db !! sessionId);
  match stored with
  | None => mret None
  | Some s =>
      modify (set_QuizSessions (insert sessionId (applyUpdate u s))) ≫= λ _,
      mret (Some (applyUpdate u s))
  end.

(** [new Set<string>()], in insertion order. *)
Definition addRecipient (recipients : list ObjectId) (id : ObjectId)
  : list ObjectId :=
  if bool_decide (id ∈ recipients) then recipients else recipients ++ [id].

Definition recipientsOf (quizCreatorId : ObjectId)
    (trainingTeachers : list ObjectId) : list ObjectId :=
  foldl addRecipient (addRecipient [] quizCreatorId) trainingTeachers.

(** Second half of [submitQuizSessionService]: write the graded session,
    then notify the quiz's creator and the teachers of its training. *)
Definition completeSession (sessionId : ObjectId) (u : SessionUpdate)
  : M IQuizSession :=
  updatedSession ← findByIdAndUpdate sessionId u ≫= λ o,
    orThrow o (ApiError "Quiz session not found or could not be updated after submission." 500);
  quiz ← gets (λ db, Quizzes db !! session_quiz updatedSession)
         ≫= λ o, orThrow o TypeError;
  training ← gets (λ db, Trainings db !! quiz_training quiz);
  let trainingTeachers := default [] (teachers <$> training) in
  user ← gets (λ db, Users db !! session_user updatedSession)
         ≫= λ o, orThrow o TypeError;
  let recipients := recipientsOf (quiz_creator quiz) trainingTeachers in
  forEachM (λ recipientId,
              createNotificationService
                {| recipientId := recipientId;
                   notif_type := QUIZ_GRADED;
                   notif_quizTitle := ls_fr (quiz_title quiz);
                   notif_student := username user;
                   notif_relatedEntityId := Some sessionId;
                   notif_relatedEntityType := Some "QuizSession" |}
              ≫= λ _, mret tt)
           recipients ≫= λ _,
  gets (λ db, populateResponses (Questions db)
                "text type choices.text difficulty tags" updatedSession).

Definition submitQuizSessionService (sessionId : ObjectId)
    (data : SubmitQuizSessionData) (requestingUserId : string)
  : M IQuizSession :=
  gradeSubmission sessionId data requestingUserId ≫= completeSession sessionId.

(** Two submissions in flight on one session.  A service runs until its next
    [await]; the first half of a submission ends at the [await] of
    [findByIdAndUpdate].  This is the schedule in which both calls finish
    their first half before either update is written. *)
Definition raceSubmit (sessionId : ObjectId)
    (dataA : SubmitQuizSessionData) (userA : string)
    (dataB : SubmitQuizSessionData) (userB : string)
  : M (IQuizSession * IQuizSession) :=
  updateA ← gradeSubmission sessionId dataA userA;
  updateB ← gradeSubmission sessionId dataB userB;
  sessionA ← completeSession sessionId updateA;
  sessionB ← completeSession sessionId updateB;
  mret (sessionA, sessionB).

(** The controller of [PUT /api/quiz-sessions/:id/submit] rejects an empty
    [responses] array before it calls the service. *)
Definition submitQuizSession (role : UserRole) (sessionId : ObjectId)
    (data : SubmitQuizSessionData) (userId : ObjectId) : M IQuizSession :=
  throwIf (negb (bool_decide (role = STUDENT)))
          (ApiError "Only students can submit quiz sessions." 403) ≫= λ _,
  throwIf (is_nil (sub_responses data))
          (ApiError "Valid responses array and durationSeconds are required." 400)
    ≫= λ _,
  submitQuizSessionService sessionId data userId.

(** ** [services/quizService.ts] *)

Inductive Method := generate | select_.

Record SelectedQuestion := {
  sel_questionId : ObjectId;
  sel_score : option number;
}.

Record QuestionsConfig := {
  method : Method;
  chapterIds : option (list ObjectId);
  numberOfQuestions : option Z;
  cfg_difficulty : option Difficulty;
  selectedQuestionIdsWithScores : option (list SelectedQuestion);
}.

Record CreateQuizData := {
  create_trainingId : ObjectId;
  create_title : ILocalizedString;
  create_description : option ILocalizedString;
  create_thumbnailUrl : option string;
  creatorId : ObjectId;
  create_quizType : QuizType;
  create_slug : string;
  create_deadline : option N;
  create_durationMinutes : option number;
  create_globalScore : number;
  create_allowedAttempts : option number;
  create_tags : option (list string);
  questionsConfig : option QuestionsConfig;
  create_isPublic : option bool;
}.

Record UpdateQuizData := {
  update_title : option ILocalizedString;
  update_description : option ILocalizedString;
  update_thumbnailUrl : option string;
  update_deadline : option (option N);
  update_isPublished : option bool;
  update_durationMinutes : option (option number);
  update_globalScore : option number;
  update_allowedAttempts : option (option number);
  update_tags : option (list string);
  update_questions : option (list IQuestionWithScore);
  update_isPublic : option bool;
}.

Record RequestingUser := {
  req_id : ObjectId;
  req_role : UserRole;
}.

Definition InsufficientQuestions :=
  ApiError "Could not find ${numberOfQuestions} questions for the specified criteria. Found ${questions.length}." 400.
Definition RevisionNotPublishable :=
  ApiError "Revision quizzes cannot be published." 400.

(** Modelled from the spec: the [$sample] stage of the storage engine, which
    section 6 specifies as a sample of the requested size drawn without
    replacement (all the documents when there are fewer).  The random draws
    are the argument [rnd]: each one picks an element of what is left of the
    pool. *)
Fixpoint sample {A} (size : nat) (rnd : list nat) (pool : list A) : list A :=
  match size with
  | O => []
  | S size' =>
      let i := (hd 0%nat rnd `mod` length pool)%nat in
      match pool !! i with
      | Some x => x :: sample size' (tl rnd) (delete i pool)
      | None => []
      end
  end.

(** [{ $match: { chapter: { $in: chapterIds }, difficulty } }] *)
Definition matchesQuery (chapters : list ObjectId) (d : option Difficulty)
    (q : IQuestion) : bool :=
  bool_decide (question_chapter q ∈ chapters)
  && match d with
     | Some d' => bool_decide (difficulty q = d')
     | None => true
     end.

Definition matchingQuestions (chapters : list ObjectId)
    (d : option Difficulty) (qs : gmap ObjectId IQuestion)
  : list (ObjectId * IQuestion) :=
  map_to_list (filter (λ kv, matchesQuery chapters d kv.2 = true) qs).

(** [!n] for an optional number. *)
Definition falsyZ (n : option Z) : bool :=
  match n with
  | Some z => (z =? 0)%Z
  | None => true
  end.

Definition generateQuestionsForQuiz (rnd : list nat)
    (chapterIds : option (list ObjectId)) (numberOfQuestions : option Z)
    (d : option Difficulty) : M (list IQuestionWithScore) :=
  throwIf (is_nil (default [] chapterIds))
    (ApiError "Chapter IDs are required for question generation." 400) ≫= λ _,
  throwIf (falsyZ numberOfQuestions || (default 0 numberOfQuestions <=? 0)%Z)
    (ApiError "Number of questions must be positive for generation." 400)
    ≫= λ _,
  let n := Z.to_nat (default 0%Z numberOfQuestions) in
  questions ← gets (λ db,
    sample n rnd (matchingQuestions (default [] chapterIds) d (Questions db)));
  throwIf (length questions <? n)%nat InsufficientQuestions ≫= λ _,
  mret ((λ q, {| questionId := q.1; score := 1 |}) <$> questions).

(** The number of documents that [Question.find({ _id: { $in: ids } })]
    returns: one for each distinct id that exists. *)
Definition countExisting (qs : gmap ObjectId IQuestion) (ids : list ObjectId)
  : nat :=
  length (List.filter (λ id, bool_decide (is_Some (qs !! id)))
                      (remove_dups ids)).

(** The validators of [QuizSchema] on required fields and on numbers.  The
    format of the slug and the lengths of the texts are not represented. *)
Definition validateQuiz (q : IQuiz) : list string :=
  (if negb (String.eqb (ls_fr (quiz_title q)) "")
      || negb (String.eqb (ls_en (quiz_title q)) "")
      || truthy (ls_ar (quiz_title q)) || truthy (ls_es (quiz_title q))
   then [] else ["At least one language version of the title is required"])
  ++ (if String.eqb (quiz_slug q) "" then ["Slug is required"] else [])
  ++ (if bool_decide (quizType q ≠ REVISION) && bool_decide (deadline q = None)
      then ["Path `deadline` is required."] else [])
  ++ (if isPublished q && bool_decide (publishedAt q = None)
      then ["Path `publishedAt` is required."] else [])
  ++ from_option (checkMin "durationMinutes" 0 "Duration cannot be negative")
       [] (durationMinutes q)
  ++ (if is_nil (quiz_questions q)
      then ["A quiz must contain at least one question."] else [])
  ++ concat ((λ qItem, checkMin "score" 0 "Score cannot be negative"
                         (score qItem)) <$> quiz_questions q)
  ++ checkMin "globalScore" 1 "Global score must be at least 1" (globalScore q)
  ++ from_option (checkMin "allowedAttempts" 0
                    "Allowed attempts cannot be negative")
       [] (allowedAttempts q).

Definition set_Quizzes (f : gmap ObjectId IQuiz → gmap ObjectId IQuiz)
    (db : DB) : DB :=
  {| Users := Users db; Trainings := Trainings db; Questions := Questions db;
     Quizzes := f (Quizzes db); QuizSessions := QuizSessions db;
     Notifications := Notifications db |}.

Definition set_Trainings (f : gmap ObjectId ITraining → gmap ObjectId ITraining)
    (db : DB) : DB :=
  {| Users := Users db; Trainings := f (Trainings db);
     Questions := Questions db; Quizzes := Quizzes db;
     QuizSessions := QuizSessions db; Notifications := Notifications db |}.

(** Another quiz already has this slug (the unique index on [slug]). *)
Definition slugTaken (id : ObjectId) (slug : string)
    (quizzes : gmap ObjectId IQuiz) : bool :=
  bool_decide (map_Exists (λ id' q, id' ≠ id ∧ quiz_slug q = slug) quizzes).

(** [quiz.save()]: validation, then a write that the unique indexes on
    [_id] (for a new document) and on [slug] can refuse. *)
Definition saveQuiz (isNew : bool) (id : ObjectId) (q : IQuiz) : M unit :=
  throwIf (negb (is_nil (validateQuiz q))) (ValidationError (validateQuiz q))
    ≫= λ _,
  existing ← gets (λ db, Quizzes db !! id);
  taken ← gets (λ db, slugTaken id (quiz_slug q) (Quizzes db));
  throwIf ((isNew && bool_decide (is_Some existing)) || taken)
          (MongoServerError 11000%N) ≫= λ _,
  modify (set_Quizzes (insert id q)).

Definition pushQuiz (quizId : ObjectId) (t : ITraining) : ITraining :=
  {| training_title := training_title t; teachers := teachers t;
     training_quizzes := training_quizzes t ++ [quizId] |}.

Definition createQuizService (newId : ObjectId) (rnd : list nat)
    (data : CreateQuizData) : M IQuiz :=
  creator ← gets (λ db, Users db !! creatorId data)
            ≫= λ o, orThrow o (ApiError "Creator not found." 404);
  throwIf (bool_decide (role creator = STUDENT)
           && bool_decide (create_quizType data ≠ REVISION))
          (ApiError "Students can only create revision quizzes." 403) ≫= λ _,
  throwIf (bool_decide (role creator = TEACHER)
           && bool_decide (create_quizType data = REVISION))
          (ApiError "Teachers cannot create revision quizzes." 403) ≫= λ _,
  throwIf (negb (bool_decide
                   (role creator ∈ [ADMIN; MANAGER; TEACHER; STUDENT])))
          (ApiError "Unauthorized role for creating quizzes." 403) ≫= λ _,
  training ← gets (λ db, Trainings db !! create_trainingId data)
             ≫= λ o, orThrow o (ApiError "Training not found." 404);
  quizQuestions ←
    match questionsConfig data with
    | Some cfg =>
        match method cfg with
        | generate =>
            throwIf (is_nil (default [] (chapterIds cfg))
                     || falsyZ (numberOfQuestions cfg))
              (ApiError "Chapter IDs and number of questions are required for question generation." 400)
              ≫= λ _,
            generateQuestionsForQuiz rnd (chapterIds cfg)
              (numberOfQuestions cfg) (cfg_difficulty cfg)
        | select_ =>
            let selected := default [] (selectedQuestionIdsWithScores cfg) in
            throwIf (is_nil selected)
              (ApiError "Selected question IDs are required for manual selection." 400)
              ≫= λ _,
            let questionIds := sel_questionId <$> selected in
            existing ← gets (λ db, countExisting (Questions db) questionIds);
            throwIf (negb (existing =? length questionIds)%nat)
              (ApiError "One or more selected questions not found." 400)
              ≫= λ _,
            mret ((λ q, {| questionId := sel_questionId q;
                           score := default 1%float (sel_score q) |})
                    <$> selected)
        end
    | None =>
        throw (ApiError "A valid question configuration method (generate or select) is required." 400)
    end;
  let isPublished :=
    if bool_decide (role creator = STUDENT)
       && bool_decide (create_quizType data = REVISION)
    then false else false in
  let newQuiz :=
    {| quiz_training := create_trainingId data;
       quiz_title := create_title data;
       quiz_description := create_description data;
       thumbnailUrl := js_or (create_thumbnailUrl data) None;
       quiz_creator := creatorId data;
       quiz_slug := create_slug data;
       quizType := create_quizType data;
       deadline := create_deadline data;
       isPublished := isPublished;
       publishedAt := None;
       durationMinutes := orNull (create_durationMinutes data);
       quiz_questions := quizQuestions;
       globalScore := create_globalScore data;
       allowedAttempts := orNull (create_allowedAttempts data);
       quiz_tags := default [] (create_tags data);
       isPublic := default false (create_isPublic data) |} in
  try_catch
    (saveQuiz true newId newQuiz ≫= λ _,
     modify (set_Trainings (alter (pushQuiz newId) (create_trainingId data)))
       ≫= λ _,
     mret newQuiz)
    (λ error,
       match error with
       | ValidationError messages =>
           throw (ApiError (String.concat ", " messages) 400)
       | _ =>
           throw (ApiError "Failed to create quiz: ${error.message || 'Unknown error'}" 500)
       end).

Definition isAdminOrManager (r : UserRole) : bool :=
  bool_decide (r ∈ [ADMIN; MANAGER]).

(** The assignments of [updateQuizService] to the loaded document, without
    the question list.  [update_isPublished] and [update_thumbnailUrl] are
    accepted and never applied. *)
Definition applyQuizUpdate (data : UpdateQuizData) (quiz : IQuiz) : IQuiz :=
  {| quiz_training := quiz_training quiz;
     quiz_title := default (quiz_title quiz) (update_title data);
     quiz_description :=
       match update_description data with
       | Some d => Some d
       | None => quiz_description quiz
       end;
     thumbnailUrl := thumbnailUrl quiz;
     quiz_creator := quiz_creator quiz;
     quiz_slug := quiz_slug quiz;
     quizType := quizType quiz;
     deadline := default (deadline quiz) (update_deadline data);
     isPublished := isPublished quiz;
     publishedAt := publishedAt quiz;
     durationMinutes :=
       default (durationMinutes quiz) (update_durationMinutes data);
     quiz_questions := quiz_questions quiz;
     globalScore := default (globalScore quiz) (update_globalScore data);
     allowedAttempts :=
       default (allowedAttempts quiz) (update_allowedAttempts data);
     quiz_tags := default (quiz_tags quiz) (update_tags data);
     isPublic := default (isPublic quiz) (update_isPublic data) |}.

Definition set_quiz_questions (qs : list IQuestionWithScore) (quiz : IQuiz)
  : IQuiz :=
  {| quiz_training := quiz_training quiz; quiz_title := quiz_title quiz;
     quiz_description := quiz_description quiz;
     thumbnailUrl := thumbnailUrl quiz; quiz_creator := quiz_creator quiz;
     quiz_slug := quiz_slug quiz; quizType := quizType quiz;
     deadline := deadline quiz; isPublished := isPublished quiz;
     publishedAt := publishedAt quiz;
     durationMinutes := durationMinutes quiz;
     quiz_questions := qs;
     globalScore := globalScore quiz;
     allowedAttempts := allowedAttempts quiz;
     quiz_tags := quiz_tags quiz; isPublic := isPublic quiz |}.

Definition updateQuizService (quizId : ObjectId) (data : UpdateQuizData)
    (requestingUser : RequestingUser) : M IQuiz :=
  quiz ← gets (λ db, Quizzes db !! quizId) ≫= λ o, orThrow o NotFound_quiz;
  let isCreator := bool_decide (quiz_creator quiz = req_id requestingUser) in
  let isAdminOrManager := isAdminOrManager (req_role requestingUser) in
  throwIf (negb isCreator && negb isAdminOrManager)
          (ApiError "Not authorized to update this quiz." 403) ≫= λ _,
  throwIf (isPublished quiz && negb isAdminOrManager
           && (bool_decide (is_Some (update_questions data))
               || bool_decide (is_Some (update_globalScore data))
               || bool_decide (is_Some (update_durationMinutes data))
               || bool_decide (is_Some (update_allowedAttempts data))))
          (ApiError "Cannot update sensitive fields of a published quiz." 403)
    ≫= λ _,
  let quiz := applyQuizUpdate data quiz in
  quiz ←
    match update_questions data with
    | Some questions =>
        throwIf (is_nil questions)
          (ApiError "Quiz must contain at least one question." 400) ≫= λ _,
        let questionIds := questionId <$> questions in
        existing ← gets (λ db, countExisting (Questions db) questionIds);
        throwIf (negb (existing =? length questionIds)%nat)
          (ApiError "One or more provided question IDs are invalid." 400)
          ≫= λ _,
        mret (set_quiz_questions questions quiz)
    | None => mret quiz
    end;
  try_catch
    (saveQuiz false quizId quiz ≫= λ _, mret quiz)
    (λ error,
       match error with
       | ValidationError messages =>
           throw (ApiError (String.concat ", " messages) 400)
       | _ =>
           throw (ApiError "Failed to update quiz: ${error.message || 'Unknown error'}" 500)
       end).

Definition set_published (status : bool) (at_ : option N) (quiz : IQuiz)
  : IQuiz :=
  {| quiz_training := quiz_training quiz; quiz_title := quiz_title quiz;
     quiz_description := quiz_description quiz;
     thumbnailUrl := thumbnailUrl quiz; quiz_creator := quiz_creator quiz;
     quiz_slug := quiz_slug quiz; quizType := quizType quiz;
     deadline := deadline quiz;
     isPublished := status;
     publishedAt := at_;
     durationMinutes := durationMinutes quiz;
     quiz_questions := quiz_questions quiz;
     globalScore := globalScore quiz;
     allowedAttempts := allowedAttempts quiz;
     quiz_tags := quiz_tags quiz; isPublic := isPublic quiz |}.

Definition publishQuizService (now : N) (quizId : ObjectId)
    (publishStatus : bool) (requestingUser : RequestingUser) : M IQuiz :=
  quiz ← gets (λ db, Quizzes db !! quizId) ≫= λ o, orThrow o NotFound_quiz;
  let isCreatorTeacher :=
    bool_decide (quiz_creator quiz = req_id requestingUser)
    && bool_decide (req_role requestingUser = TEACHER) in
  let isAdminOrManager := isAdminOrManager (req_role requestingUser) in
  throwIf (negb isCreatorTeacher && negb isAdminOrManager)
          (ApiError "Not authorized to publish/unpublish this quiz." 403)
    ≫= λ _,
  throwIf (bool_decide (quizType quiz = REVISION) && publishStatus)
          RevisionNotPublishable ≫= λ _,
  throwIf (publishStatus && isPublished quiz)
          (ApiError "Quiz is already published." 400) ≫= λ _,
  throwIf (negb publishStatus && negb (isPublished quiz))
          (ApiError "Quiz is already unpublished." 400) ≫= λ _,
  let quiz :=
    set_published publishStatus (if publishStatus then Some now else None)
                  quiz in
  try_catch
    (saveQuiz false quizId quiz ≫= λ _, mret quiz)
    (λ error,
       throw (ApiError "Failed to update quiz publication status: ${error.message || 'Unknown error'}" 500)).

Definition pullQuiz (quizId : ObjectId) (t : ITraining) : ITraining :=
  {| training_title := training_title t; teachers := teachers t;
     training_quizzes :=
       List.filter (λ id, negb (bool_decide (id = quizId)))
                   (training_quizzes t) |}.

Definition deleteQuizService (quizId : ObjectId)
    (requestingUser : RequestingUser) : M unit :=
  quiz ← gets (λ db, Quizzes db !! quizId)
         ≫= λ o, orThrow o (ApiError "Quiz not found or already deleted." 404);
  let isCreator := bool_decide (quiz_creator quiz = req_id requestingUser) in
  throwIf (negb (isAdminOrManager (req_role requestingUser))
           && isPublished quiz)
          (ApiError "Published quizzes can only be deleted by admin/manager." 403)
    ≫= λ _,
  throwIf (negb (isAdminOrManager (req_role requestingUser)) && negb isCreator)
          (ApiError "Not authorized to delete this quiz." 403) ≫= λ _,
  modify (set_Trainings (alter (pullQuiz quizId) (quiz_training quiz))) ≫= λ _,
  modify (set_Quizzes (delete quizId)).

(** ** [services/quizSessionService.ts]: reading and deleting sessions

    The reading services take populate options.  [populateUser] and
    [populateQuiz] replace the [user] and the [quiz] of a returned session
    by documents; the result of the model is the session and its responses,
    which [populateQuestions] alone changes. *)

Record SessionOptions := {
  opt_populateUser : option bool;
  opt_populateQuiz : option bool;
  opt_populateQuestions : option bool;
}.

(** The reading of a name that no scope declares. *)
Definition undeclared {A} (name : string) : M A :=
  throw (ReferenceError name).

Definition NotAuthorized_view :=
  ApiError "Not authorized to view this quiz session." 403.

(** [Training.find({ teachers: id }).select('_id')] *)
Definition assignedTrainings (teacherId : ObjectId)
    (trainings : gmap ObjectId ITraining) : list ObjectId :=
  (map_to_list (filter (λ kv, teacherId ∈ teachers kv.2) trainings)).*1.

(** [Quiz.find(filter).select('_id')] *)
Definition quizIds (P : IQuiz → bool) (quizzes : gmap ObjectId IQuiz)
  : list ObjectId :=
  (map_to_list (filter (λ kv, P kv.2 = true) quizzes)).*1.

(** The service never destructures [options]: the three names that its
    body tests are free, and the first test reads [populateUser]. *)
Definition getQuizSessionByIdService (sessionId : ObjectId)
    (options : SessionOptions) (requestingUser : RequestingUser)
  : M IQuizSession :=
  undeclared "populateUser" ≫= λ populateUser : bool,
  undeclared "populateQuiz" ≫= λ populateQuiz : bool,
  undeclared "populateQuestions" ≫= λ populateQuestions : bool,
  stored ← gets (λ db, QuizSessions db !! sessionId);
  questions ← gets Questions;
  let populated :=
    (if populateQuestions
     then populateResponses questions "text type difficulty"
     else id) <$> stored in
  session ← orThrow populated NotFound_session;
  (* Authorization: a student can only view their own *)
  throwIf (bool_decide (req_role requestingUser = STUDENT)
           && negb (bool_decide (session_user session = req_id requestingUser)))
          NotAuthorized_view ≫= λ _,
  (* Teacher authorization *)
  (if bool_decide (req_role requestingUser = TEACHER) then
     quiz ← gets (λ db, Quizzes db !! session_quiz session);
     throwIf (populateQuiz && negb (bool_decide (is_Some quiz)))
             MissingQuiz ≫= λ _,
     assigned ← gets (λ db, assignedTrainings (req_id requestingUser)
                              (Trainings db));
     let isCreatorQuiz :=
       match quiz with
       | Some q => bool_decide (quiz_creator q = req_id requestingUser)
       | None => false
       end in
     let isTrainingTeacher :=
       match quiz with
       | Some q => bool_decide (quiz_training q ∈ assigned)
       | None => false
       end in
     throwIf (negb isCreatorQuiz && negb isTrainingTeacher) NotAuthorized_view
   else mret tt) ≫= λ _,
  mret session.

(** The filters that the controller builds from the query string. *)
Record SessionFilters := {
  filter_user : option ObjectId;
  filter_quiz : option ObjectId;
  filter_isCompleted : option bool;
}.

(** The condition of a query on the [quiz] of a session: none, an id,
    [{ $in: ids }], or [null], which no session matches since [quiz] is
    required. *)
Inductive QuizCondition :=
| AnyQuiz
| QuizIs (id : ObjectId)
| QuizIn (ids : list ObjectId)
| QuizNull.

Record SessionQuery := {
  query_user : option ObjectId;
  query_quiz : QuizCondition;
  query_isCompleted : option bool;
}.

Definition matchesSession (q : SessionQuery) (s : IQuizSession) : bool :=
  match query_user q with
  | Some u => bool_decide (session_user s = u)
  | None => true
  end
  && match query_quiz q with
     | AnyQuiz => true
     | QuizIs id => bool_decide (session_quiz s = id)
     | QuizIn ids => bool_decide (session_quiz s ∈ ids)
     | QuizNull => false
     end
  && match query_isCompleted q with
     | Some c => Bool.eqb (isCompleted s) c
     | None => true
     end.

(** [sort({ quizDate: -1 })].  The date of a session is set when it starts
    and read by this sort alone; it is kept apart from the record, as a
    function of the session's id. *)
Definition newestFirst (quizDate : ObjectId → N)
  : relation (ObjectId * IQuizSession) :=
  λ a b, (quizDate b.1 ≤ quizDate a.1)%N.

#[global] Instance newestFirst_dec quizDate : RelDecision (newestFirst quizDate).
Proof. intros a b. unfold newestFirst. apply _. Defined.

(** [page] and [limit] are what [parseInt] gave of the query string, if it
    had them: any number, [NaN] included. *)
Record ListOptions := {
  list_page : option number;
  list_limit : option number;
  list_populateQuestions : bool;
}.

Definition getAllQuizSessionsService (quizDate : ObjectId → N)
    (filters : SessionFilters) (options : ListOptions)
    (requestingUser : RequestingUser) : M (list (ObjectId * IQuizSession)) :=
  let page := default 1%float (list_page options) in
  let limit := default 10%float (list_limit options) in
  let skip := ((page - 1) * limit)%float in
  let quizFilter :=
    match filter_quiz filters with
    | Some id => QuizIs id
    | None => AnyQuiz
    end in
  (* Enforce authorization rules *)
  queryFilters ←
    match req_role requestingUser with
    | STUDENT =>
        mret {| query_user := Some (req_id requestingUser);
                query_quiz := quizFilter;
                query_isCompleted := filter_isCompleted filters |}
    | TEACHER =>
        createdQuizIds ←
          gets (λ db, quizIds (λ q, bool_decide
                                      (quiz_creator q = req_id requestingUser))
                              (Quizzes db));
        assignedTrainingIds ←
          gets (λ db, assignedTrainings (req_id requestingUser)
                        (Trainings db));
        quizzesFromAssignedTrainingsIds ←
          gets (λ db, quizIds (λ q, bool_decide
                                      (quiz_training q ∈ assignedTrainingIds))
                              (Quizzes db));
        (* a [Set] of [ObjectId] objects removes nothing *)
        let accessibleQuizIds :=
          createdQuizIds ++ quizzesFromAssignedTrainingsIds in
        match filter_user filters with
        | Some targetUserId =>
            userExists ← gets (λ db, Users db !! targetUserId);
            throwIf (negb (bool_decide (is_Some userExists)))
                    (ApiError "Target user not found." 404)
        | None => mret tt
        end ≫= λ _,
        mret {| query_user := filter_user filters;
                query_quiz := if is_nil accessibleQuizIds then QuizNull
                              else QuizIn accessibleQuizIds;
                query_isCompleted := filter_isCompleted filters |}
    | ADMIN | MANAGER =>
        mret {| query_user := filter_user filters;
                query_quiz := quizFilter;
                query_isCompleted := filter_isCompleted filters |}
    end;
  sorted ←
    gets (λ db,
      merge_sort (newestFirst quizDate)
        (map_to_list
           (filter (λ kv, matchesSession queryFilters kv.2 = true)
                   (QuizSessions db))));
  sessions ← match skipLimit _ skip limit sorted with
             | inl error => throw error
             | inr window => mret window
             end;
  if list_populateQuestions options then
    questions ← gets Questions;
    mret (prod_map id (populateResponses questions "text type difficulty")
            <$> sessions)
  else mret sessions.

Definition deleteQuizSessionService (sessionId : ObjectId)
    (requestingUser : RequestingUser) : M unit :=
  session ← gets (λ db, QuizSessions db !! sessionId)
            ≫= λ o, orThrow o
                      (ApiError "Quiz session not found or could not be deleted." 404);
  let isAdminOrManager := isAdminOrManager (req_role requestingUser) in
  let isStudentAndOwnIncompleteRevision :=
    bool_decide (req_role requestingUser = STUDENT)
    && bool_decide (session_user session = req_id requestingUser)
    && negb (isCompleted session) in
  throwIf (negb isAdminOrManager && negb isStudentAndOwnIncompleteRevision)
          (ApiError "Not authorized to delete this quiz session." 403) ≫= λ _,
  modify (set_QuizSessions (delete sessionId)).

(** ** [services/quizService.ts]: reading quizzes *)

(** An entry of the [questions] array of a returned quiz: its [questionId]
    is an id, or what [populate] put in its place. *)
Record PopulatedEntry := {
  entry_question : ResponseQuestion;
  entry_score : number;
}.

(** A quiz as a reading service returns it: the document, and its
    [questions] array as returned. *)
Record PopulatedQuiz := {
  populated_quiz : IQuiz;
  populated_questions : list PopulatedEntry;
}.

(** [populate('questions.questionId', ...)]: the entry of a question that no
    longer exists holds [null]. *)
Definition populateManifest (questions : gmap ObjectId IQuestion)
    (view : ObjectId → IQuestion → json) (manifest : list IQuestionWithScore)
  : list PopulatedEntry :=
  (λ qItem,
     {| entry_question :=
          QuestionDoc (match questions !! questionId qItem with
                       | Some q => view (questionId qItem) q
                       | None => JNull
                       end);
        entry_score := score qItem |}) <$> manifest.

Definition unpopulated (manifest : list IQuestionWithScore)
  : list PopulatedEntry :=
  (λ qItem, {| entry_question := QuestionRef (questionId qItem);
               entry_score := score qItem |}) <$> manifest.

Definition quizSelect : string :=
  "text type choices.text choices.isCorrect correctAnswerFormula difficulty explanation mediaType mediaUrl mediaAltText choices.choiceMediaType choices.choiceMediaUrl choices.choiceMediaAltText".

Definition NotAuthorized_quiz :=
  ApiError "Not authorized to view this quiz." 403.

Record QuizOptions := {
  opt_populateCreator : option bool;
  opt_populateTraining : option bool;
  opt_quiz_populateQuestions : option bool;
}.

(** [GENERAL_TRAINING_ID] is read from the environment and may be
    missing.  The service never destructures [options]: the three names
    that its body tests are free, and the first test reads
    [populateCreator]. *)
Definition getQuizByIdService (GENERAL_TRAINING_ID : option ObjectId)
    (quizId : ObjectId) (options : QuizOptions)
    (requestingUser : RequestingUser) : M PopulatedQuiz :=
  undeclared "populateCreator" ≫= λ populateCreator : bool,
  undeclared "populateTraining" ≫= λ populateTraining : bool,
  undeclared "populateQuestions" ≫= λ populateQuestions : bool,
  found ← gets (λ db, Quizzes db !! quizId);
  questions ← gets Questions;
  quiz ← orThrow found NotFound_quiz;
  (* Authorization check for single quiz access *)
  let isCreator := bool_decide (quiz_creator quiz = req_id requestingUser) in
  let isAdminOrManager := isAdminOrManager (req_role requestingUser) in
  (if negb (isPublic quiz) then
     let isGeneralTrainingQuiz :=
       bool_decide (Some (quiz_training quiz) = GENERAL_TRAINING_ID)
       && isPublished quiz in
     if negb isGeneralTrainingQuiz then
       throwIf (negb (isPublished quiz) && negb isCreator
                && negb isAdminOrManager) NotAuthorized_quiz ≫= λ _,
       throwIf (bool_decide (req_role requestingUser = STUDENT)
                && negb (isPublished quiz)
                && negb (isCreator && bool_decide (quizType quiz = REVISION)))
               NotAuthorized_quiz ≫= λ _,
       throwIf (bool_decide (req_role requestingUser = TEACHER)
                && negb (isPublished quiz) && negb isCreator)
               NotAuthorized_quiz
     else mret tt
   else mret tt) ≫= λ _,
  mret {| populated_quiz := quiz;
          populated_questions :=
            if populateQuestions
            then populateManifest questions
                   (λ id q, select quizSelect (IQuestion_json id q))
                   (quiz_questions quiz)
            else unpopulated (quiz_questions quiz) |}.

Definition PublicNotFound :=
  ApiError "Public quiz not found or not accessible." 404.

(** The [publicQuestion] that [getPublicQuizByIdService] builds from a
    populated question; every field it reads is in the selection of the
    populate.  A field that is [undefined] is absent from the JSON. *)
Definition publicChoices (q : IQuestion) : option (list json) :=
  match question_type q, choices q with
  | QCM, Some cs => Some (IChoice_json <$> cs)
  | _, _ => None
  end.

Definition publicQuestion (id : ObjectId) (q : IQuestion) : json :=
  JObj ([("_id", JStr id);
         ("text", ILocalizedString_json (question_text q));
         ("type", JStr (QuestionType_value (question_type q)));
         ("difficulty", JStr (Difficulty_value (difficulty q)));
         ("tags", JArr (JStr <$> question_tags q))]
        ++ opt_field "correctAnswerFormula" JStr (correctAnswerFormula q)
        ++ opt_field "mediaType" MediaType_json (mediaType q)
        ++ opt_field "mediaUrl" JStr (mediaUrl q)
        ++ opt_field "mediaAltText" JStr (mediaAltText q)
        ++ opt_field "choices" JArr (publicChoices q)).

(** The [catch] of the public services: an [ApiError] goes through. *)
Definition rethrowApiError {A} (error : Exception) : M A :=
  match error with
  | ApiError _ _ => throw error
  | _ =>
      throw (ApiError "Failed to retrieve public quiz: ${error.message || 'Unknown error'}" 500)
  end.

Definition getPublicQuizByIdService (quizId : ObjectId) : M PopulatedQuiz :=
  try_catch
    (found ← gets (λ db, Quizzes db !! quizId);
     questions ← gets Questions;
     quiz ← orThrow (match found with
                     | Some q => if isPublic q && isPublished q then Some q
                                 else None
                     | None => None
                     end) PublicNotFound;
     mret {| populated_quiz := quiz;
             populated_questions :=
               populateManifest questions publicQuestion
                                (quiz_questions quiz) |})
    rethrowApiError.

(** [Quiz.findOne(filter)]: the first document that matches. *)
Definition findOne (P : IQuiz → bool) (quizzes : gmap ObjectId IQuiz)
  : option IQuiz :=
  snd <$> List.find (λ kv, P kv.2) (map_to_list quizzes).

(** The sampling loop of [getPublicQuizBySlugService].  Each element of
    [rnd] stands for one call of [Math.random()]: the draw [r] is the index
    [r mod allQuestions.length].  The loop runs for as long as it needs
    draws; when [rnd] runs out before it is done, there is no result. *)
Fixpoint sampleLoop {A} (rnd : list nat) (limit : nat) (allQuestions : list A)
    (sampledQuestions : list A) (usedIndices : list nat) : option (list A) :=
  if (limit <=? length sampledQuestions)%nat then Some sampledQuestions
  else
    match rnd with
    | [] => None
    | r :: rnd' =>
        let randomIndex := (r `mod` length allQuestions)%nat in
        if bool_decide (randomIndex ∈ usedIndices)
        then sampleLoop rnd' limit allQuestions sampledQuestions usedIndices
        else
          match allQuestions !! randomIndex with
          | Some q =>
              sampleLoop rnd' limit allQuestions (sampledQuestions ++ [q])
                         (usedIndices ++ [randomIndex])
          | None => None (* not reached: the index is below the length *)
          end
    end.

(** [limit] is what [parseInt] gave, if anything: a missing limit, [NaN]
    and [0] are falsy. *)
Definition getPublicQuizBySlugService (rnd : list nat) (slug : string)
    (limit : option Z) : M (option PopulatedQuiz) :=
  try_catch
    (found ← gets (λ db, findOne (λ q, String.eqb (quiz_slug q) slug
                                       && isPublic q && isPublished q)
                                 (Quizzes db));
     quiz ← orThrow found PublicNotFound;
     let sampled :=
       if negb (falsyZ limit)
          && (default 0%Z limit <? Z.of_nat (length (quiz_questions quiz)))%Z
       then sampleLoop rnd (Z.to_nat (default 0%Z limit))
                       (quiz_questions quiz) [] []
       else Some (quiz_questions quiz) in
     questions ← gets Questions;
     mret ((λ manifest,
              {| populated_quiz := set_quiz_questions manifest quiz;
                 populated_questions :=
                   populateManifest questions IQuestion_json manifest |})
             <$> sampled))
    rethrowApiError.

(** ** The routes

    [protect] puts the authenticated user in the request, [authorize]
    checks the user's role, and the controller calls the service.  The
    checks of a controller on the presence and the type of a field hold of
    the typed arguments and are not represented. *)

(** [middlewares/roleMiddleware.ts] *)
Definition authorize (allowedRoles : list UserRole) (user : RequestingUser)
  : M unit :=
  throwIf (negb (bool_decide (req_role user ∈ allowedRoles)))
    (ApiError "Role '${req.user.role}' is not authorized to access this resource. Required roles: ${allowedRoles.join(', ')}." 403).

(** [Object.values(AvailableLanguage).includes(language)] *)
Definition parseLanguage (language : string) : option AvailableLanguage :=
  if String.eqb language "fr" then Some FR
  else if String.eqb language "en" then Some EN
  else if String.eqb language "ar" then Some AR
  else if String.eqb language "es" then Some ES
  else None.

(** [controllers/quizSessionController.ts] *)
Definition startQuizSession (newId : ObjectId) (user : RequestingUser)
    (quizId : ObjectId) (language : string) : M IQuizSession :=
  throwIf (negb (bool_decide (req_role user = STUDENT)))
          (ApiError "Only students can start quiz sessions." 403) ≫= λ _,
  language ← orThrow (parseLanguage language)
    (ApiError "Invalid language provided. Must be one of: ${Object.values(AvailableLanguage).join(', ')}." 400);
  startQuizSessionService newId
    {| start_user := req_id user; start_quizId := quizId;
       start_language := language |}.

(** [controllers/quizController.ts].  The controller reads the fields of the
    body that it names, and passes neither [thumbnailUrl] nor [isPublic]
    on. *)
Definition createQuiz (newId : ObjectId) (rnd : list nat)
    (user : RequestingUser) (body : CreateQuizData) : M IQuiz :=
  throwIf (match questionsConfig body with
           | Some cfg =>
               negb (bool_decide (is_Some (selectedQuestionIdsWithScores cfg)))
               && falsyZ (numberOfQuestions cfg)
           | None => true
           end)
    (ApiError "Question configuration (selected questions or generation parameters) is required." 400)
    ≫= λ _,
  throwIf (bool_decide (req_role user = STUDENT)
           && bool_decide (create_quizType body ≠ REVISION))
          (ApiError "Students can only create revision quizzes." 403) ≫= λ _,
  throwIf (bool_decide (req_role user = TEACHER)
           && bool_decide (create_quizType body = REVISION))
          (ApiError "Teachers cannot create revision quizzes directly." 403)
    ≫= λ _,
  throwIf (negb (bool_decide (req_role user ∈ [TEACHER; ADMIN; MANAGER]))
           && bool_decide (create_quizType body ≠ REVISION))
          (ApiError "Only teachers, admins or managers can create formative/summative quizzes." 403)
    ≫= λ _,
  createQuizService newId rnd
    {| create_trainingId := create_trainingId body;
       create_title := create_title body;
       create_description := create_description body;
       create_thumbnailUrl := None;
       creatorId := req_id user;
       create_quizType := create_quizType body;
       create_slug := create_slug body;
       create_deadline := create_deadline body;
       create_durationMinutes := create_durationMinutes body;
       create_globalScore := create_globalScore body;
       create_allowedAttempts := create_allowedAttempts body;
       create_tags := create_tags body;
       questionsConfig := questionsConfig body;
       create_isPublic := None |}.

Definition updateQuiz (quizId : ObjectId) (user : RequestingUser)
    (body : UpdateQuizData) : M IQuiz :=
  updateQuizService quizId
    {| update_title := update_title body;
       update_description := update_description body;
       update_thumbnailUrl := None;
       update_deadline := update_deadline body;
       update_isPublished := None;
       update_durationMinutes := update_durationMinutes body;
       update_globalScore := update_globalScore body;
       update_allowedAttempts := update_allowedAttempts body;
       update_tags := update_tags body;
       update_questions := update_questions body;
       update_isPublic := None |}
    user.

(** A request that writes, as [routes/quizRoutes.ts] and
    [routes/quizSessionRoutes.ts] serve it. *)
Inductive ApiRequest :=
| POST_quizzes (newId : ObjectId) (rnd : list nat) (body : CreateQuizData)
| PUT_quizzes (quizId : ObjectId) (body : UpdateQuizData)
| PATCH_quizzes_publish (now : N) (quizId : ObjectId) (isPublished : bool)
| DELETE_quizzes (quizId : ObjectId)
| POST_quiz_sessions_start (newId : ObjectId) (quizId : ObjectId)
    (language : string)
| PUT_quiz_sessions_submit (sessionId : ObjectId)
    (body : SubmitQuizSessionData)
| DELETE_quiz_sessions (sessionId : ObjectId).

Definition route (user : RequestingUser) (r : ApiRequest) : M unit :=
  match r with
  | POST_quizzes newId rnd body =>
      authorize [STUDENT; TEACHER; ADMIN; MANAGER] user ≫= λ _,
      createQuiz newId rnd user body ≫= λ _, mret tt
  | PUT_quizzes quizId body =>
      authorize [STUDENT; TEACHER; ADMIN; MANAGER] user ≫= λ _,
      updateQuiz quizId user body ≫= λ _, mret tt
  | PATCH_quizzes_publish now quizId isPublished =>
      authorize [TEACHER; ADMIN; MANAGER] user ≫= λ _,
      publishQuizService now quizId isPublished user ≫= λ _, mret tt
  | DELETE_quizzes quizId =>
      authorize [TEACHER; ADMIN; MANAGER] user ≫= λ _,
      deleteQuizService quizId user
  | POST_quiz_sessions_start newId quizId language =>
      authorize [STUDENT] user ≫= λ _,
      startQuizSession newId user quizId language ≫= λ _, mret tt
  | PUT_quiz_sessions_submit sessionId body =>
      authorize [STUDENT] user ≫= λ _,
      submitQuizSession (req_role user) sessionId body (req_id user)
        ≫= λ _, mret tt
  | DELETE_quiz_sessions sessionId =>
      authorize [STUDENT; MANAGER; ADMIN] user ≫= λ _,
      deleteQuizSessionService sessionId user
  end.

(** The store after the requests of a list of authenticated users. *)
Definition serve (requests : list (RequestingUser * ApiRequest)) (db : DB)
  : DB :=
  foldl (λ db r, (route r.1 r.2 db).1) db requests.

(** ** Requests

    The operations of the services that write to the store, as a client can
    issue them one after the other. *)

Inductive Request :=
| CreateQuiz (newId : ObjectId) (rnd : list nat) (data : CreateQuizData)
| UpdateQuiz (quizId : ObjectId) (data : UpdateQuizData)
    (requestingUser : RequestingUser)
| PublishQuiz (now : N) (quizId : ObjectId) (publishStatus : bool)
    (requestingUser : RequestingUser)
| DeleteQuiz (quizId : ObjectId) (requestingUser : RequestingUser)
| StartSession (newId : ObjectId) (data : StartQuizSessionData)
| SubmitSession (sessionId : ObjectId) (data : SubmitQuizSessionData)
    (requestingUserId : ObjectId).

(** The store after a request, whether the request succeeded or threw. *)
Definition handle (r : Request) (db : DB) : DB :=
  match r with
  | CreateQuiz newId rnd data => (createQuizService newId rnd data db).1
  | UpdateQuiz quizId data u => (updateQuizService quizId data u db).1
  | PublishQuiz now quizId status u =>
      (publishQuizService now quizId status u db).1
  | DeleteQuiz quizId u => (deleteQuizService quizId u db).1
  | StartSession newId data => (startQuizSessionService newId data db).1
  | SubmitSession sessionId data u =>
      (submitQuizSessionService sessionId data u db).1
  end.

Definition handleAll (rs : list Request) (db : DB) : DB :=
  foldl (λ db r, handle r db) db rs.

End Services.

(** ** A sample store *)

Module Sample.

(** The runtime of the samples.  It prints an integer as JavaScript prints
    one below [10^21], in decimal; the samples print no other number.  Its
    window is the one of MongoDB for a skip that is a natural number and a
    limit that is an integer, where [limit(0)] sets no limit. *)
Definition integerOf (x : number) : option Z :=
  match Prim2SF x with
  | S754_zero _ => Some 0%Z
  | S754_finite s m e =>
      let sign := if s then (-1)%Z else 1%Z in
      if (0 <=? e)%Z then Some (sign * Z.pos m * 2 ^ e)%Z
      else if (Z.pos m `mod` 2 ^ (- e) =? 0)%Z
           then Some (sign * (Z.pos m `div` 2 ^ (- e)))%Z
           else None
  | _ => None
  end.

Definition printNumber (x : number) : string :=
  match integerOf x with
  | Some z => pretty z
  | None => if is_nan x then "NaN" else ""
  end.

Definition window (A : Type) (skip limit : number) (l : list A)
  : Exception + list A :=
  match integerOf skip, integerOf limit with
  | Some s, Some n =>
      if (s <? 0)%Z then inl (MongoServerError 2%N)
      else inr (if (n =? 0)%Z then drop (Z.to_nat s) l
                else take (Z.to_nat (Z.abs n)) (drop (Z.to_nat s) l))
  | _, _ => inl (CastError "skip")
  end.

Definition runtime : Runtime :=
  {| Number_toString := printNumber; skipLimit := window |}.

#[local] Existing Instance runtime.

(** What [toString()] gives of the populated user of a session: the one
    requester that the owner test of a submission lets through. *)
Definition requester : string := "[object Object]".

Definition txt (s : string) : ILocalizedString :=
  {| ls_fr := s; ls_en := s; ls_ar := None; ls_es := None |}.

Definition choice (s : string) (correct : bool) : IChoice :=
  {| choice_text := {| lc_fr := s; lc_en := Some s;
                       lc_ar := None; lc_es := None |};
     choice_isCorrect := correct;
     choiceMediaType := None; choiceMediaUrl := None;
     choiceMediaAltText := None |}.

Definition qcm (prompt : string) (cs : list IChoice) : IQuestion :=
  {| question_chapter := "c1"; question_text := txt prompt;
     mediaType := None; mediaUrl := None; mediaAltText := None;
     question_type := QCM; choices := Some cs;
     correctAnswerFormula := None;
     explanation := Some (txt "because");
     difficulty := easy; question_tags := ["sample"] |}.

Definition calcul (prompt formula : string) : IQuestion :=
  {| question_chapter := "c1"; question_text := txt prompt;
     mediaType := None; mediaUrl := None; mediaAltText := None;
     question_type := CALCUL; choices := Some [];
     correctAnswerFormula := Some formula;
     explanation := None;
     difficulty := medium; question_tags := [] |}.

(** Two correct choices out of three. *)
Definition q1 := qcm "primes" [choice "2" true; choice "3" true; choice "4" false].
Definition q2 := qcm "capital" [choice "Paris" true; choice "Rome" false].
Definition q3 := calcul "6*7" "42".
Definition q4 := qcm "even" [choice "2" true; choice "3" false].

Definition student := {| username := "sam"; role := STUDENT |}.
Definition teacher := {| username := "tom"; role := TEACHER |}.

(** The quiz of the weighting example: global score 20, four questions of
    one point each, one attempt. *)
Definition quiz : IQuiz :=
  {| quiz_training := "t1"; quiz_title := txt "Quiz";
     quiz_description := None; thumbnailUrl := None;
     quiz_creator := "teacher1"; quiz_slug := "quiz";
     quizType := FORMATIVE; deadline := Some 100%N;
     isPublished := true; publishedAt := Some 1%N;
     durationMinutes := None;
     quiz_questions :=
       [ {| questionId := "q1"; score := 1 |};
         {| questionId := "q2"; score := 1 |};
         {| questionId := "q3"; score := 1 |};
         {| questionId := "q4"; score := 1 |} ];
     globalScore := 20; allowedAttempts := Some 1%float;
     quiz_tags := []; isPublic := false |}.

Definition training : ITraining :=
  {| training_title := txt "Training"; teachers := ["teacher1"];
     training_quizzes := ["quiz1"] |}.

Definition db0 : DB :=
  {| Users := {[ "student1" := student; "teacher1" := teacher ]};
     Trainings := {[ "t1" := training ]};
     Questions := {[ "q1" := q1; "q2" := q2; "q3" := q3; "q4" := q4 ]};
     Quizzes := {[ "quiz1" := quiz ]};
     QuizSessions := ∅;
     Notifications := [] |}.

Definition start : StartQuizSessionData :=
  {| start_user := "student1"; start_quizId := "quiz1";
     start_language := EN |}.

(** The store once the student has started session ["s1"]. *)
Definition db1 : DB := (startQuizSessionService "s1" start db0).1.

(** The session that this call returns. *)
Definition session1 : IQuizSession :=
  Eval vm_compute in
    match (startQuizSessionService "s1" start db0).2 with
    | inr s => s
    | inl _ =>
        {| session_user := ""; session_quiz := ""; totalScoreEarned := 0;
           maxPossibleScore := 0; quizGlobalScore := 0;
           finalCalculatedScore := 0; durationSeconds := 0;
           responses := []; language := FR; isCompleted := false;
           passStatus := None; attemptNumber := 0 |}
    end.

Definition answer (q : ObjectId) (a : UserAnswer) : SubmittedResponse :=
  {| sub_question := q; sub_userAnswer := a; sub_timeTakenSeconds := None |}.

(** Three right answers out of four. *)
Definition threeOfFour : SubmitQuizSessionData :=
  {| sub_responses :=
       [ answer "q1" (AnswerList ["3"; "2"]);
         answer "q2" (AnswerText "Paris");
         answer "q3" (AnswerNumber 42);
         answer "q4" (AnswerText "3") ];
     sub_durationSeconds := 60 |}.

(** One right answer, sent once; and the same answer sent five times. *)
Definition oneAnswer : SubmitQuizSessionData :=
  {| sub_responses := [answer "q2" (AnswerText "Paris")];
     sub_durationSeconds := 10 |}.

Definition fiveTimes : SubmitQuizSessionData :=
  {| sub_responses := replicate 5 (answer "q2" (AnswerText "Paris"));
     sub_durationSeconds := 10 |}.

(** The store after this submission, and the session it returns. *)
Definition db2 : DB :=
  (submitQuizSessionService "s1" threeOfFour requester db1).1.

(** The same store once the teacher's account has been deleted: the
    creator of the quiz is no longer a user. *)
Definition db1_orphan : DB :=
  {| Users := delete "teacher1" (Users db1);
     Trainings := Trainings db1; Questions := Questions db1;
     Quizzes := Quizzes db1; QuizSessions := QuizSessions db1;
     Notifications := Notifications db1 |}.

(** The session as [db1] stores it, and the graded update that the first
    half of the submission computes for it. *)
Definition stored1 : IQuizSession :=
  Eval vm_compute in default session1 (QuizSessions db1 !! "s1").

Definition update1 : SessionUpdate :=
  Eval vm_compute in
    match (gradeSubmission "s1" threeOfFour requester db1).2 with
    | inr u => u
    | inl _ =>
        {| upd_responses := []; upd_totalScoreEarned := 0;
           upd_finalCalculatedScore := 0; upd_durationSeconds := 0;
           upd_passStatus := failed |}
    end.

Definition update1B : SessionUpdate :=
  Eval vm_compute in
    match (gradeSubmission "s1" oneAnswer requester db1).2 with
    | inr u => u
    | inl _ => update1
    end.

Definition graded1 : IQuizSession :=
  Eval vm_compute in
    match (submitQuizSessionService "s1" threeOfFour requester db1).2 with
    | inr s => s
    | inl _ => session1
    end.

(** A revision quiz that the student assembles from two questions, and
    the requests that try to publish it. *)
Definition revisionQuiz : CreateQuizData :=
  {| create_trainingId := "t1"; create_title := txt "Revision";
     create_description := None; create_thumbnailUrl := None;
     creatorId := "student1"; create_quizType := REVISION;
     create_slug := "my-revision"; create_deadline := None;
     create_durationMinutes := None; create_globalScore := 20;
     create_allowedAttempts := None; create_tags := None;
     questionsConfig :=
       Some {| method := select_; chapterIds := None;
               numberOfQuestions := None; cfg_difficulty := None;
               selectedQuestionIdsWithScores :=
                 Some [ {| sel_questionId := "q1"; sel_score := None |};
                        {| sel_questionId := "q2";
                           sel_score := Some 2%float |} ] |};
     create_isPublic := None |}.

Definition publishedPlease : UpdateQuizData :=
  {| update_title := None; update_description := None;
     update_thumbnailUrl := None; update_deadline := None;
     update_isPublished := Some true; update_durationMinutes := None;
     update_globalScore := None; update_allowedAttempts := None;
     update_tags := Some ["published"]; update_questions := None;
     update_isPublic := Some true |}.

Definition admin : RequestingUser :=
  {| req_id := "admin1"; req_role := ADMIN |}.

Definition publishAttempts : list Request :=
  [ CreateQuiz "quiz2" [] revisionQuiz;
    PublishQuiz 7%N "quiz2" true admin;
    UpdateQuiz "quiz2" publishedPlease
      {| req_id := "student1"; req_role := STUDENT |};
    PublishQuiz 8%N "quiz1" false admin ].

(** A quiz that the teacher asks to generate from chapter ["c1"], which
    holds four questions. *)
Definition generated (n : Z) : CreateQuizData :=
  {| create_trainingId := "t1"; create_title := txt "Generated";
     create_description := None; create_thumbnailUrl := None;
     creatorId := "teacher1"; create_quizType := FORMATIVE;
     create_slug := "generated"; create_deadline := Some 100%N;
     create_durationMinutes := None; create_globalScore := 20;
     create_allowedAttempts := None; create_tags := None;
     questionsConfig :=
       Some {| method := generate; chapterIds := Some ["c1"];
               numberOfQuestions := Some n; cfg_difficulty := None;
               selectedQuestionIdsWithScores := None |};
     create_isPublic := None |}.

(** The same for the answer sent five times. *)
Definition db5 : DB :=
  (submitQuizSessionService "s1" fiveTimes requester db1).1.

Definition graded5 : IQuizSession :=
  Eval vm_compute in
    match (submitQuizSessionService "s1" fiveTimes requester db1).2 with
    | inr s => s
    | inl _ => session1
    end.

End Sample.

(** ** More of the sample store *)

Module Scenario.

#[local] Existing Instance Sample.runtime.

Definition studentUser : RequestingUser :=
  {| req_id := "student1"; req_role := STUDENT |}.

Definition teacherUser : RequestingUser :=
  {| req_id := "teacher1"; req_role := TEACHER |}.

(** A quiz that the teacher has not published yet. *)
Definition draft : IQuiz :=
  {| quiz_training := "t1"; quiz_title := Sample.txt "Draft";
     quiz_description := None; thumbnailUrl := None;
     quiz_creator := "teacher1"; quiz_slug := "draft";
     quizType := FORMATIVE; deadline := Some 100%N;
     isPublished := false; publishedAt := None;
     durationMinutes := None;
     quiz_questions :=
       [ {| questionId := "q1"; score := 2 |};
         {| questionId := "q2"; score := 1 |} ];
     globalScore := 10; allowedAttempts := None;
     quiz_tags := []; isPublic := false |}.

Definition dbDraft : DB := set_Quizzes (insert "quiz3" draft) Sample.db0.

Definition startDraft : StartQuizSessionData :=
  {| start_user := "student1"; start_quizId := "quiz3";
     start_language := FR |}.

(** The sample store once its questions have been deleted. *)
Definition dbNoQuestions : DB :=
  {| Users := Users Sample.db0; Trainings := Trainings Sample.db0;
     Questions := ∅; Quizzes := Quizzes Sample.db0;
     QuizSessions := ∅; Notifications := [] |}.

(** The sample quiz, public. *)
Definition publicQuiz : IQuiz :=
  {| quiz_training := "t1"; quiz_title := Sample.txt "Quiz";
     quiz_description := None; thumbnailUrl := None;
     quiz_creator := "teacher1"; quiz_slug := "quiz";
     quizType := FORMATIVE; deadline := Some 100%N;
     isPublished := true; publishedAt := Some 1%N;
     durationMinutes := None;
     quiz_questions := quiz_questions Sample.quiz;
     globalScore := 20; allowedAttempts := Some 1%float;
     quiz_tags := []; isPublic := true |}.

Definition dbPublic : DB := set_Quizzes (insert "quiz1" publicQuiz) Sample.db0.

(** A true/false question, and a quiz that holds it. *)
Definition q5 : IQuestion :=
  {| question_chapter := "c1"; question_text := Sample.txt "2 is even";
     mediaType := None; mediaUrl := None; mediaAltText := None;
     question_type := TRUE_FALSE; choices := None;
     correctAnswerFormula := None; explanation := None;
     difficulty := easy; question_tags := [] |}.

Definition quizTF : IQuiz :=
  {| quiz_training := "t1"; quiz_title := Sample.txt "True or false";
     quiz_description := None; thumbnailUrl := None;
     quiz_creator := "teacher1"; quiz_slug := "true-or-false";
     quizType := FORMATIVE; deadline := Some 100%N;
     isPublished := true; publishedAt := Some 1%N;
     durationMinutes := None;
     quiz_questions :=
       [ {| questionId := "q5"; score := 1 |};
         {| questionId := "q2"; score := 1 |} ];
     globalScore := 20; allowedAttempts := None;
     quiz_tags := []; isPublic := false |}.

Definition dbTF : DB :=
  {| Users := Users Sample.db0; Trainings := Trainings Sample.db0;
     Questions := <["q5" := q5]> (Questions Sample.db0);
     Quizzes := <["quiz5" := quizTF]> (Quizzes Sample.db0);
     QuizSessions := ∅; Notifications := [] |}.

Definition startTF : StartQuizSessionData :=
  {| start_user := "student1"; start_quizId := "quiz5";
     start_language := FR |}.

Definition dbTF1 : DB := (startQuizSessionService "s5" startTF dbTF).1.

Definition trueOrFalse : SubmitQuizSessionData :=
  {| sub_responses :=
       [ Sample.answer "q5" (AnswerText "true");
         Sample.answer "q2" (AnswerText "Paris") ];
     sub_durationSeconds := 30 |}.

Definition dbTF2 : DB :=
  (submitQuizSessionService "s5" trueOrFalse Sample.requester dbTF1).1.

Definition gradedTF : IQuizSession :=
  Eval vm_compute in
    match (submitQuizSessionService "s5" trueOrFalse Sample.requester dbTF1).2 with
    | inr s => s
    | inl _ => Sample.session1
    end.

(** The question [Sample.q1] with its choices in the other order. *)
Definition q1_reversed : IQuestion :=
  Sample.qcm "primes"
    (rev [Sample.choice "2" true; Sample.choice "3" true;
          Sample.choice "4" false]).

(** Four right answers out of four. *)
Definition allRight : SubmitQuizSessionData :=
  {| sub_responses :=
       [ Sample.answer "q1" (AnswerList ["2"; "3"]);
         Sample.answer "q2" (AnswerText "Paris");
         Sample.answer "q3" (AnswerNumber 42);
         Sample.answer "q4" (AnswerText "2") ];
     sub_durationSeconds := 60 |}.

(** An answer to a question that the store does not hold. *)
Definition unknownQuestion : SubmitQuizSessionData :=
  {| sub_responses := [Sample.answer "q9" (AnswerText "?")];
     sub_durationSeconds := 5 |}.

(** The store of the open session once the question ["q2"] of its quiz
    has been deleted, and an answer with a negative duration. *)
Definition dbQ2Gone : DB :=
  {| Users := Users Sample.db1; Trainings := Trainings Sample.db1;
     Questions := delete "q2" (Questions Sample.db1);
     Quizzes := Quizzes Sample.db1; QuizSessions := QuizSessions Sample.db1;
     Notifications := Notifications Sample.db1 |}.

Definition backdated : SubmitQuizSessionData :=
  {| sub_responses := sub_responses Sample.oneAnswer;
     sub_durationSeconds := -1 |}.

(** A quiz with decimal scores that make 1 in the order of its manifest, on
    a global score of 3, a session on it, and three right answers in two
    orders. *)
Definition decimalQuiz : IQuiz :=
  {| quiz_training := "t1"; quiz_title := Sample.txt "Decimal";
     quiz_description := None; thumbnailUrl := None;
     quiz_creator := "teacher1"; quiz_slug := "decimal";
     quizType := FORMATIVE; deadline := Some 100%N;
     isPublished := true; publishedAt := Some 1%N;
     durationMinutes := None;
     quiz_questions :=
       [ {| questionId := "q1"; score := 0.1 |};
         {| questionId := "q2"; score := 0.2 |};
         {| questionId := "q3"; score := 0.3 |};
         {| questionId := "q4"; score := 0.4 |} ];
     globalScore := 3; allowedAttempts := None;
     quiz_tags := []; isPublic := false |}.

Definition dbDecimal : DB :=
  (startQuizSessionService "s6"
     {| start_user := "student1"; start_quizId := "quiz6";
        start_language := EN |}
     (set_Quizzes (insert "quiz6" decimalQuiz) Sample.db0)).1.

Definition inOrder : SubmitQuizSessionData :=
  {| sub_responses :=
       [ Sample.answer "q1" (AnswerList ["2"; "3"]);
         Sample.answer "q2" (AnswerText "Paris");
         Sample.answer "q4" (AnswerText "2") ];
     sub_durationSeconds := 60 |}.

Definition outOfOrder : SubmitQuizSessionData :=
  {| sub_responses :=
       [ Sample.answer "q1" (AnswerList ["2"; "3"]);
         Sample.answer "q4" (AnswerText "2");
         Sample.answer "q2" (AnswerText "Paris") ];
     sub_durationSeconds := 60 |}.

(** A quiz whose scores make 2.5 in the order of its manifest, on a global
    score of 20, a session on it, and its four right answers, the last
    question first. *)
Definition heavyQuiz : IQuiz :=
  {| quiz_training := "t1"; quiz_title := Sample.txt "Heavy";
     quiz_description := None; thumbnailUrl := None;
     quiz_creator := "teacher1"; quiz_slug := "heavy";
     quizType := FORMATIVE; deadline := Some 100%N;
     isPublished := true; publishedAt := Some 1%N;
     durationMinutes := None;
     quiz_questions :=
       [ {| questionId := "q1"; score := 0.2 |};
         {| questionId := "q2"; score := 0.1 |};
         {| questionId := "q3"; score := 0.7 |};
         {| questionId := "q4"; score := 1.5 |} ];
     globalScore := 20; allowedAttempts := None;
     quiz_tags := []; isPublic := false |}.

Definition dbHeavy : DB :=
  (startQuizSessionService "s7"
     {| start_user := "student1"; start_quizId := "quiz7";
        start_language := EN |}
     (set_Quizzes (insert "quiz7" heavyQuiz) Sample.db0)).1.

Definition lastFirst : SubmitQuizSessionData :=
  {| sub_responses :=
       [ Sample.answer "q4" (AnswerText "2");
         Sample.answer "q3" (AnswerText "42");
         Sample.answer "q2" (AnswerText "Paris");
         Sample.answer "q1" (AnswerList ["2"; "3"]) ];
     sub_durationSeconds := 60 |}.

(** The graded session as [Sample.db2] stores it. *)
Definition storedGraded : IQuizSession :=
  Eval vm_compute in
    default Sample.session1 (QuizSessions Sample.db2 !! "s1").

(** The store once the student has created the revision quiz, and the
    quiz. *)
Definition dbRevision : DB :=
  (createQuizService "quiz2" [] Sample.revisionQuiz Sample.db0).1.

Definition revision : IQuiz :=
  Eval vm_compute in
    match (createQuizService "quiz2" [] Sample.revisionQuiz Sample.db0).2 with
    | inr quiz => quiz
    | inl _ => Sample.quiz
    end.

(** A new title for a quiz. *)
Definition retitled : UpdateQuizData :=
  {| update_title := Some (Sample.txt "Revision, again");
     update_description := None; update_thumbnailUrl := None;
     update_deadline := None; update_isPublished := Some true;
     update_durationMinutes := None; update_globalScore := None;
     update_allowedAttempts := None; update_tags := None;
     update_questions := None; update_isPublic := None |}.

(** A body that asks for a public quiz. *)
Definition publicPlease : CreateQuizData :=
  {| create_trainingId := "t1"; create_title := Sample.txt "Open";
     create_description := None; create_thumbnailUrl := None;
     creatorId := "teacher1"; create_quizType := FORMATIVE;
     create_slug := "open"; create_deadline := Some 100%N;
     create_durationMinutes := None; create_globalScore := 20;
     create_allowedAttempts := None; create_tags := None;
     questionsConfig := questionsConfig Sample.revisionQuiz;
     create_isPublic := Some true |}.

Definition openingRequests : list (RequestingUser * ApiRequest) :=
  [ (teacherUser, POST_quizzes "quiz4" [] publicPlease);
    (teacherUser, PUT_quizzes "quiz4" Sample.publishedPlease);
    (Sample.admin, PATCH_quizzes_publish 9%N "quiz4" true) ].

(** Requests on a graded session and its quiz, none of them a deletion of
    the session by an administrator or a manager. *)
Definition laterRequests : list (RequestingUser * ApiRequest) :=
  [ (studentUser, DELETE_quiz_sessions "s1");
    (studentUser, PUT_quiz_sessions_submit "s1" allRight);
    (teacherUser, DELETE_quiz_sessions "s1");
    (Sample.admin, DELETE_quizzes "quiz1");
    (studentUser, POST_quiz_sessions_start "s1" "quiz1" "fr") ].

(** A query for the sessions of the teacher, and the first page. *)
Definition ofTeacher : SessionFilters :=
  {| filter_user := Some "teacher1"; filter_quiz := None;
     filter_isCompleted := None |}.

Definition firstPage : ListOptions :=
  {| list_page := None; list_limit := None;
     list_populateQuestions := false |}.

Definition listing : list (ObjectId * IQuizSession) :=
  Eval vm_compute in
    match (getAllQuizSessionsService (λ _, 0%N) ofTeacher firstPage
             studentUser Sample.db2).2 with
    | inr sessions => sessions
    | inl _ => []
    end.

(** The store once the student has deleted the open session. *)
Definition dbDeleted : DB :=
  (deleteQuizSessionService "s1" studentUser Sample.db1).1.

(** The public quiz as the public services return it: all of it, and a
    sample of two questions for the draws 5, 1, 5 and 2. *)
Definition publicView : PopulatedQuiz :=
  Eval vm_compute in
    match (getPublicQuizByIdService "quiz1" dbPublic).2 with
    | inr view => view
    | inl _ => {| populated_quiz := Sample.quiz; populated_questions := [] |}
    end.

Definition draws : list nat := [5; 1; 5; 2]%nat.

Definition sampleView : PopulatedQuiz :=
  Eval vm_compute in
    match (getPublicQuizBySlugService draws "quiz" (Some 2%Z) dbPublic).2 with
    | inr (Some view) => view
    | _ => {| populated_quiz := Sample.quiz; populated_questions := [] |}
    end.

(** The revision quiz with its new title. *)
Definition dbRetitled : DB :=
  (updateQuizService "quiz2" retitled studentUser dbRevision).1.

Definition retitledQuiz : IQuiz :=
  Eval vm_compute in
    match (updateQuizService "quiz2" retitled studentUser dbRevision).2 with
    | inr quiz => quiz
    | inl _ => Sample.quiz
    end.

(** The draft once the teacher has published it. *)
Definition dbPublished : DB :=
  (publishQuizService 5%N "quiz3" true teacherUser dbDraft).1.

Definition published : IQuiz :=
  Eval vm_compute in
    match (publishQuizService 5%N "quiz3" true teacherUser dbDraft).2 with
    | inr quiz => quiz
    | inl _ => Sample.quiz
    end.

(** The stores once the teacher has deleted the draft, and once the
    administrator has deleted the quiz of the open session. *)
Definition dbDraftDeleted : DB :=
  (deleteQuizService "quiz3" teacherUser dbDraft).1.

Definition dbGone : DB := (deleteQuizService "quiz1" Sample.admin Sample.db1).1.

End Scenario.

(** * Vocabulary of the statements *)

Section Vocabulary.
Context {runtime_ : Runtime}.

(** ** Redaction *)

(** The selection that both services apply to the questions of the session
    they return. *)
Definition startSelect : string := "text type choices.text difficulty tags".

(** What the selection leaves of a choice and of a question. *)
Definition choiceView (c : IChoice) : json :=
  JObj [("text", ILocalizedChoice_json (choice_text c))].

Definition questionView (id : ObjectId) (q : IQuestion) : json :=
  JObj ([("_id", JStr id);
         ("text", ILocalizedString_json (question_text q));
         ("type", JStr (QuestionType_value (question_type q)))]
        ++ opt_field "choices" (λ cs, JArr (choiceView <$> cs)) (choices q)
        ++ [("difficulty", JStr (Difficulty_value (difficulty q)));
            ("tags", JArr (JStr <$> question_tags q))]).

(** A question view is redacted when no answer key occurs anywhere in it
    and each of its choices has its text and nothing else. *)
Definition choicesTextOnly (doc : json) : Prop :=
  match field "choices" doc with
  | Some (JArr cs) => Forall (λ c, keys c = ["text"]) cs
  | Some _ => False
  | None => True
  end.

Definition redacted (doc : json) : Prop :=
  mentions "isCorrect" doc = false
  ∧ mentions "correctAnswerFormula" doc = false
  ∧ mentions "explanation" doc = false
  ∧ choicesTextOnly doc.

(** ** Sessions *)

(** The test of [startQuizSessionService] that turns a student away. *)
Definition startForbidden (userId : ObjectId) (user : IUser) (quiz : IQuiz)
  : bool :=
  bool_decide (role user = STUDENT) && negb (isPublished quiz)
  && negb (bool_decide (quiz_creator quiz = userId)
           && bool_decide (quizType quiz = REVISION)).

(** The documents of the store, apart from the notifications. *)
Definition sameDocuments (db db' : DB) : Prop :=
  Users db' = Users db ∧ Trainings db' = Trainings db
  ∧ Questions db' = Questions db ∧ Quizzes db' = Quizzes db
  ∧ QuizSessions db' = QuizSessions db.

(** ** Notifications *)

(** The notification sent to one recipient of a graded session. *)
Definition gradedNotification (sessionId : ObjectId) (quiz : IQuiz)
    (user : IUser) (recipientId : ObjectId) : CreateNotificationData :=
  {| recipientId := recipientId;
     notif_type := QUIZ_GRADED;
     notif_quizTitle := ls_fr (quiz_title quiz);
     notif_student := username user;
     notif_relatedEntityId := Some sessionId;
     notif_relatedEntityType := Some "QuizSession" |}.

Definition notifyAll (sessionId : ObjectId) (quiz : IQuiz) (user : IUser)
    (recipients : list ObjectId) : M unit :=
  forEachM (λ recipientId,
              createNotificationService
                (gradedNotification sessionId quiz user recipientId)
              ≫= λ _, mret tt)
           recipients.

(** The sink accepts a graded-session notification for each recipient:
    each one is a user, and the message is short enough. *)
Definition deliverable (db : DB) (quiz : IQuiz) (user : IUser)
    (recipients : list ObjectId) : Prop :=
  Forall (λ r, is_Some (Users db !! r)) recipients
  ∧ (89 + String.length (ls_fr (quiz_title quiz))
     + String.length (username user) ≤ 500)%nat.

(** The recipients of a graded session: the creator of the quiz first. *)
Definition recipientsIn (db : DB) (quiz : IQuiz) : list ObjectId :=
  recipientsOf (quiz_creator quiz)
    (default [] (teachers <$> Trainings db !! quiz_training quiz)).

(** ** Grading *)

(** What a response adds to a total: what it has earned when it is marked
    correct, and nothing otherwise. *)
Definition addEarned (total : number) (r : IQuestionResponse) : number :=
  if isCorrect r then (total + scoreEarned r)%float else total.

(** The sum of what the responses have earned: from zero, in the order of
    the list, each addition rounded. *)
Definition sumScores (rs : list IQuestionResponse) : number :=
  foldl addEarned 0%float rs.

(** The owner test of a submission lets the requester through: the user of
    the session exists, and the requester is the string that [toString()]
    gives of a populated document. *)
Definition passesOwnerTest (db : DB) (s0 : IQuizSession) (uid : string)
  : Prop :=
  is_Some (Users db !! session_user s0) ∧ uid = "[object Object]".

(** A response graded against its manifest entry. *)
Definition gradedBy (lang : AvailableLanguage)
    (qmap : gmap ObjectId (IQuestion * number)) (r : SubmittedResponse)
    (g : IQuestionResponse) : Prop :=
  ∃ questionData, qmap !! sub_question r = Some questionData
                  ∧ g = gradeResponse lang questionData r.

(** The submitted answers and the correct texts are the same set. *)
Definition sameSet (uas : list string) (correct : list (option string))
  : Prop :=
  ∀ t, t ∈ (Some <$> uas) ↔ t ∈ correct.

(** A submitted response that the service can grade: its question is an
    entry of the manifest and still exists. *)
Definition acceptable (db : DB) (quiz : IQuiz) (r : SubmittedResponse)
  : Prop :=
  (∃ qItem, qItem ∈ quiz_questions quiz
            ∧ questionId qItem = sub_question r)
  ∧ is_Some (Questions db !! sub_question r).

(** A graded response counts for itself: its grade is that of its answer
    against its question, and it earns the score of the entry or nothing. *)
Definition gradedAlone (lang : AvailableLanguage)
    (qmap : gmap ObjectId (IQuestion * number)) (r : SubmittedResponse)
    (g : IQuestionResponse) : Prop :=
  ∃ question sc,
    qmap !! sub_question r = Some (question, sc)
    ∧ isCorrect g = gradeAnswer lang question (sub_userAnswer r)
    ∧ scoreEarned g = if isCorrect g then sc else 0%float.

(** ** Quizzes *)

(** No revision quiz of the store is published. *)
Definition revisionUnpublished (db : DB) : Prop :=
  ∀ id quiz, Quizzes db !! id = Some quiz →
             quizType quiz = REVISION → isPublished quiz = false.

(** ** The draws of a sample *)

(** Draws that stay within what is left of a pool of [n] elements: the
    draw of rank [i] is below [n - i]. *)
Definition withinPool (n : nat) (rnd : list nat) : Prop :=
  ∀ i r, rnd !! i = Some r → (r < n - i)%nat.

(** ** Frame conditions *)

(** [preserves R m]: every run of [m], successful or not, takes a store to
    a store related to it by [R]. *)
Definition preserves {A} (R : relation DB) (m : M A) : Prop :=
  ∀ db db' r, m db = (db', r) → R db db'.

Definition sameQuizzes : relation DB := λ db db', Quizzes db' = Quizzes db.

#[global] Instance sameQuizzes_preorder : PreOrder sameQuizzes.
Proof.
  split; [done|]. unfold sameQuizzes. intros db1 db2 db3 ??. congruence.
Qed.

Definition keepsRevisionUnpublished : relation DB :=
  λ db db', revisionUnpublished db → revisionUnpublished db'.

#[global] Instance keepsRevisionUnpublished_preorder :
  PreOrder keepsRevisionUnpublished.
Proof.
  split.
  - intros db H. exact H.
  - intros db1 db2 db3 H12 H23 H. apply H23, H12, H.
Qed.

(** ** A new session *)

(** The manifest entries whose question exists. *)
Definition validEntries (questions : gmap ObjectId IQuestion)
    (manifest : list IQuestionWithScore) : list IQuestionWithScore :=
  List.filter (λ qItem, bool_decide (is_Some (questions !! questionId qItem)))
              manifest.

(** The sum of the scores of a manifest: from zero, in the order of the
    list, each addition rounded. *)
Definition sumOfScores (manifest : list IQuestionWithScore) : number :=
  foldl (λ total qItem, (total + score qItem)%float) 0%float manifest.

(** The response that a new session stores for a question. *)
Definition placeholder (id : ObjectId) : IQuestionResponse :=
  {| response_question := QuestionRef id;
     userAnswer := AnswerText "";
     isCorrect := false;
     scoreEarned := 0;
     timeTakenSeconds := 0 |}.

(** The session that [startQuizSessionService] builds for a quiz. *)
Definition freshSession (db : DB) (data : StartQuizSessionData) (quiz : IQuiz)
  : IQuizSession :=
  {| session_user := start_user data;
     session_quiz := start_quizId data;
     totalScoreEarned := 0;
     maxPossibleScore := (startLoop (Questions db) (quiz_questions quiz)).1;
     quizGlobalScore := globalScore quiz;
     finalCalculatedScore := 0;
     durationSeconds := 0;
     responses := castResponse <$> (startLoop (Questions db)
                                              (quiz_questions quiz)).2;
     language := start_language data;
     isCompleted := false;
     passStatus := None;
     attemptNumber :=
       countDocuments (sessionOf (start_user data) (start_quizId data))
                      (QuizSessions db) + 1 |}.

(** The number of sessions that a user has on a quiz. *)
Definition priorSessions (db : DB) (userId quizId : ObjectId) : number :=
  Z2F (Z.of_nat (countDocuments (sessionOf userId quizId) (QuizSessions db))).

(** The user's sessions on the quiz have not reached the quiz's cap, if
    any: the test [existingSessions >= quiz.allowedAttempts] fails. *)
Definition underCap (db : DB) (data : StartQuizSessionData) (quiz : IQuiz)
  : Prop :=
  ∀ allowed, allowedAttempts quiz = Some allowed →
    (allowed <=? priorSessions db (start_user data) (start_quizId data))%float
    = false.

(** ** Grading, one response at a time *)

(** A question that the grading has no answer key for: a true/false
    question, a QCM question whose [choices] are missing, a calculation
    without a formula. *)
Definition hasNoKey (q : IQuestion) : Prop :=
  question_type q = TRUE_FALSE
  ∨ (question_type q = QCM ∧ choices q = None)
  ∨ (question_type q = CALCUL ∧ truthy (correctAnswerFormula q) = false).

(** A QCM question none of whose choices is flagged correct, as one that
    is stored without choices: its [choices] are the empty array. *)
Definition noCorrectChoice (q : IQuestion) : Prop :=
  question_type q = QCM
  ∧ ∃ cs, choices q = Some cs ∧ List.filter choice_isCorrect cs = [].

(** ** The notifications of a graded session *)

(** The notification stored for one recipient. *)
Definition gradedNote (sessionId : ObjectId) (quiz : IQuiz) (user : IUser)
    (r : ObjectId) : INotification :=
  {| recipient := r;
     notification_type := QUIZ_GRADED;
     message_quizTitle := ls_fr (quiz_title quiz);
     message_student := username user;
     relatedEntityId := Some sessionId;
     relatedEntityType := Some "QuizSession";
     notification_status := UNREAD |}.

(** ** Who may read a session *)

(** The teacher created the quiz or teaches its training. *)
Definition teaches (db : DB) (teacherId : ObjectId) (quizId : ObjectId)
  : Prop :=
  ∃ quiz, Quizzes db !! quizId = Some quiz
          ∧ (quiz_creator quiz = teacherId
             ∨ ∃ training, Trainings db !! quiz_training quiz = Some training
                           ∧ teacherId ∈ teachers training).

(** The session of a list, as stored or with its questions populated. *)
Definition listed (db : DB) (populate : bool) (stored : IQuizSession)
  : IQuizSession :=
  if populate
  then populateResponses (Questions db) "text type difficulty" stored
  else stored.

(** The window that the runtime cuts for [skip] and [limit] is a part of
    the list it is cut from, in the same order. *)
Definition windowIsSublist : Prop :=
  ∀ A skip limit (l window : list A),
    skipLimit A skip limit l = inr window → window `sublist_of` l.

(** ** Sampling the questions of a public quiz *)

(** The number of distinct positions that a list of draws hits in a list of
    [n] questions. *)
Definition distinctDraws (n : nat) (rnd : list nat) : nat :=
  List.length (remove_dups ((λ r, r `mod` n)%nat <$> rnd)).

(** The entries of a result are the entries of the manifest at pairwise
    distinct positions. *)
Definition drawnFrom {A} (all : list A) (l : list A) : Prop :=
  ∃ indices, NoDup indices ∧ Forall2 (λ i q, all !! i = Some q) indices l.

(** A quiz that the public services serve under a slug. *)
Definition servedAs (db : DB) (slug : string) (quiz : IQuiz) : Prop :=
  (∃ id, Quizzes db !! id = Some quiz)
  ∧ quiz_slug quiz = slug ∧ isPublic quiz = true ∧ isPublished quiz = true.

(** The request asks for a sample: the limit is a number other than zero
    and below the number of questions. *)
Definition sampling (limit : option Z) (quiz : IQuiz) : bool :=
  negb (falsyZ limit)
  && (default 0%Z limit <? Z.of_nat (List.length (quiz_questions quiz)))%Z.

(** ** Writing a quiz *)

(** The document that [createQuizService] builds from its data and the
    manifest it computed. *)
Definition newQuizOf (data : CreateQuizData)
    (manifest : list IQuestionWithScore) : IQuiz :=
  {| quiz_training := create_trainingId data;
     quiz_title := create_title data;
     quiz_description := create_description data;
     thumbnailUrl := js_or (create_thumbnailUrl data) None;
     quiz_creator := creatorId data;
     quiz_slug := create_slug data;
     quizType := create_quizType data;
     deadline := create_deadline data;
     isPublished := false;
     publishedAt := None;
     durationMinutes := orNull (create_durationMinutes data);
     quiz_questions := manifest;
     globalScore := create_globalScore data;
     allowedAttempts := orNull (create_allowedAttempts data);
     quiz_tags := default [] (create_tags data);
     isPublic := default false (create_isPublic data) |}.

(** The questions that a configuration selects by hand. *)
Definition selectedIds (data : CreateQuizData) : list ObjectId :=
  match questionsConfig data with
  | Some cfg =>
      match method cfg with
      | select_ =>
          sel_questionId <$> default [] (selectedQuestionIdsWithScores cfg)
      | generate => []
      end
  | None => []
  end.

(** Who may publish or unpublish a quiz: the teacher who created it, an
    admin or a manager. *)
Definition mayPublish (requestingUser : RequestingUser) (quiz : IQuiz)
  : Prop :=
  (quiz_creator quiz = req_id requestingUser
   ∧ req_role requestingUser = TEACHER)
  ∨ req_role requestingUser = ADMIN ∨ req_role requestingUser = MANAGER.

(** ** Public quizzes *)

(** No quiz of the store is public. *)
Definition allPrivate (db : DB) : Prop :=
  ∀ id quiz, Quizzes db !! id = Some quiz → isPublic quiz = false.

Definition keepsPrivate : relation DB :=
  λ db db', allPrivate db → allPrivate db'.

#[global] Instance keepsPrivate_preorder : PreOrder keepsPrivate.
Proof.
  split.
  - intros db H. exact H.
  - intros db1 db2 db3 H12 H23 H. apply H23, H12, H.
Qed.

(** ** Completed sessions *)

(** The completed sessions of [db] are in [db'] as they were. *)
Definition keepsCompleted : relation DB :=
  λ db db', ∀ id s,
    QuizSessions db !! id = Some s → isCompleted s = true →
    QuizSessions db' !! id = Some s.

#[global] Instance keepsCompleted_preorder : PreOrder keepsCompleted.
Proof.
  split.
  - by intros db id s.
  - intros db1 db2 db3 H12 H23 id s Hs Hdone. by eapply H23, Hdone; eapply H12.
Qed.

(** The sessions other than [sessionId] are the same. *)
Definition sameOtherSessions (sessionId : ObjectId) : relation DB :=
  λ db db', ∀ id,
    id ≠ sessionId → QuizSessions db' !! id = QuizSessions db !! id.

#[global] Instance sameOtherSessions_preorder sessionId :
  PreOrder (sameOtherSessions sessionId).
Proof.
  split.
  - by intros db id.
  - intros db1 db2 db3 H12 H23 id Hid. by rewrite H23, H12.
Qed.

(** The request deletes the session [sessionId] in the name of an
    administrator or a manager. *)
Definition staffDeletion (sessionId : ObjectId)
    (r : RequestingUser * ApiRequest) : bool :=
  match r.2 with
  | DELETE_quiz_sessions id =>
      bool_decide (id = sessionId)
      && bool_decide (req_role r.1 ∈ [ADMIN; MANAGER])
  | _ => false
  end.

End Vocabulary.

(** * Verification *)

(** ** Numbers

    The order of the binary64 numbers, from its specification on
    [spec_float]. *)

Lemma SFcompare_antisym x y :
  SFcompare y x = match SFcompare x y with
                  | Some c => Some (CompOpp c)
                  | None => None
                  end.
Proof.
  destruct x as [sx|sx| |sx mx ex], y as [sy|sy| |sy my ey]; cbn;
    try destruct sx; try destruct sy; cbn; try reflexivity.
  - rewrite (Z.compare_antisym ex ey).
    destruct (ex ?= ey)%Z; cbn; try reflexivity.
    change (Pos.compare_cont Eq my mx) with (Pos.compare my mx).
    change (Pos.compare_cont Eq mx my) with (Pos.compare mx my).
    rewrite (Pos.compare_antisym mx my).
    by destruct (mx ?= my)%positive.
  - rewrite (Z.compare_antisym ex ey).
    destruct (ex ?= ey)%Z; cbn; try reflexivity.
    change (Pos.compare_cont Eq my mx) with (Pos.compare my mx).
    change (Pos.compare_cont Eq mx my) with (Pos.compare mx my).
    by rewrite (Pos.compare_antisym mx my).
Qed.

Lemma SFcompare_refl x : x ≠ S754_nan → SFcompare x x = Some Eq.
Proof.
  destruct x as [s|s| |s m e]; cbn; try done.
  - by destruct s.
  - intros _. rewrite Z.compare_refl.
    change (Pos.compare_cont Eq m m) with (Pos.compare m m).
    rewrite Pos.compare_refl. by destruct s.
Qed.

Lemma is_nan_spec x : is_nan x = true ↔ Prim2SF x = S754_nan.
Proof.
  unfold is_nan. rewrite FloatAxioms.eqb_spec. unfold SFeqb.
  destruct (Prim2SF x) as [s|s| |s m e] eqn:E.
  4: rewrite SFcompare_refl by done; cbn; split; discriminate.
  all: cbn; try destruct s; cbn; split; try discriminate; done.
Qed.

(** Equal numbers are not below one another. *)
Lemma eqb_not_ltb a b : (a =? b)%float = true → (b <? a)%float = false.
Proof.
  rewrite FloatAxioms.eqb_spec, FloatAxioms.ltb_spec. unfold SFeqb, SFltb.
  rewrite (SFcompare_antisym (Prim2SF a) (Prim2SF b)).
  by destruct (SFcompare (Prim2SF a) (Prim2SF b)) as [[]|].
Qed.

(** A number that is 1 or more is not zero. *)
Lemma leb_one_not_zero x : (1 <=? x)%float = true → (x =? 0)%float = false.
Proof.
  rewrite FloatAxioms.leb_spec, FloatAxioms.eqb_spec. unfold SFleb, SFeqb.
  change (Prim2SF 0) with (S754_zero false).
  change (Prim2SF 1) with (S754_finite false 4503599627370496 (-52)).
  by destruct (Prim2SF x) as [[]|[]| |[] m e].
Qed.

(** Below or equal, and not equal, is below. *)
Lemma leb_neq_ltb a b :
  (a <=? b)%float = true → (b =? a)%float = false → (a <? b)%float = true.
Proof.
  rewrite FloatAxioms.leb_spec, FloatAxioms.eqb_spec, FloatAxioms.ltb_spec.
  unfold SFleb, SFeqb, SFltb.
  rewrite (SFcompare_antisym (Prim2SF a) (Prim2SF b)).
  by destruct (SFcompare (Prim2SF a) (Prim2SF b)) as [[]|].
Qed.

(** A test [a <= b] that passes has no [NaN] on either side. *)
Lemma leb_true_not_nan a b :
  (a <=? b)%float = true → is_nan a = false ∧ is_nan b = false.
Proof.
  rewrite FloatAxioms.leb_spec. unfold SFleb. intros H.
  split; apply not_true_is_false; rewrite is_nan_spec; intros E;
    rewrite E in H; cbn in H; [done|].
  by destruct (Prim2SF a) as [[]|[]| |[]].
Qed.

(** ** Reasoning in the service monad *)

Lemma bind_inr {A B} (m : M A) (f : A → M B) db db' b :
  (m ≫= f) db = (db', inr b) →
  ∃ db1 a, m db = (db1, inr a) ∧ f a db1 = (db', inr b).
Proof.
  unfold mbind, M_bind. destruct (m db) as [db1 [e|a]]; [done|]. eauto.
Qed.

Lemma bind_inl {A B} (m : M A) (f : A → M B) db db' e :
  (m ≫= f) db = (db', inl e) →
  m db = (db', inl e)
  ∨ ∃ db1 a, m db = (db1, inr a) ∧ f a db1 = (db', inl e).
Proof.
  unfold mbind, M_bind. destruct (m db) as [db1 [e'|a]]; intros H.
  - left. by injection H as -> ->.
  - right. by exists db1, a.
Qed.

Lemma bind_run {A B} (m : M A) (f : A → M B) db db1 a :
  m db = (db1, inr a) → (m ≫= f) db = f a db1.
Proof. unfold mbind, M_bind. by intros ->. Qed.

Lemma bind_throw {A B} (m : M A) (f : A → M B) db db1 e :
  m db = (db1, inl e) → (m ≫= f) db = (db1, inl e).
Proof. unfold mbind, M_bind. by intros ->. Qed.

Lemma gets_run {A} (f : DB → A) db : gets f db = (db, inr (f db)).
Proof. done. Qed.

Lemma throwIf_inr c e db db' u :
  throwIf c e db = (db', inr u) → c = false ∧ db' = db.
Proof. destruct c; [done|]. by intros [= <- _]. Qed.

Lemma orThrow_inr {A} (o : option A) e db db' a :
  orThrow o e db = (db', inr a) → o = Some a ∧ db' = db.
Proof. destruct o; [|done]. by intros [= <- <-]. Qed.

(** Inverts a successful run, one bind at a time. *)
Ltac invert_run H :=
  repeat match type of H with
    | (_ ≫= _) _ = (_, inr _) =>
        let db1 := fresh "db" in
        let a := fresh "a" in
        let H1 := fresh "Hrun" in
        apply bind_inr in H as (db1 & a & H1 & H);
        first [ apply throwIf_inr in H1 as [H1 ->]
              | apply orThrow_inr in H1 as [H1 ->]
              | (rewrite gets_run in H1; injection H1 as <- <-)
              | idtac ]
    end.

Lemma try_catch_inr {A} (body : M A) handler db db' a :
  try_catch body handler db = (db', inr a) →
  body db = (db', inr a)
  ∨ ∃ db1 e, body db = (db1, inl e) ∧ handler e db1 = (db', inr a).
Proof.
  unfold try_catch. destruct (body db) as [db1 [e|a']]; intros H.
  - right. by exists db1, e.
  - by left.
Qed.

(** Runs the checks at the head of a service on the facts at hand. *)
Ltac mrun :=
  repeat progress
    (unfold mbind, M_bind, mret, M_ret, gets, orThrow, throwIf, throw, modify;
     cbv beta iota).

(** The same in a hypothesis. *)
Ltac mrun_in H :=
  repeat progress
    (unfold mbind, M_bind, mret, M_ret, gets, orThrow, throwIf, throw, modify
       in H;
     cbv beta iota in H).

(** ** Frame rules *)

Section Preserves.
Context (R : relation DB) `{!PreOrder R}.

Lemma preserves_ret {A} (a : A) : preserves R (mret a).
Proof. by intros db db' r [= <- _]. Qed.

Lemma preserves_throw {A} e : preserves R (throw (A := A) e).
Proof. by intros db db' r [= <- _]. Qed.

Lemma preserves_gets {A} (f : DB → A) : preserves R (gets f).
Proof. by intros db db' r [= <- _]. Qed.

Lemma preserves_throwIf c e : preserves R (throwIf c e).
Proof. destruct c; by intros db db' r [= <- _]. Qed.

Lemma preserves_orThrow {A} (o : option A) e : preserves R (orThrow o e).
Proof. destruct o; by intros db db' r [= <- _]. Qed.

Lemma preserves_modify f : (∀ db, R db (f db)) → preserves R (modify f).
Proof. intros Hf db db' r [= <- _]. apply Hf. Qed.

Lemma preserves_bind {A B} (m : M A) (f : A → M B) :
  preserves R m → (∀ a, preserves R (f a)) → preserves R (m ≫= f).
Proof.
  intros Hm Hf db db' r. unfold mbind, M_bind.
  destruct (m db) as [db1 [e|a]] eqn:H1.
  - intros [= <- _]. by eapply Hm.
  - intros H2. etrans; [by eapply Hm|by eapply Hf].
Qed.

Lemma preserves_try_catch {A} (body : M A) handler :
  preserves R body → (∀ e, preserves R (handler e)) →
  preserves R (try_catch body handler).
Proof.
  intros Hm Hh db db' r. unfold try_catch.
  destruct (body db) as [db1 [e|a]] eqn:H1.
  - intros H2. etrans; [by eapply Hm|by eapply Hh].
  - intros [= <- _]. by eapply Hm.
Qed.

Lemma preserves_forEachM {A} (f : A → M unit) l :
  (∀ a, preserves R (f a)) → preserves R (forEachM f l).
Proof.
  intros Hf. induction l as [|a l IH]; cbn [forEachM].
  - apply preserves_ret.
  - apply preserves_bind; [apply Hf|by intros _].
Qed.
End Preserves.

(** Walks through a service, one statement at a time. *)
Ltac preserves_step :=
  first
    [ apply preserves_bind; [apply _| |intros ?]
    | apply preserves_ret; apply _
    | apply preserves_throw; apply _
    | apply preserves_gets; apply _
    | apply preserves_throwIf; apply _
    | apply preserves_orThrow; apply _
    | apply preserves_try_catch; [apply _| |intros ?]
    | apply preserves_forEachM; [apply _|intros ?]
    | apply preserves_modify; intros ?
    | match goal with
      | |- preserves _ (match ?x with _ => _ end) => destruct x
      | |- preserves _ (let _ := _ in _) => cbv zeta
      end ].

(** Settles a closed fact about the sample store by evaluation. *)
Ltac computed := vm_compute; first [reflexivity | discriminate | exact I].

Section Claims.
Context {runtime_ : Runtime}.

(** ** The redacted view *)

Lemma parse_startSelect :
  parse_select startSelect
  = [["text"]; ["type"]; ["choices"; "text"]; ["difficulty"]; ["tags"]].
Proof. reflexivity. Qed.

Lemma project_choice (c : IChoice) :
  project [["text"]] (IChoice_json c) = choiceView c.
Proof.
  destruct c as [t ok mt mu ma]; destruct mt, mu, ma; reflexivity.
Qed.

Lemma select_question id q :
  select startSelect (IQuestion_json id q) = questionView id q.
Proof.
  unfold select. rewrite parse_startSelect.
  destruct q as [ch t mt mu ma ty cs f ex d tags].
  assert (Hcs : ∀ l : list IChoice, project [["text"]] <$> (IChoice_json <$> l)
                     = choiceView <$> l).
  { intros l. rewrite <- list_fmap_compose. apply list_fmap_ext.
    intros _ c _. apply project_choice. }
  destruct mt, mu, ma, cs, f, ex; cbn; rewrite ?Hcs; reflexivity.
Qed.

Lemma mentions_cons k k' v fs :
  mentions k (JObj ((k', v) :: fs))
  = String.eqb k k' || mentions k v || mentions k (JObj fs).
Proof. reflexivity. Qed.

Lemma eqb_other k (l : list string) k' :
  k ∉ l → k' ∈ l → String.eqb k k' = false.
Proof. intros Hk Hk'. apply String.eqb_neq. by intros ->. Qed.

Lemma mentions_localizedString k t :
  k ∉ ["fr"; "en"; "ar"; "es"] → mentions k (ILocalizedString_json t) = false.
Proof.
  intros Hk. destruct t as [fr en ar es].
  destruct ar, es; cbn; rewrite ?(eqb_other _ _ _ Hk); set_solver.
Qed.

Lemma mentions_localizedChoice k t :
  k ∉ ["fr"; "en"; "ar"; "es"] → mentions k (ILocalizedChoice_json t) = false.
Proof.
  intros Hk. destruct t as [fr en ar es].
  destruct en, ar, es; cbn; rewrite ?(eqb_other _ _ _ Hk); set_solver.
Qed.

Lemma mentions_strings k (l : list string) :
  existsb (mentions k) (JStr <$> l) = false.
Proof. induction l; [done|]. by cbn. Qed.

Lemma mentions_choiceViews k (cs : list IChoice) :
  k ∉ ["fr"; "en"; "ar"; "es"; "text"] →
  existsb (mentions k) (choiceView <$> cs) = false.
Proof.
  intros Hk. induction cs as [|c cs IH]; [done|].
  cbn [fmap list_fmap existsb]. rewrite IH, orb_false_r.
  unfold choiceView. rewrite mentions_cons.
  rewrite mentions_localizedChoice by set_solver.
  rewrite (eqb_other _ _ _ Hk) by set_solver. done.
Qed.

Lemma mentions_questionView k id q :
  k ∉ ["fr"; "en"; "ar"; "es"; "text"; "_id"; "type"; "choices";
       "difficulty"; "tags"] →
  mentions k (questionView id q) = false.
Proof.
  intros Hk. unfold questionView.
  destruct (choices q) as [cs|]; cbn [opt_field app];
    rewrite !mentions_cons; cbn [mentions];
    rewrite ?mentions_localizedString, ?mentions_strings,
            ?mentions_choiceViews by set_solver;
    rewrite !(eqb_other _ _ _ Hk) by set_solver; done.
Qed.

Lemma questionView_redacted id q : redacted (questionView id q).
Proof.
  repeat split; try (apply mentions_questionView; set_solver by (by compute)).
  unfold choicesTextOnly, questionView.
  destruct (choices q) as [cs|]; cbn; [|done].
  induction cs; constructor; done.
Qed.

Lemma startLoop_responses qs manifest :
  Forall (λ r, ∃ id q, qs !! id = Some q ∧ r = initialResponse id q)
         (startLoop qs manifest).2.
Proof.
  unfold startLoop.
  cut (∀ acc : number * list IQuestionResponse,
         Forall (λ r, ∃ id q, qs !! id = Some q ∧ r = initialResponse id q)
                acc.2 →
         Forall (λ r, ∃ id q, qs !! id = Some q ∧ r = initialResponse id q)
           (foldl (λ acc qItem,
                     match qs !! questionId qItem with
                     | None => acc
                     | Some questionDoc =>
                         ((acc.1 + score qItem)%float,
                          acc.2 ++ [initialResponse (questionId qItem)
                                                    questionDoc])
                     end) acc manifest).2).
  { intros H. apply H. constructor. }
  induction manifest as [|qItem manifest IH]; intros acc Hacc; [done|].
  cbn [foldl]. apply IH.
  destruct (qs !! questionId qItem) as [q|] eqn:Hq; [|done].
  cbn. apply Forall_app. split; [done|]. constructor; [|done]. eauto.
Qed.

Lemma castResponse_initial id q :
  castResponse (initialResponse id q)
  = set_question (QuestionRef id) (initialResponse id q).
Proof. reflexivity. Qed.

(** What the caller of a successful [startQuizSessionService] holds, and
    what the store holds then. *)
Lemma start_success newId data db db' s :
  startQuizSessionService newId data db = (db', inr s) →
  ∃ user quiz,
    Users db !! start_user data = Some user
    ∧ Quizzes db !! start_quizId data = Some quiz
    ∧ let count := countDocuments
                     (sessionOf (start_user data) (start_quizId data))
                     (QuizSessions db) in
      let loop := startLoop (Questions db) (quiz_questions quiz) in
      let newSession :=
        {| session_user := start_user data;
           session_quiz := start_quizId data;
           totalScoreEarned := 0;
           maxPossibleScore := loop.1;
           quizGlobalScore := globalScore quiz;
           finalCalculatedScore := 0;
           durationSeconds := 0;
           responses := castResponse <$> loop.2;
           language := start_language data;
           isCompleted := false;
           passStatus := None;
           attemptNumber := count + 1 |} in
      (∀ allowed, allowedAttempts quiz = Some allowed →
                  (allowed <=? Z2F (Z.of_nat count))%float = false)
      ∧ QuizSessions db !! newId = None
      ∧ db' = set_QuizSessions (insert newId newSession) db
      ∧ s = populateResponses (Questions db) startSelect newSession.
Proof.
  unfold startQuizSessionService. intros H.
  invert_run H. rename a into user, a0 into quiz.
  assert (db0 = db ∧
          ∀ allowed, allowedAttempts quiz = Some allowed →
            (allowed <=? Z2F (Z.of_nat
                 (countDocuments
                    (sessionOf (start_user data) (start_quizId data))
                    (QuizSessions db))))%float = false) as [-> Hcap].
  { destruct (allowedAttempts quiz) as [allowed|].
    - invert_run Hrun2. apply throwIf_inr in Hrun2 as [Hle ->].
      split; [done|]. by intros ? [= <-].
    - injection Hrun2 as <- _. done. }
  exists user, quiz. do 3 (split; [done|]).
  apply try_catch_inr in H as [H|(db1 & e & _ & H)];
    [|by destruct e].
  apply bind_inr in H as (db1 & [] & Hsave & H).
  rewrite gets_run in H. injection H as <- <-.
  unfold saveNewSession in Hsave. invert_run Hsave.
  match goal with
  | Hnew : bool_decide (is_Some _) = false |- _ =>
      apply bool_decide_eq_false in Hnew;
      rewrite <- eq_None_not_Some in Hnew
  end.
  unfold modify in Hsave. injection Hsave as <-.
  done.
Qed.

(** C1. A session returned by [startQuizSessionService] embeds, in each of
    its responses, a question view in which no field is named [isCorrect],
    [correctAnswerFormula] or [explanation], at any depth, and whose choices
    hold their [text] and nothing else. *)
Theorem start_returns_redacted_views newId data db db' s :
  startQuizSessionService newId data db = (db', inr s) →
  Forall (λ r, ∃ doc, response_question r = QuestionDoc doc ∧ redacted doc)
         (responses s).
Proof.
  intros H. apply start_success in H as (user & quiz & _ & _ & H).
  cbn zeta in H. destruct H as (_ & _ & _ & ->).
  unfold populateResponses. cbn [responses set_responses].
  rewrite <- list_fmap_compose. apply Forall_fmap.
  eapply Forall_impl; [apply startLoop_responses|].
  intros r (id & q & Hq & ->). unfold compose.
  rewrite castResponse_initial. unfold populateQuestion.
  cbn [response_question set_question]. rewrite Hq.
  change (select _ (IQuestion_json id q))
    with (select startSelect (IQuestion_json id q)).
  rewrite select_question. eexists. split; [done|].
  apply questionView_redacted.
Qed.

(** C5. On a quiz with an attempt cap: when the count of the user's prior
    sessions on the quiz has reached the cap, that is when the test
    [count >= allowedAttempts] passes, the call throws, the store is
    unchanged (no session is created), and the error is [AttemptsExceeded]
    once the user exists and may access the quiz; a call that succeeds
    numbers the session one more than the count of prior sessions, for
    which the test failed, and stores it. *)
Theorem start_enforces_attempt_cap newId data db quiz allowed :
  Quizzes db !! start_quizId data = Some quiz →
  allowedAttempts quiz = Some allowed →
  let count :=
    countDocuments (sessionOf (start_user data) (start_quizId data))
                   (QuizSessions db) in
  ((allowed <=? Z2F (Z.of_nat count))%float = true →
     (∃ e, startQuizSessionService newId data db = (db, inl e))
     ∧ ∀ user, Users db !! start_user data = Some user →
               startForbidden (start_user data) user quiz = false →
               startQuizSessionService newId data db
               = (db, inl AttemptsExceeded))
  ∧ (∀ db' s, startQuizSessionService newId data db = (db', inr s) →
       attemptNumber s = (1 + count)%nat
       ∧ (allowed <=? Z2F (Z.of_nat count))%float = false
       ∧ QuizSessions db !! newId = None
       ∧ ∃ stored, QuizSessions db' = <[newId := stored]> (QuizSessions db)
                   ∧ attemptNumber stored = (1 + count)%nat
                   ∧ session_user stored = start_user data
                   ∧ session_quiz stored = start_quizId data).
Proof.
  intros Hquiz Hcap count. split.
  - intros Hle.
    assert (∀ user, Users db !! start_user data = Some user →
                    startForbidden (start_user data) user quiz = false →
                    startQuizSessionService newId data db
                    = (db, inl AttemptsExceeded)) as Hexceeded.
    { intros user Huser Hok. unfold startForbidden in Hok.
      unfold startQuizSessionService. mrun.
      rewrite Huser. mrun. rewrite Hquiz. mrun.
      rewrite Hok, Hcap. mrun. fold count. rewrite Hle. done. }
    split; [|done].
    destruct (Users db !! start_user data) as [user|] eqn:Huser.
    + destruct (startForbidden (start_user data) user quiz) eqn:Hok.
      * exists Forbidden_quiz. unfold startForbidden in Hok.
        unfold startQuizSessionService. mrun.
        rewrite Huser. mrun. rewrite Hquiz. mrun.
        by rewrite Hok.
      * eauto.
    + exists NotFound_user. unfold startQuizSessionService. mrun.
      by rewrite Huser.
  - intros db' s H. apply start_success in H as (user & quiz' & _ & Hq & H).
    cbn zeta in H. destruct H as (Hlt & Hnew & -> & ->).
    rewrite Hquiz in Hq. injection Hq as <-.
    specialize (Hlt _ Hcap). split; [cbn; lia|].
    split; [done|].
    split; [done|]. eexists. split; [reflexivity|].
    cbn. split; [lia|done].
Qed.

(** ** Submitting a session *)

Lemma sameDocuments_refl db : sameDocuments db db.
Proof. by repeat split. Qed.

Lemma sameDocuments_trans db1 db2 db3 :
  sameDocuments db1 db2 → sameDocuments db2 db3 → sameDocuments db1 db3.
Proof.
  intros (?&?&?&?&?) (?&?&?&?&?). repeat split; congruence.
Qed.

Lemma createNotification_documents d db db' r :
  createNotificationService d db = (db', r) → sameDocuments db db'.
Proof.
  unfold createNotificationService, saveNotification, try_catch. mrun.
  destruct (bool_decide (Users db !! recipientId d = None)).
  { intros [= <- _]. apply sameDocuments_refl. }
  destruct (500 <? messageLength d)%nat.
  - intros [= <- _]. apply sameDocuments_refl.
  - intros [= <- _]. by repeat split.
Qed.

Lemma forEachM_documents {A} (f : A → M unit) l db db' r :
  (∀ a db db' r, f a db = (db', r) → sameDocuments db db') →
  forEachM f l db = (db', r) → sameDocuments db db'.
Proof.
  intros Hf. revert db. induction l as [|a l IH]; intros db.
  - intros [= <- _]. apply sameDocuments_refl.
  - cbn [forEachM]. unfold mbind, M_bind.
    destruct (f a db) as [db1 [e|[]]] eqn:Ha.
    + intros [= <- _]. eauto.
    + intros H. eapply sameDocuments_trans; eauto.
Qed.

(** The first half of a submission reads and never writes. *)
Lemma gradeSubmission_pure sessionId data uid db db' r :
  gradeSubmission sessionId data uid db = (db', r) → db' = db.
Proof.
  unfold gradeSubmission. mrun.
  destruct (QuizSessions db !! sessionId) as [s0|]; [|by intros [= <- _]].
  destruct (Users db !! session_user s0) as [user|]; [|by intros [= <- _]].
  destruct (negb _); [by intros [= <- _]|].
  destruct (isCompleted s0); [by intros [= <- _]|].
  destruct (_ <? _)%float; [by intros [= <- _]|].
  destruct (Quizzes db !! session_quiz s0) as [quiz|]; [|by intros [= <- _]].
  destruct (gradeLoop _ _ _ _ _) as [e|[total rs]]; by intros [= <- _].
Qed.

(** The update that the first half computes for a session. *)
Lemma gradeSubmission_success sessionId data uid db db' u :
  gradeSubmission sessionId data uid db = (db', inr u) →
  ∃ s0 quiz total rs,
    QuizSessions db !! sessionId = Some s0
    ∧ passesOwnerTest db s0 uid
    ∧ isCompleted s0 = false
    ∧ (sub_durationSeconds data <? 0)%float = false
    ∧ Quizzes db !! session_quiz s0 = Some quiz
    ∧ gradeLoop (language s0)
        (quizQuestionsMap (Questions db) (quiz_questions quiz))
        (sub_responses data) 0 [] = inr (total, rs)
    ∧ u = {| upd_responses := rs;
             upd_totalScoreEarned := total;
             upd_finalCalculatedScore :=
               finalScore total (maxPossibleScore s0) (quizGlobalScore s0);
             upd_durationSeconds := sub_durationSeconds data;
             upd_passStatus :=
               passStatusOf
                 (finalScore total (maxPossibleScore s0) (quizGlobalScore s0))
                 (quizGlobalScore s0) |}.
Proof.
  unfold gradeSubmission, passesOwnerTest. mrun.
  destruct (QuizSessions db !! sessionId) as [s0|]; [|done].
  destruct (Users db !! session_user s0) as [user|] eqn:Huser; [|done].
  destruct (String.eqb (Object_toString user) uid) eqn:Hu; [|done].
  apply String.eqb_eq in Hu. cbn [negb].
  destruct (isCompleted s0) eqn:Hc; [done|].
  destruct (_ <? _)%float eqn:Hd; [done|].
  destruct (Quizzes db !! session_quiz s0) as [quiz|] eqn:Hq; [|done].
  destruct (gradeLoop _ _ _ _ _) as [e|[total rs]] eqn:Hg; [done|].
  intros [= <- <-]. exists s0, quiz, total, rs. by repeat split.
Qed.

(** For every requester other than the string that [toString()] gives,
    the first half stops at the owner test. *)
Lemma gradeSubmission_owner sessionId data uid db s0 :
  QuizSessions db !! sessionId = Some s0 →
  uid ≠ "[object Object]" →
  gradeSubmission sessionId data uid db
  = (db, inl (match Users db !! session_user s0 with
              | Some _ => Forbidden_submit
              | None => TypeError
              end)).
Proof.
  intros Hs0 Hu. unfold gradeSubmission. mrun. rewrite Hs0. mrun.
  destruct (Users db !! session_user s0) as [user|]; [|done].
  unfold Object_toString.
  by rewrite (proj2 (String.eqb_neq _ _)) by (by intros <-).
Qed.

Lemma createNotification_run sessionId quiz user r db :
  is_Some (Users db !! r) →
  (89 + String.length (ls_fr (quiz_title quiz))
   + String.length (username user) ≤ 500)%nat →
  ∃ n, createNotificationService (gradedNotification sessionId quiz user r) db
       = (set_Notifications (λ ns, ns ++ [n]) db, inr n).
Proof.
  intros [u Hu] Hlen.
  unfold createNotificationService, saveNotification, try_catch. mrun.
  cbn [recipientId gradedNotification]. rewrite Hu.
  rewrite bool_decide_eq_false_2 by done.
  unfold messageLength. cbn [notif_quizTitle notif_student gradedNotification].
  replace (500 <? _)%nat with false
    by (symmetry; apply Nat.ltb_ge; exact Hlen).
  eauto.
Qed.

Lemma notifyAll_run sessionId quiz user recipients db :
  deliverable db quiz user recipients →
  ∃ db', notifyAll sessionId quiz user recipients db = (db', inr tt)
         ∧ sameDocuments db db'.
Proof.
  intros [Hall Hlen]. revert db Hall.
  induction recipients as [|r rs IH]; intros db Hall.
  - exists db. split; [done|apply sameDocuments_refl].
  - apply Forall_cons in Hall as [Hr Hrs].
    destruct (createNotification_run sessionId quiz user r db Hr Hlen)
      as [n Hn].
    destruct (IH (set_Notifications (λ ns, ns ++ [n]) db)) as (db' & Hrun & Hsame);
      [done|].
    exists db'. split.
    + unfold notifyAll in *. cbn [forEachM]. unfold mbind at 1, M_bind at 1.
      unfold mbind at 1, M_bind at 1. rewrite Hn. exact Hrun.
    + eapply sameDocuments_trans; [|exact Hsame]. by repeat split.
Qed.

Lemma notifyAll_documents sessionId quiz user recipients db db' r :
  notifyAll sessionId quiz user recipients db = (db', r) →
  sameDocuments db db'.
Proof.
  apply forEachM_documents. clear. intros a db db' r.
  unfold mbind, M_bind.
  destruct (createNotificationService _ db) as [db1 [e|n]] eqn:Hn;
    intros [= <- _]; by apply createNotification_documents in Hn.
Qed.

Lemma notifyAll_deliverable sessionId quiz user recipients db db' :
  recipients ≠ [] →
  notifyAll sessionId quiz user recipients db = (db', inr tt) →
  deliverable db quiz user recipients.
Proof.
  intros Hne H.
  assert (∀ r db db1 n,
            createNotificationService
              (gradedNotification sessionId quiz user r) db = (db1, inr n) →
            is_Some (Users db !! r)
            ∧ (89 + String.length (ls_fr (quiz_title quiz))
               + String.length (username user) ≤ 500)%nat) as Hone.
  { clear. intros r db db1 n.
    unfold createNotificationService, saveNotification, try_catch. mrun.
    cbn [recipientId gradedNotification].
    destruct (bool_decide (Users db !! r = None)) eqn:Hu; [done|].
    apply bool_decide_eq_false in Hu.
    unfold messageLength.
    cbn [notif_quizTitle notif_student gradedNotification].
    destruct (500 <? _)%nat eqn:Hlen; [done|].
    apply Nat.ltb_ge in Hlen. intros _.
    split; [|done]. by destruct (Users db !! r). }
  split.
  - clear Hne. revert db H.
    induction recipients as [|r rs IH]; intros db H; [done|].
    unfold notifyAll in H. cbn [forEachM] in H.
    apply bind_inr in H as (db1 & [] & Hr & H).
    apply bind_inr in Hr as (db2 & n & Hr & Hret).
    injection Hret as <-.
    constructor; [by eapply Hone|].
    apply createNotification_documents in Hr as Hsame.
    apply IH in H. eapply Forall_impl; [exact H|].
    intros r'. cbn. destruct Hsame as (-> & _). done.
  - destruct recipients as [|r rs]; [done|].
    unfold notifyAll in H. cbn [forEachM] in H.
    apply bind_inr in H as (db1 & [] & Hr & H).
    apply bind_inr in Hr as (db2 & n & Hr & Hret).
    by eapply Hone.
Qed.

Lemma addRecipient_nonempty l id : addRecipient l id ≠ [].
Proof.
  unfold addRecipient. case_bool_decide as H.
  - intros ->. by apply not_elem_of_nil in H.
  - by destruct l.
Qed.

Lemma recipientsOf_nonempty creator ts : recipientsOf creator ts ≠ [].
Proof.
  unfold recipientsOf.
  generalize (addRecipient_nonempty [] creator).
  generalize (addRecipient [] creator) as acc.
  induction ts as [|t ts IH]; intros acc Hacc; [done|].
  cbn [foldl]. apply IH, addRecipient_nonempty.
Qed.

(** An update that the validators accept holds no [NaN]. *)
Lemma validateUpdate_cast u : validateUpdate u = true → castUpdate u = [].
Proof.
  unfold validateUpdate, castUpdate.
  rewrite !andb_true_iff. intros [[[Ht Hf] Hd] Hrs].
  apply leb_true_not_nan in Ht as [_ ->], Hf as [_ ->], Hd as [_ ->].
  replace (forallb _ (upd_responses u)) with true; [done|].
  symmetry. apply forallb_forall. intros r Hr.
  rewrite forallb_forall in Hrs. apply Hrs in Hr.
  apply andb_true_iff in Hr as [Hs Ht].
  by apply leb_true_not_nan in Hs as [_ ->], Ht as [_ ->].
Qed.

Lemma findByIdAndUpdate_inr sessionId u db db' o :
  findByIdAndUpdate sessionId u db = (db', inr o) →
  validateUpdate u = true
  ∧ match QuizSessions db !! sessionId with
    | Some s0 =>
        db' = set_QuizSessions (insert sessionId (applyUpdate u s0)) db
        ∧ o = Some (applyUpdate u s0)
    | None => db' = db ∧ o = None
    end.
Proof.
  unfold findByIdAndUpdate. mrun.
  destruct (castUpdate u); [|done].
  destruct (validateUpdate u); [|done].
  cbn [negb]. destruct (QuizSessions db !! sessionId); by intros [= <- <-].
Qed.

Lemma findByIdAndUpdate_run sessionId u db s0 :
  validateUpdate u = true →
  QuizSessions db !! sessionId = Some s0 →
  findByIdAndUpdate sessionId u db
  = (set_QuizSessions (insert sessionId (applyUpdate u s0)) db,
     inr (Some (applyUpdate u s0))).
Proof.
  intros Hvalid Hs0. unfold findByIdAndUpdate. mrun.
  rewrite (validateUpdate_cast _ Hvalid), Hvalid. cbn [negb].
  by rewrite Hs0.
Qed.

Lemma updatedSession_run sessionId u db s0 e :
  validateUpdate u = true →
  QuizSessions db !! sessionId = Some s0 →
  (findByIdAndUpdate sessionId u ≫= λ o, orThrow o e) db
  = (set_QuizSessions (insert sessionId (applyUpdate u s0)) db,
     inr (applyUpdate u s0)).
Proof.
  intros Hvalid Hs0.
  by rewrite (bind_run _ _ _ _ _ (findByIdAndUpdate_run _ _ _ _ Hvalid Hs0)).
Qed.

Lemma completeSession_success sessionId u db db' s :
  completeSession sessionId u db = (db', inr s) →
  ∃ s0 quiz user,
    QuizSessions db !! sessionId = Some s0
    ∧ validateUpdate u = true
    ∧ Quizzes db !! session_quiz s0 = Some quiz
    ∧ Users db !! session_user s0 = Some user
    ∧ deliverable db quiz user (recipientsIn db quiz)
    ∧ sameDocuments
        (set_QuizSessions (insert sessionId (applyUpdate u s0)) db) db'
    ∧ s = populateResponses (Questions db) startSelect (applyUpdate u s0).
Proof.
  unfold completeSession. intros H.
  apply bind_inr in H as (db1 & updated & Hupd & H).
  apply bind_inr in Hupd as (db2 & o & Hupd & Ho).
  apply orThrow_inr in Ho as [-> ->].
  apply findByIdAndUpdate_inr in Hupd as [Hvalid Hupd].
  destruct (QuizSessions db !! sessionId) as [s0|] eqn:Hs0; [|by destruct Hupd].
  destruct Hupd as [-> [= ->]].
  invert_run H. rename a into quiz, a0 into user.
  rewrite gets_run in H. injection H as <- <-.
  exists s0, quiz, user. do 4 (split; [done|]).
  match goal with
  | Hn : forEachM _ _ _ = _ |- _ =>
      fold (gradedNotification sessionId quiz user) in Hn;
      fold (notifyAll sessionId quiz user) in Hn;
      rename Hn into Hnotify
  end.
  destruct a1.
  apply notifyAll_documents in Hnotify as Hsame.
  apply notifyAll_deliverable in Hnotify; [|apply recipientsOf_nonempty].
  split; [exact Hnotify|]. split; [done|].
  destruct Hsame as (_ & _ & -> & _). done.
Qed.

Lemma completeSession_run sessionId u db s0 quiz user :
  QuizSessions db !! sessionId = Some s0 →
  validateUpdate u = true →
  Quizzes db !! session_quiz s0 = Some quiz →
  Users db !! session_user s0 = Some user →
  deliverable db quiz user (recipientsIn db quiz) →
  ∃ db',
    completeSession sessionId u db
    = (db', inr (populateResponses (Questions db) startSelect
                   (applyUpdate u s0)))
    ∧ sameDocuments
        (set_QuizSessions (insert sessionId (applyUpdate u s0)) db) db'.
Proof.
  intros Hs0 Hvalid Hquiz Huser Hdeliver.
  set (db1 := set_QuizSessions (insert sessionId (applyUpdate u s0)) db).
  destruct (notifyAll_run sessionId quiz user (recipientsIn db quiz) db1)
    as (db' & Hnotify & Hsame).
  { destruct Hdeliver as [Hall Hlen]. split; [|done]. exact Hall. }
  exists db'. split; [|done].
  unfold completeSession.
  rewrite (bind_run _ _ _ _ _ (updatedSession_run _ _ _ _ _ Hvalid Hs0)).
  mrun. fold db1. cbn [session_quiz session_user applyUpdate].
  change (Quizzes db1) with (Quizzes db). rewrite Hquiz. mrun.
  change (Users db1) with (Users db). rewrite Huser. mrun.
  change (Trainings db1) with (Trainings db).
  unfold notifyAll, gradedNotification, recipientsIn in Hnotify.
  mrun_in Hnotify. rewrite Hnotify.
  destruct Hsame as (_ & _ & -> & _). done.
Qed.

(** A notification that the sink refuses aborts the submission, after the
    graded session has been written. *)
Lemma completeSession_notification_failure sessionId u db s0 quiz user db' e :
  QuizSessions db !! sessionId = Some s0 →
  validateUpdate u = true →
  Quizzes db !! session_quiz s0 = Some quiz →
  Users db !! session_user s0 = Some user →
  notifyAll sessionId quiz user (recipientsIn db quiz)
    (set_QuizSessions (insert sessionId (applyUpdate u s0)) db)
  = (db', inl e) →
  completeSession sessionId u db = (db', inl e)
  ∧ QuizSessions db' !! sessionId = Some (applyUpdate u s0).
Proof.
  intros Hs0 Hvalid Hquiz Huser Hnotify.
  set (db1 := set_QuizSessions (insert sessionId (applyUpdate u s0)) db) in *.
  split.
  - unfold completeSession.
    rewrite (bind_run _ _ _ _ _ (updatedSession_run _ _ _ _ _ Hvalid Hs0)).
    mrun. fold db1. cbn [session_quiz session_user applyUpdate].
    change (Quizzes db1) with (Quizzes db). rewrite Hquiz. mrun.
    change (Users db1) with (Users db). rewrite Huser. mrun.
    change (Trainings db1) with (Trainings db).
    unfold notifyAll, gradedNotification, recipientsIn in Hnotify.
    mrun_in Hnotify. by rewrite Hnotify.
  - apply notifyAll_documents in Hnotify as (_ & _ & _ & _ & ->).
    apply lookup_insert_eq.
Qed.

(** *** The grading loop *)

Lemma gradeLoop_success lang qmap submitted total acc total' acc' :
  gradeLoop lang qmap submitted total acc = inr (total', acc') →
  ∃ graded,
    acc' = acc ++ graded
    ∧ Forall2 (gradedBy lang qmap) submitted graded
    ∧ total' = foldl addEarned total graded.
Proof.
  revert total acc.
  induction submitted as [|r rest IH]; intros total acc H; cbn in H.
  - injection H as <- <-. exists []. rewrite app_nil_r.
    split; [done|]. split; [constructor|done].
  - destruct (qmap !! sub_question r) as [qd|] eqn:Hq; [|done].
    apply IH in H as (graded & -> & Hall & ->).
    exists (gradeResponse lang qd r :: graded).
    split; [by rewrite <- app_assoc|].
    split; [constructor; [by exists qd|done]|done].
Qed.

Lemma gradeLoop_run lang qmap submitted total acc :
  Forall (λ r, is_Some (qmap !! sub_question r)) submitted →
  ∃ total' graded,
    gradeLoop lang qmap submitted total acc = inr (total', acc ++ graded).
Proof.
  revert total acc.
  induction submitted as [|r rest IH]; intros total acc Hall; cbn.
  - exists total, []. by rewrite app_nil_r.
  - apply Forall_cons in Hall as [[qd Hq] Hrest]. rewrite Hq.
    edestruct IH as (total' & graded & ->); [done|].
    exists total', (gradeResponse lang qd r :: graded).
    by rewrite <- app_assoc.
Qed.

Lemma addEarned_populate qs sel total rs :
  foldl addEarned total (populateQuestion qs sel <$> rs)
  = foldl addEarned total rs.
Proof.
  revert total. induction rs as [|r rs IH]; intros total; [done|].
  cbn [fmap list_fmap foldl]. rewrite IH. f_equal.
  unfold populateQuestion. by destruct (response_question r).
Qed.

Lemma sumScores_populate qs sel rs :
  sumScores (populateQuestion qs sel <$> rs) = sumScores rs.
Proof. apply addEarned_populate. Qed.

(** What the caller of a successful [submitQuizSessionService] holds. *)
Lemma submit_success sessionId data uid db db' s :
  submitQuizSessionService sessionId data uid db = (db', inr s) →
  ∃ s0 quiz user total rs,
    QuizSessions db !! sessionId = Some s0
    ∧ uid = "[object Object]"
    ∧ isCompleted s0 = false
    ∧ Quizzes db !! session_quiz s0 = Some quiz
    ∧ Users db !! session_user s0 = Some user
    ∧ deliverable db quiz user (recipientsIn db quiz)
    ∧ gradeLoop (language s0)
        (quizQuestionsMap (Questions db) (quiz_questions quiz))
        (sub_responses data) 0 [] = inr (total, rs)
    ∧ let final := finalScore total (maxPossibleScore s0)
                              (quizGlobalScore s0) in
      let u := {| upd_responses := rs;
                  upd_totalScoreEarned := total;
                  upd_finalCalculatedScore := final;
                  upd_durationSeconds := sub_durationSeconds data;
                  upd_passStatus := passStatusOf final (quizGlobalScore s0) |} in
      gradeSubmission sessionId data uid db = (db, inr u)
      ∧ validateUpdate u = true
      ∧ sameDocuments
          (set_QuizSessions (insert sessionId (applyUpdate u s0)) db) db'
      ∧ s = populateResponses (Questions db) startSelect (applyUpdate u s0).
Proof.
  unfold submitQuizSessionService. intros H.
  apply bind_inr in H as (db1 & u & Hgrade & Hcomplete).
  apply gradeSubmission_pure in Hgrade as Hpure. subst db1.
  apply gradeSubmission_success in Hgrade as Hg.
  destruct Hg
    as (s0 & quiz & total & rs & Hs0 & [_ Hu] & Hc & _ & Hq & Hloop & ->).
  apply completeSession_success in Hcomplete
    as (s0' & quiz' & user & Hs0' & Hvalid & Hq' & Huser & Hdel & Hsame & ->).
  rewrite Hs0 in Hs0'. injection Hs0' as <-.
  rewrite Hq in Hq'. injection Hq' as <-.
  exists s0, quiz, user, total, rs. by repeat (split; [done|]).
Qed.

(** ** Grading a multiple-choice answer *)

Lemma includes_elem_of correct ua :
  includes correct ua = true ↔ Some ua ∈ correct.
Proof.
  unfold includes. rewrite existsb_exists. split.
  - intros (t & Ht & Heq). apply bool_decide_eq_true in Heq. subst.
    by apply list_elem_of_In.
  - intros H. exists (Some ua). split; [by apply list_elem_of_In|].
    by apply bool_decide_eq_true.
Qed.

Lemma gradeAnswer_QCM lang q cs answer :
  question_type q = QCM → choices q = Some cs →
  gradeAnswer lang q answer = true
  ↔ length (correctChoiceTexts lang cs) = length (userAnswers answer)
    ∧ ∀ ua, ua ∈ userAnswers answer → Some ua ∈ correctChoiceTexts lang cs.
Proof.
  intros Hty Hcs. unfold gradeAnswer. rewrite Hty, Hcs.
  rewrite andb_true_iff, Nat.eqb_eq, forallb_forall.
  apply and_iff_compat_l. split.
  - intros H ua Hua. apply includes_elem_of, H. by apply list_elem_of_In.
  - intros H ua Hua. apply includes_elem_of, H. by apply list_elem_of_In.
Qed.

(** ** Scores *)

(** C3. After a successful submission, the total is the sum of what the
    responses have earned, added in their order as binary64 numbers, where
    a response that is not marked correct has earned 0; when the maximum is
    above 0 the final score is the total over the maximum, times the global
    score, and it is 0 otherwise, when the maximum is 0 in particular, a
    case in which nothing is divided; the session passes exactly when the
    final score over the global score reaches 0.7, and fails otherwise. *)
Theorem submit_computes_scores sessionId data uid db db' s :
  submitQuizSessionService sessionId data uid db = (db', inr s) →
  totalScoreEarned s = sumScores (responses s)
  ∧ Forall (λ r, isCorrect r = false → scoreEarned r = 0%float) (responses s)
  ∧ ((0 <? maxPossibleScore s)%float = true →
       finalCalculatedScore s
       = (totalScoreEarned s / maxPossibleScore s * quizGlobalScore s)%float)
  ∧ ((0 <? maxPossibleScore s)%float = false →
       finalCalculatedScore s = 0%float)
  ∧ ((maxPossibleScore s =? 0)%float = true →
       finalCalculatedScore s = 0%float)
  ∧ (passStatus s = Some passed ∨ passStatus s = Some failed)
  ∧ (passStatus s = Some passed
     ↔ (0.7 <=? finalCalculatedScore s / quizGlobalScore s)%float = true).
Proof.
  intros H. apply submit_success in H
    as (s0 & quiz & user & total & rs & _ & _ & _ & _ & _ & _ & Hloop & H).
  cbv zeta in H. destruct H as (_ & _ & _ & ->).
  apply gradeLoop_success in Hloop as (graded & -> & Hgraded & ->).
  cbn [populateResponses set_responses applyUpdate responses totalScoreEarned
       maxPossibleScore quizGlobalScore finalCalculatedScore passStatus
       upd_responses upd_totalScoreEarned upd_finalCalculatedScore
       upd_passStatus app].
  assert (∀ b, (0 <? maxPossibleScore s0)%float = b →
               finalScore (foldl addEarned 0%float graded)
                 (maxPossibleScore s0) (quizGlobalScore s0)
               = if b then (foldl addEarned 0 graded / maxPossibleScore s0
                            * quizGlobalScore s0)%float
                 else 0%float) as Hfinal.
  { intros b <-. reflexivity. }
  split; [by rewrite sumScores_populate|].
  split.
  { apply Forall_fmap. clear -Hgraded.
    induction Hgraded as [|r g rs gs (qd & _ & ->) _ IH]; constructor; [|done].
    unfold compose, populateQuestion.
    cbn [gradeResponse response_question set_question isCorrect scoreEarned].
    by intros ->. }
  split; [apply (Hfinal true)|]. split; [apply (Hfinal false)|].
  split; [intros Hzero; apply (Hfinal false), eqb_not_ltb, Hzero|].
  unfold passStatusOf, passThreshold.
  destruct (_ <=? _)%float; split; auto; split; (done || by intros [= ?]).
Qed.

(** ** One-shot submission *)

(** A submission on a completed session stops at the first half. *)
Lemma submit_completed sessionId data uid db stored user :
  QuizSessions db !! sessionId = Some stored →
  Users db !! session_user stored = Some user →
  isCompleted stored = true →
  submitQuizSessionService sessionId data uid db
  = (db, inl (if String.eqb "[object Object]" uid
              then AlreadyCompleted else Forbidden_submit)).
Proof.
  intros Hs Huser Hc. unfold submitQuizSessionService.
  apply bind_throw. unfold gradeSubmission. mrun. rewrite Hs. mrun.
  rewrite Huser. unfold Object_toString.
  destruct (String.eqb _ uid); cbn [negb]; mrun; [|done].
  by rewrite Hc.
Qed.

Lemma submit_completed_fails sessionId data uid db stored :
  QuizSessions db !! sessionId = Some stored →
  isCompleted stored = true →
  ∃ e, submitQuizSessionService sessionId data uid db = (db, inl e).
Proof.
  intros Hs Hc.
  destruct (Users db !! session_user stored) as [user|] eqn:Huser.
  - eexists. by eapply submit_completed.
  - exists TypeError. unfold submitQuizSessionService.
    apply bind_throw. unfold gradeSubmission. mrun. rewrite Hs. mrun.
    by rewrite Huser.
Qed.

(** C4. After a successful submission, a second submission on the same
    session id by the same requester fails with [AlreadyCompleted], whatever
    it submits; a submission by anyone fails; in both cases the store stays
    as the first call left it, where the session is completed and holds the
    total, the final score, the pass status and the responses that the
    first call returned. *)
Theorem second_submit_fails sessionId data uid db db1 s :
  submitQuizSessionService sessionId data uid db = (db1, inr s) →
  (∀ data', submitQuizSessionService sessionId data' uid db1
            = (db1, inl AlreadyCompleted))
  ∧ (∀ data' uid', ∃ e, submitQuizSessionService sessionId data' uid' db1
                        = (db1, inl e))
  ∧ ∃ stored,
      QuizSessions db1 !! sessionId = Some stored
      ∧ isCompleted stored = true
      ∧ totalScoreEarned stored = totalScoreEarned s
      ∧ finalCalculatedScore stored = finalCalculatedScore s
      ∧ passStatus stored = passStatus s
      ∧ responses s
        = populateQuestion (Questions db1) startSelect <$> responses stored.
Proof.
  intros H. apply submit_success in H
    as (s0 & quiz & user & total & rs & Hs0 & -> & _ & _ & Huser & _ & _ & H).
  cbv zeta in H. destruct H as (_ & _ & Hsame & ->).
  destruct Hsame as (Husers & _ & Hquestions & _ & Hsessions).
  cbn [QuizSessions set_QuizSessions] in Hsessions.
  cbn [Questions set_QuizSessions] in Hquestions.
  cbn [Users set_QuizSessions] in Husers.
  match type of Hsessions with
  | _ = <[_ := ?x]> _ => set (stored := x) in *
  end.
  assert (QuizSessions db1 !! sessionId = Some stored) as Hstored
    by (rewrite Hsessions; apply lookup_insert_eq).
  assert (Users db1 !! session_user stored = Some user) as Huser1
    by (by rewrite Husers).
  split; [|split].
  - intros data'.
    by rewrite (submit_completed _ data' _ _ stored user Hstored Huser1 eq_refl).
  - intros data' uid'.
    apply (submit_completed_fails _ data' uid' _ stored Hstored eq_refl).
  - exists stored. split; [done|]. split; [done|].
    repeat split. cbn. by rewrite Hquestions.
Qed.

(** ** Notifications of a graded session *)

Lemma createNotification_error d db db' e :
  createNotificationService d db = (db', inl e) →
  ∃ message code, e = ApiError message code
                  ∧ (code = 404 ∨ code = 400)%nat.
Proof.
  unfold createNotificationService, saveNotification, try_catch. mrun.
  destruct (bool_decide (Users db !! recipientId d = None)).
  { intros [= _ <-]. eauto. }
  destruct (500 <? messageLength d)%nat; [|done].
  intros [= _ <-]. eauto.
Qed.

Lemma notifyAll_error sessionId quiz user recipients db db' e :
  notifyAll sessionId quiz user recipients db = (db', inl e) →
  ∃ message code, e = ApiError message code
                  ∧ (code = 404 ∨ code = 400)%nat.
Proof.
  revert db. induction recipients as [|r rs IH]; intros db; [done|].
  unfold notifyAll. cbn [forEachM]. intros H.
  apply bind_inl in H as [H|(db1 & [] & _ & H)]; [|by eapply IH].
  apply bind_inl in H as [H|(db1 & n & _ & H)]; [|done].
  by eapply createNotification_error.
Qed.

(** C6, as the code has it.  When the sink refuses a notification of a
    graded session (a recipient is not a user, or the message is too long),
    the submission fails with the sink's error, of status 404 or 400, and
    returns no session; the graded session has been written as completed
    before, so that a new submission fails with [AlreadyCompleted]. *)
Theorem notification_failure_fails_submit sessionId data uid db u s0 quiz user :
  gradeSubmission sessionId data uid db = (db, inr u) →
  QuizSessions db !! sessionId = Some s0 →
  validateUpdate u = true →
  Quizzes db !! session_quiz s0 = Some quiz →
  Users db !! session_user s0 = Some user →
  ¬ deliverable db quiz user (recipientsIn db quiz) →
  ∃ db' message code,
    submitQuizSessionService sessionId data uid db
    = (db', inl (ApiError message code))
    ∧ (code = 404 ∨ code = 400)%nat
    ∧ QuizSessions db' !! sessionId = Some (applyUpdate u s0)
    ∧ ∀ data', submitQuizSessionService sessionId data' uid db'
               = (db', inl AlreadyCompleted).
Proof.
  intros Hgrade Hs0 Hvalid Hquiz Huser Hno.
  set (db1 := set_QuizSessions (insert sessionId (applyUpdate u s0)) db).
  destruct (notifyAll sessionId quiz user (recipientsIn db quiz) db1)
    as [db' [e|[]]] eqn:Hnotify.
  - destruct (notifyAll_error _ _ _ _ _ _ _ Hnotify)
      as (message & code & -> & Hcode).
    destruct (completeSession_notification_failure _ _ _ _ _ _ _ _
                Hs0 Hvalid Hquiz Huser Hnotify) as [Hcomplete Hstored].
    exists db', message, code. split.
    { unfold submitQuizSessionService.
      by rewrite (bind_run _ _ _ _ _ Hgrade). }
    split; [done|]. split; [done|]. intros data'.
    apply gradeSubmission_success in Hgrade
      as (_ & _ & _ & _ & _ & [_ ->] & _).
    assert (Users db' !! session_user (applyUpdate u s0) = Some user)
      as Huser'.
    { apply notifyAll_documents in Hnotify as (-> & _). exact Huser. }
    by rewrite (submit_completed _ data' _ _ _ user Hstored Huser' eq_refl).
  - apply notifyAll_deliverable in Hnotify; [|apply recipientsOf_nonempty].
    destruct Hno. destruct Hnotify as [Hall Hlen]. split; [|done].
    exact Hall.
Qed.

(** ** Submissions in flight together *)

Lemma applyUpdate_twice u1 u2 s0 :
  applyUpdate u2 (applyUpdate u1 s0) = applyUpdate u2 s0.
Proof. reflexivity. Qed.

(** C9, as the code has it.  The transition to [isCompleted] is a read
    followed by an unconditional write by id.  When two submissions on a
    session have both read it before either writes, the second write
    succeeds as the first did: both calls return a graded session and the
    store keeps the second result.  A submission that starts after the
    first has finished fails with [AlreadyCompleted]. *)
Theorem racing_submits_both_succeed sessionId dataA dataB uid db uA uB dbA sA :
  gradeSubmission sessionId dataA uid db = (db, inr uA) →
  gradeSubmission sessionId dataB uid db = (db, inr uB) →
  completeSession sessionId uA db = (dbA, inr sA) →
  validateUpdate uB = true →
  (∃ dbB sB s0,
     completeSession sessionId uB dbA = (dbB, inr sB)
     ∧ raceSubmit sessionId dataA uid dataB uid db = (dbB, inr (sA, sB))
     ∧ QuizSessions db !! sessionId = Some s0
     ∧ QuizSessions dbA !! sessionId = Some (applyUpdate uA s0)
     ∧ QuizSessions dbB !! sessionId = Some (applyUpdate uB s0))
  ∧ (∀ data', submitQuizSessionService sessionId data' uid dbA
              = (dbA, inl AlreadyCompleted)).
Proof.
  intros HgA HgB HcA HvB.
  apply completeSession_success in HcA as HA.
  destruct HA as (s0 & quiz & user & Hs0 & HvA & Hquiz & Huser & Hdel & Hsame & ->).
  destruct Hsame as (Husers & Htrainings & Hquestions & Hquizzes & Hsessions).
  cbn [Users Trainings Questions Quizzes QuizSessions set_QuizSessions]
    in Husers, Htrainings, Hquestions, Hquizzes, Hsessions.
  assert (QuizSessions dbA !! sessionId = Some (applyUpdate uA s0)) as HsA
    by (rewrite Hsessions; apply lookup_insert_eq).
  apply gradeSubmission_success in HgA as HA.
  destruct HA as (s0' & _ & _ & _ & Hs0' & Hu & _).
  rewrite Hs0 in Hs0'. injection Hs0' as <-.
  split.
  - destruct (completeSession_run sessionId uB dbA (applyUpdate uA s0)
                quiz user) as (dbB & HcB & HsameB); try done.
    { cbn [session_quiz applyUpdate]. by rewrite Hquizzes. }
    { cbn [session_user applyUpdate]. by rewrite Husers. }
    { destruct Hdel as [Hall Hlen]. split; [|done].
      unfold recipientsIn in *. rewrite Htrainings.
      eapply Forall_impl; [exact Hall|]. intros r. cbn. by rewrite Husers. }
    rewrite applyUpdate_twice in HcB, HsameB.
    eexists dbB, _, s0. split; [exact HcB|]. split.
    + unfold raceSubmit.
      rewrite (bind_run _ _ _ _ _ HgA), (bind_run _ _ _ _ _ HgB).
      rewrite (bind_run _ _ _ _ _ HcA), (bind_run _ _ _ _ _ HcB). done.
    + split; [done|]. split; [done|].
      destruct HsameB as (_ & _ & _ & _ & ->). apply lookup_insert_eq.
  - intros data'. destruct Hu as [_ ->].
    assert (Users dbA !! session_user (applyUpdate uA s0) = Some user)
      as HuserA by (cbn [session_user applyUpdate]; by rewrite Husers).
    by rewrite (submit_completed _ data' _ _ _ user HsA HuserA eq_refl).
Qed.

(** ** What a submission may contain *)

Lemma quizQuestionsMap_fold (qs : gmap ObjectId IQuestion) manifest id
    question sc (m : gmap ObjectId (IQuestion * number)) :
  foldl (λ m qItem,
           match qs !! questionId qItem with
           | Some question => <[questionId qItem := (question, score qItem)]> m
           | None => m
           end) m manifest !! id = Some (question, sc) →
  m !! id = Some (question, sc)
  ∨ (qs !! id = Some question
     ∧ ∃ qItem, qItem ∈ manifest ∧ questionId qItem = id
                ∧ score qItem = sc).
Proof.
  revert m. induction manifest as [|qItem manifest IH]; intros m H; [by left|].
  cbn [foldl] in H. apply IH in H as [H|(Hq & qItem' & Hin & Hid & Hsc)].
  - destruct (qs !! questionId qItem) as [question'|] eqn:Hq; [|by left].
    destruct (decide (questionId qItem = id)) as [<-|Hne].
    + rewrite lookup_insert_eq in H. injection H as <- <-.
      right. split; [done|]. exists qItem. split; [left|done].
    + rewrite lookup_insert_ne in H by done. by left.
  - right. split; [done|]. exists qItem'. split; [by right|done].
Qed.

(** An entry of [quizQuestionsMap] is a question of the store with the score
    of a manifest entry. *)
Lemma quizQuestionsMap_spec qs manifest id question sc :
  quizQuestionsMap qs manifest !! id = Some (question, sc) →
  qs !! id = Some question
  ∧ ∃ qItem, qItem ∈ manifest ∧ questionId qItem = id ∧ score qItem = sc.
Proof.
  intros H. apply quizQuestionsMap_fold in H as [H|H]; [|done].
  by rewrite lookup_empty in H.
Qed.

Lemma quizQuestionsMap_fold_is_Some (qs : gmap ObjectId IQuestion) manifest
    id (m : gmap ObjectId (IQuestion * number)) :
  is_Some (m !! id)
  ∨ (is_Some (qs !! id) ∧ ∃ qItem, qItem ∈ manifest ∧ questionId qItem = id) →
  is_Some (foldl (λ m qItem,
                    match qs !! questionId qItem with
                    | Some question =>
                        <[questionId qItem := (question, score qItem)]> m
                    | None => m
                    end) m manifest !! id).
Proof.
  revert m. induction manifest as [|qItem manifest IH]; intros m H.
  - destruct H as [H|(_ & qItem & Hin & _)]; [done|].
    by apply not_elem_of_nil in Hin.
  - cbn [foldl]. apply IH.
    destruct H as [H|(Hq & qItem' & Hin & Hid)].
    + left. destruct (qs !! questionId qItem); [|done].
      destruct (decide (questionId qItem = id)) as [<-|Hne].
      * by rewrite lookup_insert_eq.
      * by rewrite lookup_insert_ne.
    + apply elem_of_cons in Hin as [->|Hin].
      * left. rewrite Hid. destruct Hq as [question ->].
        by rewrite lookup_insert_eq.
      * right. split; [done|]. by exists qItem'.
Qed.

(** Every manifest entry whose question exists is in the map. *)
Lemma quizQuestionsMap_is_Some qs manifest qItem :
  qItem ∈ manifest → is_Some (qs !! questionId qItem) →
  is_Some (quizQuestionsMap qs manifest !! questionId qItem).
Proof.
  intros Hin Hq. apply quizQuestionsMap_fold_is_Some. right.
  split; [done|]. by exists qItem.
Qed.

Lemma addEarned_replicate k g total :
  isCorrect g = true →
  foldl addEarned total (replicate k g)
  = Nat.iter k (λ total, (total + scoreEarned g)%float) total.
Proof.
  intros Hg. revert total. induction k as [|k IH]; intros total; [done|].
  cbn [replicate foldl]. rewrite IH, Nat.iter_succ_r.
  unfold addEarned. by rewrite Hg.
Qed.

(** The first half of a submission succeeds on an open session, for the
    requester who passes the owner test, when every submitted question is
    in the map. *)
Lemma gradeSubmission_run sessionId data uid db s0 quiz :
  QuizSessions db !! sessionId = Some s0 →
  passesOwnerTest db s0 uid →
  isCompleted s0 = false →
  (sub_durationSeconds data <? 0)%float = false →
  Quizzes db !! session_quiz s0 = Some quiz →
  let qmap := quizQuestionsMap (Questions db) (quiz_questions quiz) in
  Forall (λ r, is_Some (qmap !! sub_question r)) (sub_responses data) →
  ∃ total rs,
    gradeLoop (language s0) qmap (sub_responses data) 0 [] = inr (total, rs)
    ∧ gradeSubmission sessionId data uid db
      = (db, inr {| upd_responses := rs;
                    upd_totalScoreEarned := total;
                    upd_finalCalculatedScore :=
                      finalScore total (maxPossibleScore s0)
                                 (quizGlobalScore s0);
                    upd_durationSeconds := sub_durationSeconds data;
                    upd_passStatus :=
                      passStatusOf
                        (finalScore total (maxPossibleScore s0)
                                    (quizGlobalScore s0))
                        (quizGlobalScore s0) |}).
Proof.
  intros Hs0 [[user Huser] ->] Hc Hd Hquiz qmap Hall.
  destruct (gradeLoop_run (language s0) qmap (sub_responses data) 0 [] Hall)
    as (total & rs & Hloop).
  exists total, rs. split; [done|].
  unfold gradeSubmission. mrun. rewrite Hs0. mrun. rewrite Huser.
  unfold Object_toString. rewrite String.eqb_refl. cbn [negb]. mrun.
  rewrite Hc. mrun. rewrite Hd.
  mrun. rewrite Hquiz. mrun. fold qmap. rewrite Hloop. done.
Qed.

(** C10, as the code has it.  On an open session, for the requester who
    passes the owner test, submitQuizSessionService accepts every list of
    responses to questions that the manifest lists and the store still
    holds, with no condition on how many responses there are or on how
    often a question occurs among them, when the duration is not negative,
    the update validators accept the graded numbers (none is negative or
    [NaN]) and the sink accepts the notifications.  Each response is graded
    by itself and the total is the sum of what the responses earn; a
    response graded correct and sent [k] times adds the score of its
    question [k] times.  The controller in front of the service refuses the
    empty list and passes every other list of an authenticated student on
    as it is. *)
Theorem submit_accepts_any_responses sessionId data uid db s0 quiz user :
  QuizSessions db !! sessionId = Some s0 →
  Users db !! session_user s0 = Some user →
  uid = "[object Object]" →
  isCompleted s0 = false →
  Quizzes db !! session_quiz s0 = Some quiz →
  deliverable db quiz user (recipientsIn db quiz) →
  (sub_durationSeconds data <? 0)%float = false →
  Forall (acceptable db quiz) (sub_responses data) →
  (∀ u, gradeSubmission sessionId data uid db = (db, inr u) →
        validateUpdate u = true) →
  let qmap := quizQuestionsMap (Questions db) (quiz_questions quiz) in
  (∃ db' s,
     submitQuizSessionService sessionId data uid db = (db', inr s)
     ∧ Forall2 (gradedAlone (language s0) qmap)
               (sub_responses data) (responses s)
     ∧ totalScoreEarned s = sumScores (responses s)
     ∧ ∀ k r question sc,
         sub_responses data = replicate k r →
         qmap !! sub_question r = Some (question, sc) →
         gradeAnswer (language s0) question (sub_userAnswer r) = true →
         totalScoreEarned s
         = Nat.iter k (λ total, (total + sc)%float) 0%float)
  ∧ ∀ userId,
      userId ≠ "" →
      submitQuizSession STUDENT sessionId data userId db
      = if is_nil (sub_responses data)
        then (db, inl (ApiError "Valid responses array and durationSeconds are required." 400))
        else submitQuizSessionService sessionId data userId db.
Proof.
  intros Hs0 Huser Hu Hc Hquiz Hdel Hd Hall Hvalidators qmap.
  split; [|by intros userId _; unfold submitQuizSession;
              destruct (sub_responses data)].
  subst qmap. set (qmap := quizQuestionsMap _ _).
  assert (Forall (λ r, is_Some (qmap !! sub_question r)) (sub_responses data))
    as Hmap.
  { eapply Forall_impl; [exact Hall|].
    intros r ((qItem & Hin & Hid) & Hq). rewrite <- Hid in *.
    by apply quizQuestionsMap_is_Some. }
  assert (passesOwnerTest db s0 uid) as Howner by (by split; [eexists|]).
  destruct (gradeSubmission_run sessionId data uid db s0 quiz
              Hs0 Howner Hc Hd Hquiz Hmap) as (total & rs & Hloop & Hgrade).
  apply gradeLoop_success in Hloop as (graded & -> & Hgraded & ->).
  cbn [app] in Hgrade.
  apply Hvalidators in Hgrade as Hvalid.
  match type of Hgrade with _ = (_, inr ?x) => set (u := x) in * end.
  destruct (completeSession_run sessionId u db s0 quiz user
              Hs0 Hvalid Hquiz Huser Hdel) as (db' & Hcomplete & _).
  eexists db', _. split.
  { unfold submitQuizSessionService.
    rewrite (bind_run _ _ _ _ _ Hgrade). exact Hcomplete. }
  cbn [populateResponses set_responses applyUpdate responses
       totalScoreEarned u upd_responses upd_totalScoreEarned].
  assert (Forall2 (gradedAlone (language s0) qmap) (sub_responses data)
            (populateQuestion (Questions db) startSelect <$> graded)) as Halone.
  { apply Forall2_fmap_r. eapply Forall2_impl; [exact Hgraded|].
    intros r g ([question sc] & Hq & ->). exists question, sc.
    split; [done|]. unfold populateQuestion.
    by cbn [gradeResponse response_question set_question isCorrect
            scoreEarned]. }
  split; [exact Halone|]. split; [by rewrite sumScores_populate|].
  intros k r question sc Hk Hq Hright.
  rewrite Hk in Hgraded.
  assert (graded = replicate k (gradeResponse (language s0) (question, sc) r))
    as ->.
  { clear -Hgraded Hq. revert graded Hgraded.
    induction k as [|k IH]; intros graded H; cbn [replicate] in *.
    - by apply Forall2_nil_inv_l in H.
    - apply Forall2_cons_inv_l in H as (g & gs & (qd & Hq' & ->) & H & ->).
      fold qmap in Hq'. rewrite Hq in Hq'. injection Hq' as <-. f_equal. by apply IH. }
  rewrite addEarned_replicate
    by (cbn [gradeResponse isCorrect fst]; exact Hright).
  cbn [gradeResponse scoreEarned fst snd]. by rewrite Hright.
Qed.

(** ** Revision quizzes *)

Lemma revisionUnpublished_insert db db' id quiz :
  revisionUnpublished db →
  (quizType quiz = REVISION → isPublished quiz = false) →
  Quizzes db' = <[id := quiz]> (Quizzes db) →
  revisionUnpublished db'.
Proof.
  intros Hinv Hquiz Heq id' quiz'. rewrite Heq.
  destruct (decide (id = id')) as [<-|Hne].
  - rewrite lookup_insert_eq. by intros [= <-].
  - rewrite lookup_insert_ne by done. apply Hinv.
Qed.

Lemma revisionUnpublished_same db db' :
  revisionUnpublished db → Quizzes db' = Quizzes db → revisionUnpublished db'.
Proof. intros Hinv Heq id quiz. rewrite Heq. apply Hinv. Qed.

Lemma saveQuiz_quizzes isNew id quiz db db' r :
  saveQuiz isNew id quiz db = (db', r) →
  (Quizzes db' = Quizzes db ∧ ∃ e, r = inl e)
  ∨ (Quizzes db' = <[id := quiz]> (Quizzes db) ∧ Trainings db' = Trainings db
     ∧ r = inr tt).
Proof.
  unfold saveQuiz. mrun. intros H.
  repeat case_match; simplify_eq; eauto.
Qed.

Lemma updateQuiz_quizzes quizId data requestingUser db db' r :
  updateQuizService quizId data requestingUser db = (db', r) →
  Quizzes db' = Quizzes db
  ∨ ∃ quiz quiz', Quizzes db' = <[quizId := quiz']> (Quizzes db)
                  ∧ Quizzes db !! quizId = Some quiz
                  ∧ quizType quiz' = quizType quiz
                  ∧ isPublished quiz' = isPublished quiz.
Proof.
  unfold updateQuizService, try_catch. mrun. intros H.
  destruct (Quizzes db !! quizId) as [quiz|] eqn:Hquiz;
    [|simplify_eq; by left].
  repeat first
    [ match type of H with
      | context [saveQuiz ?n ?i ?q ?d] =>
          let Hs := fresh "Hsave" in
          destruct (saveQuiz n i q d) as [? [?|[]]] eqn:Hs;
          apply saveQuiz_quizzes in Hs as [[? [? ?]]|(? & ? & ?)]
      end
    | case_match ];
    simplify_eq; eauto 10.
Qed.

Lemma publishQuiz_quizzes now quizId status requestingUser db db' r :
  publishQuizService now quizId status requestingUser db = (db', r) →
  Quizzes db' = Quizzes db
  ∨ ∃ quiz quiz', Quizzes db' = <[quizId := quiz']> (Quizzes db)
                  ∧ Quizzes db !! quizId = Some quiz
                  ∧ quizType quiz' = quizType quiz
                  ∧ isPublished quiz' = status
                  ∧ (bool_decide (quizType quiz = REVISION) && status = false).
Proof.
  unfold publishQuizService, try_catch. mrun. intros H.
  destruct (Quizzes db !! quizId) as [quiz|] eqn:Hquiz;
    [|simplify_eq; by left].
  repeat first
    [ match type of H with
      | context [saveQuiz ?n ?i ?q ?d] =>
          let Hs := fresh "Hsave" in
          destruct (saveQuiz n i q d) as [? [?|[]]] eqn:Hs;
          apply saveQuiz_quizzes in Hs as [[? [? ?]]|(? & ? & ?)]
      end
    | case_match ];
    simplify_eq; eauto 10.
Qed.

Lemma deleteQuiz_quizzes quizId requestingUser db db' r :
  deleteQuizService quizId requestingUser db = (db', r) →
  Quizzes db' = Quizzes db ∨ Quizzes db' = delete quizId (Quizzes db).
Proof.
  unfold deleteQuizService. mrun. intros H.
  repeat case_match; simplify_eq; eauto.
Qed.

Lemma createNotification_sameQuizzes d :
  preserves sameQuizzes (createNotificationService d).
Proof.
  intros db db' r H. by apply createNotification_documents in H as (_&_&_&?&_).
Qed.

Lemma start_sameQuizzes newId data :
  preserves sameQuizzes (startQuizSessionService newId data).
Proof.
  unfold startQuizSessionService, saveNewSession.
  repeat preserves_step; done.
Qed.

Lemma completeSession_sameQuizzes sessionId u :
  preserves sameQuizzes (completeSession sessionId u).
Proof.
  unfold completeSession, findByIdAndUpdate.
  repeat first [apply createNotification_sameQuizzes | preserves_step]; done.
Qed.

Lemma submit_sameQuizzes sessionId data uid :
  preserves sameQuizzes (submitQuizSessionService sessionId data uid).
Proof.
  unfold submitQuizSessionService. apply preserves_bind; [apply _| |].
  - intros db db' r H. by apply gradeSubmission_pure in H as ->.
  - apply completeSession_sameQuizzes.
Qed.

Lemma saveQuiz_keeps isNew id quiz :
  (quizType quiz = REVISION → isPublished quiz = false) →
  preserves keepsRevisionUnpublished (saveQuiz isNew id quiz).
Proof.
  intros Hquiz. unfold saveQuiz. repeat preserves_step.
  intros Hinv. by eapply revisionUnpublished_insert.
Qed.

(** A new quiz is written unpublished, whatever its type and its creator. *)
Lemma createQuiz_keeps newId rnd data :
  preserves keepsRevisionUnpublished (createQuizService newId rnd data).
Proof.
  unfold createQuizService, generateQuestionsForQuiz.
  repeat first
    [ apply saveQuiz_keeps; cbn [isPublished]; by intros _; case_match
    | preserves_step ];
    try done.
  intros Hinv. by eapply revisionUnpublished_same.
Qed.

Lemma handle_revisionUnpublished request db :
  revisionUnpublished db → revisionUnpublished (handle request db).
Proof.
  intros Hinv. destruct request as [newId rnd data|quizId data u
    |now quizId status u|quizId u|newId data|sessionId data uid]; cbn [handle].
  - destruct (createQuizService newId rnd data db) as [db' r] eqn:H.
    apply createQuiz_keeps in H. by apply H.
  - destruct (updateQuizService quizId data u db) as [db' r] eqn:H.
    apply updateQuiz_quizzes in H
      as [Heq|(quiz & quiz' & Heq & Hquiz & Hty & Hpub)].
    + by eapply revisionUnpublished_same.
    + eapply revisionUnpublished_insert; [done| |done].
      rewrite Hty, Hpub. by apply Hinv in Hquiz.
  - destruct (publishQuizService now quizId status u db) as [db' r] eqn:H.
    apply publishQuiz_quizzes in H
      as [Heq|(quiz & quiz' & Heq & Hquiz & Hty & Hpub & Hguard)].
    + by eapply revisionUnpublished_same.
    + eapply revisionUnpublished_insert; [done| |done].
      rewrite Hty, Hpub. intros Hrev.
      by rewrite bool_decide_eq_true_2 in Hguard.
  - destruct (deleteQuizService quizId u db) as [db' r] eqn:H.
    apply deleteQuiz_quizzes in H as [Heq|Heq].
    + by eapply revisionUnpublished_same.
    + intros id quiz. cbn [fst]. rewrite Heq.
      intros [_ Hq]%lookup_delete_Some. by eapply Hinv.
  - destruct (startQuizSessionService newId data db) as [db' r] eqn:H.
    apply start_sameQuizzes in H. by eapply revisionUnpublished_same.
  - destruct (submitQuizSessionService sessionId data uid db) as [db' r] eqn:H.
    apply submit_sameQuizzes in H. by eapply revisionUnpublished_same.
Qed.

(** *** Sampling *)

Lemma sample_length {A} size rnd (pool : list A) :
  length (sample size rnd pool) = (size `min` length pool)%nat.
Proof.
  revert rnd pool. induction size as [|size IH]; intros rnd pool; [done|].
  cbn [sample]. destruct pool as [|x0 pool']; [done|].
  set (pool := x0 :: pool') in *.
  set (i := (hd 0%nat rnd `mod` length pool)%nat).
  assert (i < length pool)%nat as Hi
    by (apply Nat.mod_upper_bound; subst pool; cbn; lia).
  destruct (lookup_lt_is_Some_2 _ _ Hi) as [x Hx]. rewrite Hx.
  cbn [length]. rewrite IH, length_delete by eauto. lia.
Qed.

Lemma sample_elem_of {A} size rnd (pool : list A) x :
  x ∈ sample size rnd pool → x ∈ pool.
Proof.
  revert rnd pool. induction size as [|size IH]; intros rnd pool.
  { cbn. by intros ?%not_elem_of_nil. }
  cbn [sample].
  destruct (pool !! _) as [y|] eqn:Hy; [|by intros ?%not_elem_of_nil].
  intros [->|Hin]%elem_of_cons.
  - by eapply list_elem_of_lookup_2.
  - rewrite (delete_Permutation _ _ _ Hy). right. by eapply IH.
Qed.

(** Nothing is drawn twice: a sample of a pool without repetition (under a
    key [f]) has none. *)
Lemma sample_NoDup {A B} (f : A → B) size rnd (pool : list A) :
  NoDup (f <$> pool) → NoDup (f <$> sample size rnd pool).
Proof.
  revert rnd pool. induction size as [|size IH]; intros rnd pool Hpool.
  { cbn. constructor. }
  cbn [sample].
  destruct (pool !! _) as [y|] eqn:Hy; [|constructor].
  rewrite (delete_Permutation _ _ _ Hy) in Hpool.
  cbn [fmap list_fmap] in *. apply NoDup_cons in Hpool as [Hnotin Hrest].
  apply NoDup_cons. split; [|by apply IH].
  intros (z & Hz & Hin)%list_elem_of_fmap. apply Hnotin.
  apply list_elem_of_fmap. exists z. split; [done|].
  by eapply sample_elem_of.
Qed.

(** *** The draws of a sample

    A draw of rank [i] picks one of the elements that are left, the
    [i] first ones being out.  Within these bounds, the lists of draws and
    the ordered selections without repetition correspond one to one. *)

Lemma withinPool_cons n r rnd :
  withinPool n (r :: rnd) ↔ (r < n)%nat ∧ withinPool (n - 1) rnd.
Proof.
  unfold withinPool. split.
  - intros H. split.
    + specialize (H 0%nat r eq_refl). lia.
    + intros i r' Hr'. specialize (H (S i) r' Hr'). lia.
  - intros [Hr H] [|i] r'; cbn.
    + intros [= <-]. lia.
    + intros Hr'. apply H in Hr'. lia.
Qed.

Lemma sample_cons {A} size r rnd (pool : list A) x :
  (r < List.length pool)%nat → pool !! r = Some x →
  sample (S size) (r :: rnd) pool = x :: sample size rnd (delete r pool).
Proof.
  intros Hr Hx. cbn [sample hd tl]. by rewrite Nat.mod_small, Hx.
Qed.

Lemma sample_one_draw {A} (drawn pool : list A) :
  NoDup pool → NoDup drawn → drawn ⊆ pool →
  ∃ rnd,
    (List.length rnd = List.length drawn
     ∧ withinPool (List.length pool) rnd
     ∧ sample (List.length drawn) rnd pool = drawn)
    ∧ ∀ rnd',
        List.length rnd' = List.length drawn →
        withinPool (List.length pool) rnd' →
        sample (List.length drawn) rnd' pool = drawn → rnd' = rnd.
Proof.
  revert pool. induction drawn as [|x drawn IH]; intros pool Hpool Hdrawn Hsub.
  { exists []. split; [by repeat split|]. by intros [|??]. }
  apply NoDup_cons in Hdrawn as [Hx Hdrawn].
  assert (x ∈ pool) as Hin by (apply Hsub; left).
  apply list_elem_of_lookup_1 in Hin as [i Hi].
  assert (i < List.length pool)%nat as Hlt by (by eapply lookup_lt_Some).
  pose proof (delete_Permutation _ _ _ Hi) as Hperm.
  assert (NoDup (delete i pool)) as Hrest.
  { rewrite Hperm in Hpool. by apply NoDup_cons in Hpool as [_ ?]. }
  assert (drawn ⊆ delete i pool) as Hsub'.
  { intros y Hy. assert (y ∈ pool) as Hyp by (apply Hsub; by right).
    rewrite Hperm in Hyp. apply elem_of_cons in Hyp as [->|]; done. }
  assert (List.length (delete i pool) = (List.length pool - 1)%nat) as Hlen
    by (apply length_delete; eauto).
  destruct (IH _ Hrest Hdrawn Hsub') as (rnd & (Hl & Hw & Hs) & Huniq).
  exists (i :: rnd). split.
  - split; [cbn; by rewrite Hl|]. split.
    + apply withinPool_cons. split; [done|]. by rewrite <- Hlen.
    + cbn [List.length]. by rewrite (sample_cons _ _ _ _ x Hlt Hi), Hs.
  - intros [|r rnd'] Hl' Hw' Hs'; [done|].
    apply withinPool_cons in Hw' as [Hr Hw'].
    destruct (lookup_lt_is_Some_2 _ _ Hr) as [y Hy].
    cbn [List.length] in Hs'. rewrite (sample_cons _ _ _ _ y Hr Hy) in Hs'.
    injection Hs' as Hyx Hs'. subst y.
    assert (r = i) as -> by exact (NoDup_lookup pool r i x Hpool Hy Hi).
    f_equal. apply Huniq.
    + cbn [List.length] in Hl'. by injection Hl'.
    + by rewrite Hlen.
    + done.
Qed.

Lemma matchingQuestions_spec chapters d qs id q :
  (id, q) ∈ matchingQuestions chapters d qs
  ↔ qs !! id = Some q ∧ matchesQuery chapters d q = true.
Proof.
  unfold matchingQuestions.
  by rewrite elem_of_map_to_list, map_lookup_filter_Some.
Qed.

Lemma matchingQuestions_NoDup chapters d qs :
  NoDup ((matchingQuestions chapters d qs).*1).
Proof. apply NoDup_fst_map_to_list. Qed.

(** What a successful [createQuizService] has checked and written. *)
Lemma createQuiz_success newId rnd data db db' quiz :
  createQuizService newId rnd data db = (db', inr quiz) →
  isPublished quiz = false
  ∧ quizType quiz = create_quizType data
  ∧ Quizzes db !! newId = None
  ∧ Quizzes db' = <[newId := quiz]> (Quizzes db)
  ∧ ∃ cfg, questionsConfig data = Some cfg
           ∧ match method cfg with
             | generate =>
                 ∃ n, numberOfQuestions cfg = Some n ∧ (0 < n)%Z
                      ∧ let drawn :=
                          sample (Z.to_nat n) rnd
                            (matchingQuestions (default [] (chapterIds cfg))
                               (cfg_difficulty cfg) (Questions db)) in
                        length drawn = Z.to_nat n
                        ∧ quiz_questions quiz
                          = (λ q, {| questionId := q.1; score := 1 |})
                              <$> drawn
             | select_ =>
                 quiz_questions quiz
                 = (λ q, {| questionId := sel_questionId q;
                            score := default 1%float (sel_score q) |})
                     <$> default [] (selectedQuestionIdsWithScores cfg)
             end.
Proof.
  unfold createQuizService. intros H. invert_run H.
  match goal with
  | Hq : match questionsConfig data with _ => _ end _ = _ |- _ =>
      rename Hq into Hquestions
  end.
  match type of Hquestions with
  | ?m db = (?d0, _) =>
      assert (preserves eq m) as Hpure
        by (unfold generateQuestionsForQuiz; repeat preserves_step; done);
      apply Hpure in Hquestions as Heq; subst d0; clear Hpure
  end.
  apply try_catch_inr in H as [H|(db1 & e & _ & H)]; [|by destruct e].
  apply bind_inr in H as (db1 & [] & Hsave & H).
  apply bind_inr in H as (db2 & [] & Hpush & H).
  injection Hpush as <-. injection H as <- <-.
  unfold saveQuiz in Hsave. invert_run Hsave. injection Hsave as <-.
  match goal with
  | Hdup : _ || _ = false |- _ =>
      apply orb_false_iff in Hdup as [Hdup _];
      cbn [andb] in Hdup; apply bool_decide_eq_false in Hdup;
      rewrite <- eq_None_not_Some in Hdup
  end.
  cbn [isPublished quizType quiz_questions Quizzes set_Quizzes set_Trainings].
  split.
  { destruct (bool_decide (role _ = STUDENT)
              && bool_decide (create_quizType data = REVISION)); reflexivity. }
  do 3 (split; [done|]).
  destruct (questionsConfig data) as [cfg|]; [|discriminate Hquestions].
  exists cfg. split; [done|].
  destruct (method cfg).
  - invert_run Hquestions. unfold generateQuestionsForQuiz in Hquestions.
    invert_run Hquestions. injection Hquestions as <-.
    match goal with
    | Hn : falsyZ _ || _ = false |- _ =>
        apply orb_false_iff in Hn as [Hn1 Hn2]
    end.
    destruct (numberOfQuestions cfg) as [n|]; [|done].
    exists n. split; [done|]. cbn [default] in *. unfold id in *.
    apply Z.leb_gt in Hn2. split; [done|]. cbv zeta. split; [|done].
    match goal with
    | Hlen : (_ <? _)%nat = false |- _ => apply Nat.ltb_ge in Hlen
    end.
    rewrite sample_length in *. lia.
  - invert_run Hquestions. by injection Hquestions as <-.
Qed.
(** C7. A revision quiz is never published.  Starting from a store without
    a published revision quiz, no sequence of requests to the quiz and
    session services leads to a store with one; in particular a quiz is
    always created unpublished, an update keeps the type and the
    publication flag of the quiz it changes, and publishing a revision quiz
    is refused with the store unchanged. *)
Theorem revision_quiz_never_published :
  (∀ requests db,
     revisionUnpublished db → revisionUnpublished (handleAll requests db))
  ∧ (∀ newId rnd data db db' quiz,
       createQuizService newId rnd data db = (db', inr quiz) →
       isPublished quiz = false ∧ Quizzes db' !! newId = Some quiz)
  ∧ (∀ now quizId requestingUser db quiz,
       Quizzes db !! quizId = Some quiz →
       quizType quiz = REVISION →
       ∃ e, publishQuizService now quizId true requestingUser db
            = (db, inl e)
            ∧ (isAdminOrManager (req_role requestingUser) = true →
               e = RevisionNotPublishable)).
Proof.
  split; [|split].
  - intros requests. induction requests as [|request requests IH];
      intros db Hinv; [done|].
    cbn [handleAll foldl]. apply IH. by apply handle_revisionUnpublished.
  - intros newId rnd data db db' quiz H.
    apply createQuiz_success in H as (Hpub & _ & _ & Heq & _).
    split; [done|]. rewrite Heq. apply lookup_insert_eq.
  - intros now quizId u db quiz Hquiz Hrev.
    unfold publishQuizService. mrun. rewrite Hquiz. mrun.
    rewrite (bool_decide_eq_true_2 _ Hrev). cbn [andb].
    destruct (isAdminOrManager (req_role u)).
    + rewrite andb_false_r. mrun. by exists RevisionNotPublishable.
    + rewrite andb_true_r.
      destruct (negb _); mrun; eexists; (split; [reflexivity|done]).
Qed.

(** ** Generated quizzes *)

(** C8. When a quiz is generated and fewer questions match the chapters and
    the difficulty than requested, the call throws and the store is
    unchanged, so that no quiz is created; the error is
    [InsufficientQuestions] once the creator, the role and the training have
    passed their checks.  A call that succeeds has drawn the requested number
    of questions among those that match, none of them twice, each with the
    score 1: they are the sample of the matching questions for the draws of
    the call.  The sample is uniform in that every ordered selection of the
    requested number of distinct matching questions is the sample of
    exactly one list of draws within the pool, so that draws that are
    uniform on their ranges make all these selections equally likely. *)
Theorem generate_requires_enough_questions newId rnd data db cfg n :
  questionsConfig data = Some cfg →
  method cfg = generate →
  numberOfQuestions cfg = Some n →
  let chapters := default [] (chapterIds cfg) in
  let matching :=
    matchingQuestions chapters (cfg_difficulty cfg) (Questions db) in
  ((Z.of_nat (length matching) < n)%Z →
     (∃ e, createQuizService newId rnd data db = (db, inl e))
     ∧ ∀ creator training,
         Users db !! creatorId data = Some creator →
         ¬ (role creator = STUDENT ∧ create_quizType data ≠ REVISION) →
         ¬ (role creator = TEACHER ∧ create_quizType data = REVISION) →
         Trainings db !! create_trainingId data = Some training →
         chapters ≠ [] →
         createQuizService newId rnd data db
         = (db, inl InsufficientQuestions))
  ∧ (∀ db' quiz,
       createQuizService newId rnd data db = (db', inr quiz) →
       (n <= Z.of_nat (length matching))%Z
       ∧ Z.of_nat (length (quiz_questions quiz)) = n
       ∧ quiz_questions quiz
         = (λ q, {| questionId := q.1; score := 1 |})
             <$> sample (Z.to_nat n) rnd matching
       ∧ Forall (λ qItem,
                   score qItem = 1%float
                   ∧ ∃ q, Questions db !! questionId qItem = Some q
                          ∧ matchesQuery chapters (cfg_difficulty cfg) q
                            = true)
                (quiz_questions quiz)
       ∧ NoDup (questionId <$> quiz_questions quiz)
       ∧ Quizzes db !! newId = None
       ∧ Quizzes db' !! newId = Some quiz)
  ∧ (∀ drawn,
       NoDup drawn → drawn ⊆ matching → Z.of_nat (length drawn) = n →
       ∃ draws,
         (length draws = length drawn
          ∧ withinPool (length matching) draws
          ∧ sample (Z.to_nat n) draws matching = drawn)
         ∧ ∀ draws',
             length draws' = length drawn →
             withinPool (length matching) draws' →
             sample (Z.to_nat n) draws' matching = drawn → draws' = draws).
Proof.
  intros Hcfg Hmethod Hn chapters matching. split; [|split].
  - intros Hfew.
    assert (0 < n)%Z as Hpos by lia.
    assert (falsyZ (Some n) = false) as Hfalsy
      by (cbn; apply Z.eqb_neq; lia).
    assert ((n <=? 0)%Z = false) as Hle by (apply Z.leb_gt; lia).
    assert ((length (sample (Z.to_nat n) rnd matching) <? Z.to_nat n)%nat
            = true) as Hshort.
    { apply Nat.ltb_lt. rewrite sample_length. lia. }
    assert (∀ creator training,
              Users db !! creatorId data = Some creator →
              bool_decide (role creator = STUDENT)
              && bool_decide (create_quizType data ≠ REVISION) = false →
              bool_decide (role creator = TEACHER)
              && bool_decide (create_quizType data = REVISION) = false →
              Trainings db !! create_trainingId data = Some training →
              is_nil chapters = false →
              createQuizService newId rnd data db
              = (db, inl InsufficientQuestions)) as Hrun.
    { intros creator training Hcreator Hstudent Hteacher Htraining Hchapters.
      unfold createQuizService, generateQuestionsForQuiz. mrun.
      rewrite Hcreator. mrun. rewrite Hstudent, Hteacher. mrun.
      replace (bool_decide (role creator ∈ [ADMIN; MANAGER; TEACHER; STUDENT]))
        with true by (by destruct (role creator)).
      cbn [negb]. mrun. rewrite Htraining. mrun.
      rewrite Hcfg, Hmethod. mrun. rewrite Hn.
      fold chapters. rewrite Hchapters, Hfalsy. cbn [orb default]. mrun.
      unfold id. rewrite Hle. mrun. fold matching. rewrite Hshort. done. }
    split.
    + destruct (Users db !! creatorId data) as [creator|] eqn:Hcreator.
      2:{ eexists. unfold createQuizService. mrun. by rewrite Hcreator. }
      destruct (bool_decide (role creator = STUDENT)
                && bool_decide (create_quizType data ≠ REVISION)) eqn:Hstudent.
      { eexists. unfold createQuizService. mrun. rewrite Hcreator. mrun.
        by rewrite Hstudent. }
      destruct (bool_decide (role creator = TEACHER)
                && bool_decide (create_quizType data = REVISION)) eqn:Hteacher.
      { eexists. unfold createQuizService. mrun. rewrite Hcreator. mrun.
        rewrite Hstudent. mrun. by rewrite Hteacher. }
      destruct (Trainings db !! create_trainingId data) as [training|]
        eqn:Htraining.
      2:{ eexists. unfold createQuizService. mrun. rewrite Hcreator. mrun.
          rewrite Hstudent, Hteacher. mrun.
          replace (bool_decide
                     (role creator ∈ [ADMIN; MANAGER; TEACHER; STUDENT]))
            with true by (by destruct (role creator)).
          cbn [negb]. mrun. by rewrite Htraining. }
      destruct (is_nil chapters) eqn:Hchapters; [|by eauto].
      eexists. unfold createQuizService. mrun. rewrite Hcreator. mrun.
      rewrite Hstudent, Hteacher. mrun.
      replace (bool_decide (role creator ∈ [ADMIN; MANAGER; TEACHER; STUDENT]))
        with true by (by destruct (role creator)).
      cbn [negb]. mrun. rewrite Htraining. mrun.
      rewrite Hcfg, Hmethod. mrun. fold chapters. by rewrite Hchapters.
    + intros creator training Hcreator Hstudent Hteacher Htraining Hchapters.
      eapply Hrun; [done| | |done|by destruct chapters].
      * apply andb_false_iff.
        destruct (decide (role creator = STUDENT)) as [Hs|Hs];
          [right|left; by apply bool_decide_eq_false].
        apply bool_decide_eq_false. naive_solver.
      * apply andb_false_iff.
        destruct (decide (role creator = TEACHER)) as [Hs|Hs];
          [right|left; by apply bool_decide_eq_false].
        apply bool_decide_eq_false. naive_solver.
  - intros db' quiz H.
    apply createQuiz_success in H
      as (_ & _ & Hnew & Heq & cfg' & Hcfg' & H).
    rewrite Hcfg in Hcfg'. injection Hcfg' as <-. rewrite Hmethod in H.
    destruct H as (n' & Hn' & Hpos & Hlen & Hqs).
    rewrite Hn in Hn'. injection Hn' as <-.
    fold chapters matching in Hlen, Hqs.
    assert (Z.to_nat n ≤ length matching)%nat as Hle.
    { rewrite <- Hlen, sample_length. lia. }
    split; [lia|]. rewrite Hqs, length_fmap, Hlen.
    split; [lia|]. split; [done|]. split; [|split; [|split]].
    + apply Forall_fmap, Forall_forall. intros [id q] Hin.
      apply sample_elem_of, matchingQuestions_spec in Hin as [Hq Hmatch].
      cbn. eauto.
    + rewrite <- list_fmap_compose.
      apply (sample_NoDup fst), matchingQuestions_NoDup.
    + done.
    + rewrite Heq. apply lookup_insert_eq.
  - intros drawn Hdrawn Hsub <-. rewrite Nat2Z.id.
    apply sample_one_draw; [|done|done]. apply NoDup_map_to_list.
Qed.

End Claims.

Section Extras.
Context {runtime_ : Runtime}.

(** ** A new session *)

Lemma startLoop_fold (qs : gmap ObjectId IQuestion) manifest acc :
  let r := foldl (λ acc qItem,
             match qs !! questionId qItem with
             | None => acc
             | Some questionDoc =>
                 ((acc.1 + score qItem)%float,
                  (acc.2 ++ [initialResponse (questionId qItem) questionDoc])%list)
             end) acc manifest in
  r.1 = foldl (λ total qItem, (total + score qItem)%float) acc.1
          (validEntries qs manifest)
  ∧ castResponse <$> r.2
    = (castResponse <$> acc.2)
      ++ (placeholder ∘ questionId <$> validEntries qs manifest).
Proof.
  revert acc. induction manifest as [|qItem manifest IH]; intros acc; cbn zeta.
  - cbn. by rewrite app_nil_r.
  - cbn [foldl validEntries List.filter]. fold (validEntries qs manifest).
    destruct (qs !! questionId qItem) as [q|] eqn:Hq.
    + rewrite bool_decide_eq_true_2 by done.
      destruct (IH ((acc.1 + score qItem)%float,
                    acc.2 ++ [initialResponse (questionId qItem) q]))
        as [IH1 IH2].
      split; [by rewrite IH1|].
      rewrite IH2. cbn [snd]. rewrite fmap_app, <- app_assoc.
      f_equal.
    + rewrite bool_decide_eq_false_2 by (rewrite <- eq_None_not_Some; done).
      apply IH.
Qed.

(** The maximum of a new session is the sum of the scores of the entries
    whose question exists, and it holds a placeholder for each of them. *)
Lemma startLoop_spec qs manifest :
  (startLoop qs manifest).1 = sumOfScores (validEntries qs manifest)
  ∧ castResponse <$> (startLoop qs manifest).2
    = placeholder ∘ questionId <$> validEntries qs manifest.
Proof. apply (startLoop_fold qs manifest (0%float, [])). Qed.

Lemma checkMin_nil path min message x :
  checkMin path min message x = [] ↔ (min <=? x)%float = true.
Proof.
  unfold checkMin. split.
  - destruct (is_nan x); [done|]. by destruct (min <=? x)%float.
  - intros H. apply leb_true_not_nan in H as Hnan. destruct Hnan as [_ ->].
    by rewrite H.
Qed.

Lemma saveNewSession_run id s db :
  (1 <=? maxPossibleScore s)%float = true →
  (1 <=? quizGlobalScore s)%float = true →
  QuizSessions db !! id = None →
  saveNewSession id s db = (set_QuizSessions (insert id s) db, inr tt).
Proof.
  intros Hmax Hglobal Hnew. unfold saveNewSession, validateSession.
  rewrite (proj2 (checkMin_nil _ _ _ _) Hmax).
  rewrite (proj2 (checkMin_nil _ _ _ _) Hglobal).
  cbn [app is_nil negb]. mrun. rewrite Hnew.
  rewrite bool_decide_eq_false_2 by (by intros [? ?]).
  done.
Qed.

(** X1. startQuizSessionService returns a session whenever its checks pass:
    the user and the quiz exist, the user is not a student kept away from an
    unpublished quiz, the user's sessions on the quiz have not reached the
    attempt cap, the scores of the manifest entries whose question exists,
    added in their order as binary64 numbers, make 1 or more, the global
    score of the quiz is 1 or more and the new id is free.  The call then
    stores the new session under that id, changes nothing else, and returns
    it with its questions populated. *)
Theorem start_succeeds newId data db user quiz :
  Users db !! start_user data = Some user →
  Quizzes db !! start_quizId data = Some quiz →
  startForbidden (start_user data) user quiz = false →
  underCap db data quiz →
  (1 <=? sumOfScores (validEntries (Questions db) (quiz_questions quiz)))%float
  = true →
  (1 <=? globalScore quiz)%float = true →
  QuizSessions db !! newId = None →
  startQuizSessionService newId data db
  = (set_QuizSessions (insert newId (freshSession db data quiz)) db,
     inr (populateResponses (Questions db) startSelect
            (freshSession db data quiz))).
Proof.
  intros Huser Hquiz Hok Hcap Hmax Hglobal Hnew.
  rewrite <- (proj1 (startLoop_spec _ _)) in Hmax.
  unfold startForbidden in Hok.
  unfold startQuizSessionService. mrun.
  rewrite Huser. mrun. rewrite Hquiz. mrun. rewrite Hok.
  pose proof (leb_one_not_zero _ Hmax) as Hne.
  assert (match allowedAttempts quiz with
          | Some allowed =>
              (allowed <=? Z2F (Z.of_nat (countDocuments
                   (sessionOf (start_user data) (start_quizId data))
                   (QuizSessions db))))%float
          | None => false
          end = false) as Hunder.
  { destruct (allowedAttempts quiz) as [allowed|] eqn:Hallowed; [|done].
    exact (Hcap _ Hallowed). }
  destruct (allowedAttempts quiz) as [allowed|]; mrun;
    rewrite ?Hunder, Hne; unfold try_catch;
    fold (freshSession db data quiz);
    rewrite (saveNewSession_run newId (freshSession db data quiz) db);
    done.
Qed.

Lemma start_success_valid newId data db db' s :
  startQuizSessionService newId data db = (db', inr s) →
  ∃ user quiz,
    Users db !! start_user data = Some user
    ∧ Quizzes db !! start_quizId data = Some quiz
    ∧ startForbidden (start_user data) user quiz = false
    ∧ validateSession (freshSession db data quiz) = [].
Proof.
  unfold startQuizSessionService. intros H.
  invert_run H. rename a into user, a0 into quiz.
  assert (db0 = db) as ->.
  { destruct (allowedAttempts quiz) as [allowed|].
    - invert_run Hrun2. by apply throwIf_inr in Hrun2 as [_ ->].
    - by injection Hrun2 as <- _. }
  exists user, quiz. do 3 (split; [done|]).
  apply try_catch_inr in H as [H|(db1 & e & _ & H)]; [|by destruct e].
  apply bind_inr in H as (db1 & [] & Hsave & _).
  unfold saveNewSession in Hsave. invert_run Hsave.
  match goal with
  | Hvalid : negb (is_nil _) = false |- _ =>
      apply negb_false_iff in Hvalid;
      fold (freshSession db data quiz) in Hvalid;
      by destruct (validateSession (freshSession db data quiz))
  end.
Qed.

Lemma validateSession_nil s :
  validateSession s = [] →
  (1 <=? maxPossibleScore s)%float = true
  ∧ (1 <=? quizGlobalScore s)%float = true.
Proof.
  unfold validateSession. intros [Hmax Hglobal]%app_eq_nil.
  by apply checkMin_nil in Hmax, Hglobal.
Qed.

(** X2. A session that startQuizSessionService returns was stored under an id
    that was free, and is the only change of the store. It belongs to the
    given user and quiz, has the requested language, is not completed, has no
    pass status, scores of 0 and the global score of the quiz; its maximum is
    the sum of the scores of the manifest entries whose question exists,
    added in their order as binary64 numbers, and it holds one unanswered
    response per such entry, in the order of the manifest, an entry whose
    question is missing being skipped. *)
Theorem start_session_contents newId data db db' s :
  startQuizSessionService newId data db = (db', inr s) →
  ∃ quiz stored,
    Quizzes db !! start_quizId data = Some quiz
    ∧ QuizSessions db !! newId = None
    ∧ db' = set_QuizSessions (insert newId stored) db
    ∧ session_user stored = start_user data
    ∧ session_quiz stored = start_quizId data
    ∧ language stored = start_language data
    ∧ isCompleted stored = false
    ∧ passStatus stored = None
    ∧ totalScoreEarned stored = 0%float
    ∧ finalCalculatedScore stored = 0%float
    ∧ quizGlobalScore stored = globalScore quiz
    ∧ let entries := validEntries (Questions db) (quiz_questions quiz) in
      maxPossibleScore stored = sumOfScores entries
      ∧ (1 <=? maxPossibleScore stored)%float = true
      ∧ responses stored = placeholder ∘ questionId <$> entries
      ∧ s = populateResponses (Questions db) startSelect stored
      ∧ Forall2 (λ qItem r,
                   ∃ q, Questions db !! questionId qItem = Some q
                        ∧ response_question r
                          = QuestionDoc (questionView (questionId qItem) q))
                entries (responses s).
Proof.
  intros H.
  destruct (start_success_valid _ _ _ _ _ H) as (_ & quiz & _ & Hquiz & _ & Hvalid).
  apply start_success in H as (_ & quiz' & _ & Hquiz' & H).
  rewrite Hquiz in Hquiz'. injection Hquiz' as <-.
  cbn zeta in H. destruct H as (_ & Hnew & Hdb & Hs).
  fold (freshSession db data quiz) in Hdb, Hs.
  exists quiz, (freshSession db data quiz).
  do 11 (split; [done|]). cbn zeta.
  destruct (startLoop_spec (Questions db) (quiz_questions quiz)) as [Hsum Hrs].
  split; [exact Hsum|].
  split; [by apply validateSession_nil in Hvalid as [? _]|].
  split; [exact Hrs|].
  split; [exact Hs|].
  rewrite Hs. unfold populateResponses. cbn [responses set_responses freshSession].
  rewrite Hrs, <- list_fmap_compose.
  apply Forall2_fmap_r, Forall_Forall2_diag, Forall_forall.
  intros qItem Hin. unfold validEntries in Hin.
  apply list_elem_of_In, filter_In in Hin as [_ Hq].
  apply bool_decide_eq_true in Hq as [q Hq]. exists q. split; [done|].
  unfold compose, populateQuestion, placeholder.
  cbn [response_question set_question]. rewrite Hq.
  by rewrite select_question.
Qed.

(** Runs [startQuizSessionService] up to the loop over the manifest. *)
Lemma start_checks_pass newId data db user quiz :
  Users db !! start_user data = Some user →
  Quizzes db !! start_quizId data = Some quiz →
  startForbidden (start_user data) user quiz = false →
  underCap db data quiz →
  startQuizSessionService newId data db
  = (throwIf (maxPossibleScore (freshSession db data quiz) =? 0)%float
             InvalidQuiz ≫= λ _,
     try_catch
       (saveNewSession newId (freshSession db data quiz) ≫= λ _,
        gets (λ db', populateResponses (Questions db')
                       "text type choices.text difficulty tags"
                       (freshSession db data quiz)))
       (λ error,
          match error with
          | ValidationError messages =>
              throw (ApiError (String.concat ", " messages) 400)
          | _ =>
              throw (ApiError "Failed to start quiz session: ${error.message || 'Unknown error'}" 500)
          end)) db.
Proof.
  intros Huser Hquiz Hok Hcap. unfold startForbidden in Hok.
  unfold startQuizSessionService. mrun.
  rewrite Huser. mrun. rewrite Hquiz. mrun. rewrite Hok.
  unfold freshSession. cbn [maxPossibleScore].
  destruct (allowedAttempts quiz) as [allowed|] eqn:Hallowed; mrun.
  - specialize (Hcap _ Hallowed). unfold priorSessions in Hcap.
    rewrite Hcap. by destruct (_ =? 0)%float.
  - by destruct (_ =? 0)%float.
Qed.

(** X3. For a student and an unpublished quiz, startQuizSessionService throws
    the 403 error of an inaccessible quiz and leaves the store unchanged,
    unless the student created the quiz and it is a revision quiz; so a start
    that succeeds there is on the student's own revision quiz. *)
Theorem start_student_access newId data db user quiz :
  Users db !! start_user data = Some user →
  Quizzes db !! start_quizId data = Some quiz →
  role user = STUDENT →
  isPublished quiz = false →
  (¬ (quiz_creator quiz = start_user data ∧ quizType quiz = REVISION) →
     startQuizSessionService newId data db = (db, inl Forbidden_quiz))
  ∧ (∀ db' s, startQuizSessionService newId data db = (db', inr s) →
              quiz_creator quiz = start_user data ∧ quizType quiz = REVISION).
Proof.
  intros Huser Hquiz Hrole Hpub.
  assert (startForbidden (start_user data) user quiz
          = negb (bool_decide (quiz_creator quiz = start_user data
                               ∧ quizType quiz = REVISION))) as Hforbidden.
  { unfold startForbidden. rewrite Hrole, Hpub.
    rewrite bool_decide_eq_true_2 by done. cbn [negb andb].
    f_equal. by rewrite bool_decide_and. }
  split.
  - intros Hnot. unfold startQuizSessionService. mrun.
    rewrite Huser. mrun. rewrite Hquiz. mrun.
    unfold startForbidden in Hforbidden. rewrite Hforbidden.
    by rewrite bool_decide_eq_false_2.
  - intros db' s H.
    apply start_success_valid in H as (user' & quiz' & Hu & Hq & Hok & _).
    rewrite Huser in Hu. rewrite Hquiz in Hq.
    injection Hu as <-. injection Hq as <-.
    rewrite Hforbidden in Hok. apply negb_false_iff in Hok.
    by apply bool_decide_eq_true in Hok.
Qed.

(** X4. Once the user, the quiz and the attempt cap have been checked,
    startQuizSessionService creates no session for a quiz without usable
    questions: when no manifest entry has an existing question it throws the
    400 error of a quiz without valid questions, and when the scores of the
    entries whose question exists, added in their order as binary64 numbers,
    do not make 1 or more (their sum is below 1, or is [NaN]) it throws an
    error of status 400; the store is unchanged in both cases. *)
Theorem start_requires_scored_questions newId data db user quiz :
  Users db !! start_user data = Some user →
  Quizzes db !! start_quizId data = Some quiz →
  startForbidden (start_user data) user quiz = false →
  underCap db data quiz →
  (validEntries (Questions db) (quiz_questions quiz) = [] →
     startQuizSessionService newId data db = (db, inl InvalidQuiz))
  ∧ ((1 <=? sumOfScores (validEntries (Questions db) (quiz_questions quiz)))%float
     = false →
       ∃ message,
         startQuizSessionService newId data db
         = (db, inl (ApiError message 400))).
Proof.
  intros Huser Hquiz Hok Hcap.
  rewrite (start_checks_pass _ _ _ _ _ Huser Hquiz Hok Hcap).
  destruct (startLoop_spec (Questions db) (quiz_questions quiz)) as [Hsum _].
  split.
  - intros Hnone. rewrite Hnone in Hsum.
    cbn [maxPossibleScore freshSession]. by rewrite Hsum.
  - intros Hlt. rewrite <- Hsum in Hlt.
    cbn [maxPossibleScore freshSession].
    destruct (_ =? 0)%float eqn:Hzero; [by eexists|].
    mrun. unfold try_catch, saveNewSession, validateSession.
    cbn [maxPossibleScore freshSession].
    destruct (checkMin _ 1 _ (startLoop _ _).1) as [|m ms] eqn:Hcheck.
    { apply checkMin_nil in Hcheck. congruence. }
    cbn [app is_nil negb]. mrun. by eexists.
Qed.

(** ** Grading *)

Lemma gradeLoop_unknown lang qmap submitted total acc r :
  r ∈ submitted → qmap !! sub_question r = None →
  gradeLoop lang qmap submitted total acc = inl InvalidQuestion.
Proof.
  intros Hin Hnone. revert total acc.
  induction submitted as [|r' rest IH]; intros total acc;
    [by apply elem_of_nil in Hin|].
  cbn [gradeLoop]. destruct (qmap !! sub_question r') as [qd|] eqn:Hr';
    [|done].
  apply elem_of_cons in Hin as [->|Hin]; [congruence|]. by apply IH.
Qed.

Lemma quizQuestionsMap_None qs manifest id :
  qs !! id = None ∨ id ∉ questionId <$> manifest →
  quizQuestionsMap qs manifest !! id = None.
Proof.
  intros H. destruct (quizQuestionsMap qs manifest !! id) as [[q sc]|] eqn:Hm;
    [|done].
  apply quizQuestionsMap_spec in Hm as (Hq & qItem & Hin & Hid & _).
  destruct H as [H|H]; [congruence|].
  exfalso. apply H. apply list_elem_of_fmap. by exists qItem.
Qed.

(** X5. A submission on an open session, by the requester who passes the
    owner test, with a duration that is not negative and a quiz that exists,
    is refused as a whole as soon as one of its responses names a question
    that does not exist or is not in the manifest of the quiz: the call
    throws the 400 error of an invalid question and the store is unchanged,
    whatever the other responses are. *)
Theorem submit_rejects_unknown_question sessionId data uid db s0 quiz r :
  QuizSessions db !! sessionId = Some s0 →
  passesOwnerTest db s0 uid →
  isCompleted s0 = false →
  (sub_durationSeconds data <? 0)%float = false →
  Quizzes db !! session_quiz s0 = Some quiz →
  r ∈ sub_responses data →
  Questions db !! sub_question r = None
  ∨ sub_question r ∉ questionId <$> quiz_questions quiz →
  submitQuizSessionService sessionId data uid db = (db, inl InvalidQuestion).
Proof.
  intros Hs [[user Huser] ->] Hopen Hduration Hquiz Hin Hunknown.
  apply quizQuestionsMap_None in Hunknown.
  unfold submitQuizSessionService. apply bind_throw.
  unfold gradeSubmission. mrun. rewrite Hs. mrun. rewrite Huser.
  unfold Object_toString. rewrite String.eqb_refl. cbn [negb].
  rewrite Hopen, Hduration, Hquiz. mrun.
  by rewrite (gradeLoop_unknown _ _ _ _ _ r Hin Hunknown).
Qed.

(** X7. The verdict on a multiple-choice answer depends neither on the order
    of the choices of the question nor on the order of the answers given. *)
Theorem QCM_order_irrelevant lang q q' cs cs' l l' :
  question_type q = QCM → choices q = Some cs →
  question_type q' = QCM → choices q' = Some cs' →
  cs ≡ₚ cs' → l ≡ₚ l' →
  gradeAnswer lang q (AnswerList l) = gradeAnswer lang q' (AnswerList l').
Proof.
  intros Hty Hcs Hty' Hcs' Hperm Hl.
  assert (correctChoiceTexts lang cs ≡ₚ correctChoiceTexts lang cs') as Hc.
  { unfold correctChoiceTexts. apply fmap_Permutation.
    clear -Hperm. induction Hperm as [|c ? ? _ IH|c1 c2 ?|? ? ? _ IH1 _ IH2].
    - done.
    - cbn [List.filter]. destruct (choice_isCorrect c); by rewrite IH.
    - cbn [List.filter].
      destruct (choice_isCorrect c1), (choice_isCorrect c2);
        first [done | apply perm_swap].
    - by rewrite IH1. }
  apply eq_true_iff_eq.
  rewrite (gradeAnswer_QCM lang q cs) by done.
  rewrite (gradeAnswer_QCM lang q' cs') by done.
  cbn [userAnswers].
  rewrite (Permutation_length Hc), (Permutation_length Hl).
  split; intros [Hlen Hall]; (split; [done|]); intros ua Hua.
  - rewrite <- Hc. apply Hall. by rewrite Hl.
  - rewrite Hc. apply Hall. by rewrite <- Hl.
Qed.

(** X34. When the submitted answers name no text twice and no two correct
    choices of a multiple-choice question have the same text in the
    language of the grading, the answer is graded correct exactly when the
    submitted answers and the texts of the correct choices are the same
    set. *)
Theorem QCM_exact_without_repeats lang q cs answer :
  question_type q = QCM → choices q = Some cs →
  NoDup (userAnswers answer) → NoDup (correctChoiceTexts lang cs) →
  gradeAnswer lang q answer = true
  ↔ sameSet (userAnswers answer) (correctChoiceTexts lang cs).
Proof.
  intros Hty Hcs Hua Hcorrect. rewrite (gradeAnswer_QCM _ _ _ _ Hty Hcs).
  assert (NoDup (Some <$> userAnswers answer)) as Hua'.
  { apply NoDup_fmap_2; [|done]. by intros ?? [= ->]. }
  split.
  - intros [Hlen Hsub].
    assert ((Some <$> userAnswers answer) ≡ₚ correctChoiceTexts lang cs) as HP.
    { apply submseteq_length_Permutation.
      - apply NoDup_submseteq; [done|].
        intros t (ua & -> & Hin)%list_elem_of_fmap. by apply Hsub.
      - rewrite length_fmap. lia. }
    intros t. by rewrite HP.
  - intros Hsame.
    assert ((Some <$> userAnswers answer) ≡ₚ correctChoiceTexts lang cs) as HP
      by by apply NoDup_Permutation.
    split.
    + by rewrite <- HP, length_fmap.
    + intros ua Hin. apply Hsame. by apply list_elem_of_fmap_2.
Qed.

(** X32. The owner test of submitQuizSessionService compares the requester
    with [toString()] of the populated user of the session, which is the
    string [[object Object]] whoever the user is.  So a submission on a
    session whose user exists is refused with the 403 error of a requester
    who is not authorized, the store unchanged, for every requester other
    than that string, the user of the session included; and a submission
    that succeeds was made under that string. *)
Theorem submit_owner_test sessionId db s0 user :
  QuizSessions db !! sessionId = Some s0 →
  Users db !! session_user s0 = Some user →
  (∀ data uid,
     uid ≠ "[object Object]" →
     submitQuizSessionService sessionId data uid db
     = (db, inl Forbidden_submit))
  ∧ (session_user s0 ≠ "[object Object]" →
     ∀ data, submitQuizSessionService sessionId data (session_user s0) db
             = (db, inl Forbidden_submit))
  ∧ (∀ data uid db' s,
       submitQuizSessionService sessionId data uid db = (db', inr s) →
       uid = "[object Object]").
Proof.
  intros Hs0 Huser.
  assert (∀ data uid,
            uid ≠ "[object Object]" →
            submitQuizSessionService sessionId data uid db
            = (db, inl Forbidden_submit)) as Hrefused.
  { intros data uid Huid. unfold submitQuizSessionService. apply bind_throw.
    by rewrite (gradeSubmission_owner _ _ _ _ _ Hs0 Huid), Huser. }
  split; [exact Hrefused|]. split.
  - intros Hne data. by apply Hrefused.
  - intros data uid db' s H.
    by apply submit_success in H as (_ & _ & _ & _ & _ & _ & -> & _).
Qed.

(** X33. The final score and the pass test are computed on binary64
    numbers, each operation rounded: a total of 7 out of a maximum of 10 on
    a global score of 3 gives the final score 2.0999999999999996, whose
    quotient by 3 is below 0.7, so that a session with 70 percent of the
    points fails; on a global score of 20 the same total gives 14 and
    passes. *)
Theorem pass_threshold_rounds :
  finalScore 7 10 3 = 2.0999999999999996%float
  ∧ passStatusOf (finalScore 7 10 3) 3 = failed
  ∧ finalScore 7 10 20 = 14%float
  ∧ passStatusOf (finalScore 7 10 20) 20 = passed.
Proof. repeat split; vm_compute; reflexivity. Qed.

(** X8. In a graded session, the response to a question that the grading has
    no key for (a true/false question, a multiple-choice question whose
    [choices] field is missing, a calculation without a formula or with an
    empty one) is not correct and earns 0, whatever the answer is. *)
Theorem questions_without_key_earn_nothing sessionId data uid db db' s :
  submitQuizSessionService sessionId data uid db = (db', inr s) →
  Forall2 (λ r g,
             ∀ q, Questions db !! sub_question r = Some q → hasNoKey q →
                  isCorrect g = false ∧ scoreEarned g = 0%float)
          (sub_responses data) (responses s).
Proof.
  intros H.
  apply submit_success in H
    as (s0 & quiz & user & total & rs & _ & _ & _ & _ & _ & _ & Hloop & H).
  cbn zeta in H. destruct H as (_ & _ & _ & ->).
  apply gradeLoop_success in Hloop as (gs & -> & Hgs & _).
  unfold populateResponses. cbn [responses set_responses applyUpdate upd_responses app].
  apply Forall2_fmap_r. eapply Forall2_impl; [exact Hgs|].
  intros r g ([question sc] & Hqd & ->) q Hq Hkey.
  apply quizQuestionsMap_spec in Hqd as [Hq' _].
  rewrite Hq in Hq'. injection Hq' as <-.
  assert (gradeAnswer (language s0) q (sub_userAnswer r) = false) as Hfalse.
  { unfold gradeAnswer.
    destruct Hkey as [->|[[-> ->]|[-> ->]]]; done. }
  unfold populateQuestion, gradeResponse. cbn. by rewrite Hfalse.
Qed.

(** X31. A multiple-choice question none of whose choices is flagged
    correct, as one that is stored with the empty array of choices, has one
    answer that is graded correct: the empty list.  Every other answer, a
    text, a number or a list that is not empty, is graded incorrect. *)
Theorem QCM_without_correct_choice lang q answer :
  noCorrectChoice q →
  gradeAnswer lang q answer = true ↔ answer = AnswerList [].
Proof.
  intros (Hty & cs & Hcs & Hnone).
  rewrite (gradeAnswer_QCM lang q cs answer Hty Hcs).
  unfold correctChoiceTexts. rewrite Hnone. cbn [fmap list_fmap length].
  split.
  - intros [Hlen _]. by destruct answer as [?|[|??]|?].
  - intros ->. split; [done|]. by intros ua ?%elem_of_nil.
Qed.

(** X9. When no correct choice of a multiple-choice question has a text in the
    language of the session (missing or empty), an answer is graded as it is
    in English. *)
Theorem grading_language_fallback lang q cs answer :
  question_type q = QCM → choices q = Some cs →
  Forall (λ c, choice_isCorrect c = true →
               truthy (choice_text_in (choice_text c) lang) = false) cs →
  gradeAnswer lang q answer = gradeAnswer EN q answer.
Proof.
  intros Hty Hcs Hmissing. unfold gradeAnswer. rewrite Hty, Hcs.
  replace (correctChoiceTexts lang cs) with (correctChoiceTexts EN cs); [done|].
  unfold correctChoiceTexts. clear Hcs.
  induction Hmissing as [|c cs' Hc _ IH]; [done|].
  cbn [List.filter]. destruct (choice_isCorrect c); [|exact IH].
  cbn [fmap list_fmap]. f_equal; [|exact IH].
  unfold js_or. rewrite Hc by done. cbn [choice_text_in].
  by destruct (truthy (lc_en (choice_text c))).
Qed.

(** ** The notifications of a graded session *)

Lemma createNotification_exact sessionId quiz user r db :
  is_Some (Users db !! r) →
  (89 + String.length (ls_fr (quiz_title quiz))
   + String.length (username user) ≤ 500)%nat →
  createNotificationService (gradedNotification sessionId quiz user r) db
  = (set_Notifications (λ ns, ns ++ [gradedNote sessionId quiz user r]) db,
     inr (gradedNote sessionId quiz user r)).
Proof.
  intros [u Hu] Hlen.
  unfold createNotificationService, saveNotification, try_catch. mrun.
  cbn [recipientId gradedNotification]. rewrite Hu.
  rewrite bool_decide_eq_false_2 by done.
  unfold messageLength. cbn [notif_quizTitle notif_student gradedNotification].
  replace (500 <? _)%nat with false
    by (symmetry; apply Nat.ltb_ge; exact Hlen).
  done.
Qed.

Lemma notifyAll_exact sessionId quiz user recipients db :
  deliverable db quiz user recipients →
  notifyAll sessionId quiz user recipients db
  = (set_Notifications
       (λ ns, ns ++ (gradedNote sessionId quiz user <$> recipients)) db,
     inr tt).
Proof.
  intros [Hall Hlen]. revert db Hall.
  induction recipients as [|r rs IH]; intros db Hall.
  - unfold notifyAll, set_Notifications. cbn [forEachM fmap list_fmap].
    rewrite app_nil_r. by destruct db.
  - apply Forall_cons in Hall as [Hr Hrs].
    unfold notifyAll in *. cbn [forEachM]. unfold mbind at 1, M_bind at 1.
    unfold mbind at 1, M_bind at 1.
    rewrite (createNotification_exact sessionId quiz user r db Hr Hlen).
    etransitivity;
      [exact (IH (set_Notifications
                    (λ ns, ns ++ [gradedNote sessionId quiz user r]) db) Hrs)|].
    unfold set_Notifications. cbn [Notifications Users Trainings Questions
                                     Quizzes QuizSessions fmap list_fmap].
    by rewrite <- app_assoc.
Qed.

Lemma completeSession_exact sessionId u db s0 quiz user :
  QuizSessions db !! sessionId = Some s0 →
  validateUpdate u = true →
  Quizzes db !! session_quiz s0 = Some quiz →
  Users db !! session_user s0 = Some user →
  deliverable db quiz user (recipientsIn db quiz) →
  completeSession sessionId u db
  = (set_Notifications
       (λ ns, ns ++ (gradedNote sessionId quiz user <$> recipientsIn db quiz))
       (set_QuizSessions (insert sessionId (applyUpdate u s0)) db),
     inr (populateResponses (Questions db) startSelect (applyUpdate u s0))).
Proof.
  intros Hs0 Hvalid Hquiz Huser Hdeliver.
  set (db1 := set_QuizSessions (insert sessionId (applyUpdate u s0)) db).
  pose proof (notifyAll_exact sessionId quiz user (recipientsIn db quiz) db1)
    as Hnotify.
  unfold completeSession.
  rewrite (bind_run _ _ _ _ _ (updatedSession_run _ _ _ _ _ Hvalid Hs0)).
  mrun. fold db1. cbn [session_quiz session_user applyUpdate].
  change (Quizzes db1) with (Quizzes db). rewrite Hquiz. mrun.
  change (Users db1) with (Users db). rewrite Huser. mrun.
  change (Trainings db1) with (Trainings db).
  unfold notifyAll, gradedNotification, recipientsIn in Hnotify.
  mrun_in Hnotify. rewrite Hnotify; [done|].
  destruct Hdeliver as [Hall Hlen]. split; [exact Hall|done].
Qed.

Lemma addRecipient_spec l id :
  NoDup l →
  NoDup (addRecipient l id)
  ∧ (∀ r, r ∈ addRecipient l id ↔ r ∈ l ∨ r = id)
  ∧ (l ≠ [] → head (addRecipient l id) = head l).
Proof.
  intros Hl. unfold addRecipient. case_bool_decide as Hin.
  - split; [done|]. split; [|done].
    intros r. split; [by left|]. by intros [?| ->].
  - split; [|split].
    + apply NoDup_app. split; [done|].
      split; [|apply NoDup_singleton].
      intros x Hx Hx'. apply list_elem_of_singleton in Hx' as ->. done.
    + intros r. rewrite elem_of_app, list_elem_of_singleton. done.
    + by destruct l.
Qed.

Lemma recipientsOf_spec creator ts :
  NoDup (recipientsOf creator ts)
  ∧ (∀ r, r ∈ recipientsOf creator ts ↔ r = creator ∨ r ∈ ts)
  ∧ head (recipientsOf creator ts) = Some creator.
Proof.
  unfold recipientsOf.
  assert (addRecipient [] creator = [creator]) as ->.
  { unfold addRecipient.
    by rewrite bool_decide_eq_false_2 by apply not_elem_of_nil. }
  assert (∀ acc, NoDup acc → head acc = Some creator →
            NoDup (foldl addRecipient acc ts)
            ∧ (∀ r, r ∈ foldl addRecipient acc ts ↔ r ∈ acc ∨ r ∈ ts)
            ∧ head (foldl addRecipient acc ts) = Some creator) as Hgen.
  { induction ts as [|t ts IH]; intros acc Hnodup Hhead.
    - cbn [foldl]. split; [done|]. split; [|done].
      intros r. split; [by left|].
      intros [?|Hr]; [done|]. by apply elem_of_nil in Hr.
    - cbn [foldl].
      destruct (addRecipient_spec acc t Hnodup) as (Hnodup' & Hin' & Hhead').
      destruct (IH (addRecipient acc t)) as (H1 & H2 & H3); [done| |].
      { rewrite Hhead'; [done|]. by intros ->. }
      split; [done|]. split; [|done].
      intros r. rewrite H2, Hin', elem_of_cons. naive_solver. }
  destruct (Hgen [creator]) as (H1 & H2 & H3);
    [apply NoDup_singleton|done|].
  split; [done|]. split; [|done].
  intros r. by rewrite H2, list_elem_of_singleton.
Qed.

(** X11. A submission that succeeds appends to the stored notifications one
    QUIZ_GRADED notification per recipient and nothing else: the creator of
    the quiz first, then the teachers of the training of the quiz, each user
    once; each notification names the quiz and the user of the session, and
    the notifications that were there are kept, in their order. *)
Theorem submit_notifies_recipients sessionId data uid db db' s :
  submitQuizSessionService sessionId data uid db = (db', inr s) →
  ∃ quiz user,
    Quizzes db !! session_quiz s = Some quiz
    ∧ Users db !! session_user s = Some user
    ∧ Notifications db'
      = Notifications db
        ++ (gradedNote sessionId quiz user <$> recipientsIn db quiz)
    ∧ NoDup (recipientsIn db quiz)
    ∧ head (recipientsIn db quiz) = Some (quiz_creator quiz)
    ∧ ∀ r, r ∈ recipientsIn db quiz
           ↔ r = quiz_creator quiz
             ∨ ∃ training, Trainings db !! quiz_training quiz = Some training
                           ∧ r ∈ teachers training.
Proof.
  intros H. pose proof H as Hrun.
  apply submit_success in H
    as (s0 & quiz & user & total & rs & Hs0 & Huid & Hopen & Hquiz & Huser
        & Hdeliv & Hloop & H).
  cbn zeta in H. destruct H as (Hgrade & Hvalid & _ & ->).
  exists quiz, user. split; [done|]. split; [done|].
  unfold submitQuizSessionService in Hrun.
  rewrite (bind_run _ _ _ _ _ Hgrade) in Hrun.
  rewrite (completeSession_exact _ _ _ _ _ _ Hs0 Hvalid Hquiz Huser Hdeliv)
    in Hrun.
  injection Hrun as <-. split; [done|].
  destruct (recipientsOf_spec (quiz_creator quiz)
              (default [] (teachers <$> Trainings db !! quiz_training quiz)))
    as (Hnodup & Hin & Hhead).
  split; [done|]. split; [done|].
  intros r. unfold recipientsIn. rewrite Hin.
  destruct (Trainings db !! quiz_training quiz) as [t|]; cbn.
  - split; intros [?|?]; [by left|right; by exists t|by left|right].
    by destruct H as (t' & [= <-] & ?).
  - split; intros [?|?]; [by left|by apply elem_of_nil in H|by left|].
    by destruct H as (? & ? & ?).
Qed.

(** X12. A submission that succeeds replaces the open session by a completed
    one and changes no other session, and no user, training, question or quiz.
    The stored session keeps its user, quiz, maximum, global score, language
    and attempt number, takes the submitted duration, and its responses are
    the submitted ones in their order, each with the id of its question, its
    answer and its time (0 when none is given). *)
Theorem submit_changes_one_session sessionId data uid db db' s :
  submitQuizSessionService sessionId data uid db = (db', inr s) →
  ∃ s0 stored,
    QuizSessions db !! sessionId = Some s0
    ∧ QuizSessions db' = <[sessionId := stored]> (QuizSessions db)
    ∧ Users db' = Users db ∧ Trainings db' = Trainings db
    ∧ Questions db' = Questions db ∧ Quizzes db' = Quizzes db
    ∧ isCompleted s0 = false ∧ isCompleted stored = true
    ∧ session_user stored = session_user s0
    ∧ session_quiz stored = session_quiz s0
    ∧ maxPossibleScore stored = maxPossibleScore s0
    ∧ quizGlobalScore stored = quizGlobalScore s0
    ∧ language stored = language s0
    ∧ attemptNumber stored = attemptNumber s0
    ∧ durationSeconds stored = sub_durationSeconds data
    ∧ Forall2 (λ r g, response_question g = QuestionRef (sub_question r)
                      ∧ userAnswer g = sub_userAnswer r
                      ∧ timeTakenSeconds g = orZero (sub_timeTakenSeconds r))
              (sub_responses data) (responses stored).
Proof.
  intros H.
  apply submit_success in H
    as (s0 & quiz & user & total & rs & Hs0 & Huid & Hopen & Hquiz & Huser
        & Hdeliv & Hloop & H).
  cbn zeta in H. destruct H as (_ & _ & Hsame & _).
  destruct Hsame as (HU & HT & HQ & HZ & HS).
  eexists s0, _. split; [done|]. split; [exact HS|].
  do 4 (split; [done|]). split; [done|].
  cbn [isCompleted session_user session_quiz maxPossibleScore quizGlobalScore
       language attemptNumber durationSeconds responses applyUpdate
       upd_durationSeconds upd_responses].
  do 8 (split; [done|]).
  apply gradeLoop_success in Hloop as (gs & -> & Hgs & _).
  cbn [app]. eapply Forall2_impl; [exact Hgs|].
  by intros r g (qd & _ & ->).
Qed.

(** ** Deleting a session *)

Lemma countDocuments_delete {A} (P : A → bool) (m : gmap ObjectId A) k x :
  m !! k = Some x →
  countDocuments P m
  = ((if P x then 1 else 0) + countDocuments P (delete k m))%nat.
Proof.
  intros Hk. unfold countDocuments.
  rewrite <- (insert_delete_id m k x Hk) at 1.
  rewrite map_filter_insert. cbn [snd].
  destruct (P x) eqn:HP.
  - rewrite decide_True by (cbn; congruence).
    rewrite map_size_insert_None; [done|].
    apply map_lookup_filter_None. left. apply lookup_delete_eq.
  - rewrite decide_False by (cbn; congruence).
    rewrite delete_delete_eq. done.
Qed.

(** X13. deleteQuizSessionService succeeds only for an administrator, a
    manager, or the student who owns the session while it is not completed,
    and then removes that session and nothing else. When it throws, the store
    is unchanged: 404 when the session does not exist, and 403 otherwise, in
    which case the user is neither administrator nor manager and, if a
    student, does not own the session or the session is completed; a teacher
    is always refused. *)
Theorem deleteQuizSession_authorization sessionId requestingUser db db' r :
  deleteQuizSessionService sessionId requestingUser db = (db', r) →
  match r with
  | inr _ =>
      ∃ session,
        QuizSessions db !! sessionId = Some session
        ∧ (req_role requestingUser = ADMIN
           ∨ req_role requestingUser = MANAGER
           ∨ (req_role requestingUser = STUDENT
              ∧ session_user session = req_id requestingUser
              ∧ isCompleted session = false))
        ∧ db' = set_QuizSessions (delete sessionId) db
  | inl e =>
      db' = db
      ∧ match QuizSessions db !! sessionId with
        | None => statusOf e = Some 404%nat
        | Some session =>
            statusOf e = Some 403%nat
            ∧ req_role requestingUser ≠ ADMIN
            ∧ req_role requestingUser ≠ MANAGER
            ∧ (req_role requestingUser = STUDENT →
               session_user session ≠ req_id requestingUser
               ∨ isCompleted session = true)
        end
  end.
Proof.
  unfold deleteQuizSessionService, isAdminOrManager. mrun.
  destruct (QuizSessions db !! sessionId) as [session|] eqn:Hs;
    [|by intros [= <- <-]].
  mrun.
  destruct requestingUser as [uid []]; cbn [req_role req_id].
  - (* student *)
    rewrite bool_decide_eq_false_2
      by (by rewrite !elem_of_cons, elem_of_nil; intros [|[|]]).
    rewrite bool_decide_eq_true_2 by done. cbn [negb andb].
    destruct (bool_decide (session_user session = uid)) eqn:Howner;
      [apply bool_decide_eq_true in Howner
      |apply bool_decide_eq_false in Howner];
      destruct (isCompleted session) eqn:Hdone; cbn [negb andb];
      intros [= <- <-]; first [ by eexists; eauto 10 | by eauto 10 ].
  - (* teacher *)
    rewrite bool_decide_eq_false_2
      by (by rewrite !elem_of_cons, elem_of_nil; intros [|[|]]).
    rewrite bool_decide_eq_false_2 by done. cbn [negb andb].
    intros [= <- <-]. by eauto 10.
  - (* admin *)
    rewrite bool_decide_eq_true_2 by (by rewrite !elem_of_cons; left).
    cbn [negb andb]. intros [= <- <-]. eexists. by eauto 10.
  - (* manager *)
    rewrite bool_decide_eq_true_2 by (by rewrite !elem_of_cons; right; left).
    cbn [negb andb]. intros [= <- <-]. eexists. by eauto 10.
Qed.

Lemma deleteQuizSession_inr sessionId requestingUser db db' u :
  deleteQuizSessionService sessionId requestingUser db = (db', inr u) →
  db' = set_QuizSessions (delete sessionId) db.
Proof.
  unfold deleteQuizSessionService. intros H. invert_run H.
  unfold modify in H. by injection H as <-.
Qed.

(** X14. Deleting a session lowers by one the number of sessions of its user
    on its quiz, which is what the attempt cap and the attempt number count:
    the next session that this user starts on this quiz is numbered as the
    sessions were counted before the deletion, so a student who deletes an
    open session gets the attempt back. *)
Theorem delete_frees_attempt sessionId requestingUser db db' session :
  deleteQuizSessionService sessionId requestingUser db = (db', inr tt) →
  QuizSessions db !! sessionId = Some session →
  let count := λ db, countDocuments
                       (sessionOf (session_user session) (session_quiz session))
                       (QuizSessions db) in
  count db = S (count db')
  ∧ ∀ newId data db'' s,
      start_user data = session_user session →
      start_quizId data = session_quiz session →
      startQuizSessionService newId data db' = (db'', inr s) →
      attemptNumber s = count db.
Proof.
  intros H Hs count. apply deleteQuizSession_inr in H as ->.
  assert (count db
          = S (count (set_QuizSessions (delete sessionId) db))) as Hcount.
  { unfold count. cbn [QuizSessions set_QuizSessions].
    rewrite (countDocuments_delete _ _ _ _ Hs).
    unfold sessionOf at 1. by rewrite bool_decide_eq_true_2. }
  split; [exact Hcount|].
  intros newId data db'' s Hu Hq Hstart.
  apply start_success in Hstart as (user & quiz & _ & _ & Hstart).
  cbn zeta in Hstart. destruct Hstart as (_ & _ & _ & Hs').
  rewrite Hs'. cbn [attemptNumber populateResponses set_responses].
  rewrite Hu, Hq. fold (count (set_QuizSessions (delete sessionId) db)).
  rewrite Hcount. lia.
Qed.

(** ** Reading one session, one quiz *)

(** X15. getQuizSessionByIdService fails on every call: its body tests
    [populateUser], a name that no scope declares since the options are
    never destructured, before it reads anything.  For every session id
    of the right format, every options, every requester and every store
    the call throws the ReferenceError of that name and the store is
    unchanged; no session is ever returned. *)
Theorem getQuizSessionById_throws sessionId options requestingUser db :
  getQuizSessionByIdService sessionId options requestingUser db
  = (db, inl (ReferenceError "populateUser")).
Proof. reflexivity. Qed.

(** X18. getQuizByIdService fails on every call: its body tests
    [populateCreator], a name that no scope declares since the options are
    never destructured, before it reads anything.  For every quiz id of
    the right format, every options, every requester, every store and
    whatever GENERAL_TRAINING_ID is, the call throws the ReferenceError of
    that name and the store is unchanged; no quiz is ever returned. *)
Theorem getQuizById_throws general quizId options requestingUser db :
  getQuizByIdService general quizId options requestingUser db
  = (db, inl (ReferenceError "populateCreator")).
Proof. reflexivity. Qed.

(** ** Listing sessions *)

Lemma assignedTrainings_spec teacherId (trainings : gmap ObjectId ITraining) id :
  id ∈ assignedTrainings teacherId trainings
  ↔ ∃ training, trainings !! id = Some training
                ∧ teacherId ∈ teachers training.
Proof.
  unfold assignedTrainings. rewrite list_elem_of_fmap. split.
  - intros ([id' t] & -> & Hin).
    apply elem_of_map_to_list, map_lookup_filter_Some in Hin as [Ht Hteach].
    by exists t.
  - intros (t & Ht & Hteach). exists (id, t). split; [done|].
    by apply elem_of_map_to_list, map_lookup_filter_Some.
Qed.


Lemma quizIds_spec P (quizzes : gmap ObjectId IQuiz) id :
  id ∈ quizIds P quizzes ↔ ∃ q, quizzes !! id = Some q ∧ P q = true.
Proof.
  unfold quizIds. rewrite list_elem_of_fmap. split.
  - intros ([id' q] & -> & Hin).
    apply elem_of_map_to_list, map_lookup_filter_Some in Hin as [Hq HP].
    by exists q.
  - intros (q & Hq & HP). exists (id, q). split; [done|].
    by apply elem_of_map_to_list, map_lookup_filter_Some.
Qed.

(** What a query returns: documents of the collection that match, each
    once. *)
Lemma query_result quizDate (q : SessionQuery)
    (sessions : gmap ObjectId IQuizSession) result :
  result `sublist_of`
    merge_sort (newestFirst quizDate)
      (map_to_list (filter (λ kv, matchesSession q kv.2 = true) sessions)) →
  NoDup result.*1
  ∧ Forall (λ kv, sessions !! kv.1 = Some kv.2
                  ∧ matchesSession q kv.2 = true) result.
Proof.
  intros Hsub. split.
  - eapply sublist_NoDup; [|apply fmap_sublist, Hsub].
    rewrite merge_sort_Permutation. apply NoDup_fst_map_to_list.
  - apply Forall_forall. intros [id s] Hin.
    eapply elem_of_sublist in Hin; [|exact Hsub].
    rewrite merge_sort_Permutation in Hin.
    by apply elem_of_map_to_list, map_lookup_filter_Some in Hin.
Qed.

(** X17. On a runtime whose window for skip and limit is a part of the
    sorted result, getAllQuizSessionsService never changes the store and
    returns sessions of the store, none of them twice, each as stored or
    with its questions populated, whatever the page and the limit are.  A
    student is given their own sessions only, whatever user the filter
    names; a teacher only sessions of quizzes that they created or whose
    training they teach; for the other roles the user of the filter is
    respected, and the isCompleted filter is respected for all. *)
Theorem getAllQuizSessions_scoped quizDate filters options requestingUser
    db db' sessions :
  windowIsSublist →
  getAllQuizSessionsService quizDate filters options requestingUser db
  = (db', inr sessions) →
  db' = db
  ∧ NoDup sessions.*1
  ∧ Forall (λ kv,
      ∃ stored,
        QuizSessions db !! kv.1 = Some stored
        ∧ kv.2 = listed db (list_populateQuestions options) stored
        ∧ (req_role requestingUser = STUDENT →
           session_user stored = req_id requestingUser)
        ∧ (req_role requestingUser = TEACHER →
           teaches db (req_id requestingUser) (session_quiz stored))
        ∧ (req_role requestingUser ≠ STUDENT →
           ∀ target, filter_user filters = Some target →
                     session_user stored = target)
        ∧ (∀ c, filter_isCompleted filters = Some c →
                isCompleted stored = c))
      sessions.
Proof.
  unfold getAllQuizSessionsService. cbn zeta. intros Hwindow H.
  apply bind_inr in H as (db1 & q & Hq & H).
  assert (db1 = db
          ∧ query_isCompleted q = filter_isCompleted filters
          ∧ (req_role requestingUser = STUDENT →
             query_user q = Some (req_id requestingUser))
          ∧ (req_role requestingUser ≠ STUDENT →
             query_user q = filter_user filters)
          ∧ (req_role requestingUser = TEACHER →
             ∀ s, matchesSession q s = true →
                  teaches db (req_id requestingUser) (session_quiz s)))
    as (-> & Hcompleted & Hstudent & Hother & Hteacher).
  { destruct (req_role requestingUser) eqn:Hrole.
    - injection Hq as <- <-. by repeat split.
    - invert_run Hq.
      match goal with
      | Hcheck : match filter_user filters with _ => _ end _ = (?d, _) |- _ =>
          assert (d = db) as ->
            by (destruct (filter_user filters);
                [invert_run Hcheck; by apply throwIf_inr in Hcheck as [_ ->]
                |by injection Hcheck as <- _])
      end.
      injection Hq as <- <-. repeat split; try done.
      intros _ s Hmatch. unfold matchesSession in Hmatch.
      cbn [query_quiz] in Hmatch.
      apply andb_true_iff in Hmatch as [Hmatch _].
      apply andb_true_iff in Hmatch as [_ Hmatch].
      destruct (is_nil _); [done|].
      apply bool_decide_eq_true, elem_of_app in Hmatch as [Hin|Hin];
        apply quizIds_spec in Hin as (quiz & Hquiz & HP);
        apply bool_decide_eq_true in HP; exists quiz; (split; [done|]);
        [by left|right]. by apply assignedTrainings_spec.
    - injection Hq as <- <-. by repeat split.
    - injection Hq as <- <-. by repeat split. }
  apply bind_inr in H as (db1 & sorted & Hsorted & H).
  rewrite gets_run in Hsorted. injection Hsorted as <- <-.
  apply bind_inr in H as (db1 & result & Hresult & H).
  destruct (skipLimit _ _ _ _) as [e|window] eqn:Hcut; [done|].
  apply Hwindow in Hcut. injection Hresult as <- <-.
  destruct (query_result quizDate q (QuizSessions db) window Hcut)
    as (Hnodup & Hall).
  set (result := window) in *. clearbody result.
  assert (db' = db
          ∧ sessions = prod_map id (listed db (list_populateQuestions options))
                         <$> result) as [-> ->].
  { unfold listed. destruct (list_populateQuestions options).
    - invert_run H. by injection H as <- <-.
    - injection H as <- <-. split; [done|].
      rewrite <- (list_fmap_id result) at 1. apply list_fmap_ext.
      by intros _ [] _. }
  split; [done|].
  split.
  { rewrite <- list_fmap_compose.
    erewrite list_fmap_ext; [exact Hnodup|]. by intros _ [] _. }
  apply Forall_fmap. eapply Forall_impl; [exact Hall|].
  intros [id stored] [Hstored Hmatch]. cbn [fst snd] in *.
  exists stored. do 2 (split; [done|]).
  unfold matchesSession in Hmatch.
  apply andb_true_iff in Hmatch as [Hmatch Hc].
  apply andb_true_iff in Hmatch as [Hu Hz].
  rewrite Hcompleted in Hc.
  split; [|split; [|split]].
  - intros Hrole. rewrite (Hstudent Hrole) in Hu.
    by apply bool_decide_eq_true in Hu.
  - intros Hrole. apply (Hteacher Hrole).
    unfold matchesSession. by rewrite Hu, Hz, Hcompleted, Hc.
  - intros Hrole target Htarget. rewrite (Hother Hrole), Htarget in Hu.
    by apply bool_decide_eq_true in Hu.
  - intros c Hfilter. rewrite Hfilter in Hc. by apply Bool.eqb_prop in Hc.
Qed.


(** ** Sampling the questions of a public quiz *)

Lemma sampleLoop_sound {A} rnd limit (all sampled : list A) used l :
  (List.length sampled ≤ limit)%nat →
  NoDup used →
  Forall2 (λ i q, all !! i = Some q) used sampled →
  sampleLoop rnd limit all sampled used = Some l →
  List.length l = limit
  ∧ ∃ indices, NoDup indices ∧ Forall2 (λ i q, all !! i = Some q) indices l.
Proof.
  revert sampled used.
  induction rnd as [|r rnd IH]; intros sampled used Hlen Hnodup Hused;
    cbn [sampleLoop];
    destruct (limit <=? List.length sampled)%nat eqn:Hdone.
  - intros [= <-]. apply Nat.leb_le in Hdone. split; [lia|by eauto].
  - done.
  - intros [= <-]. apply Nat.leb_le in Hdone. split; [lia|by eauto].
  - apply Nat.leb_gt in Hdone. case_bool_decide as Hin; [by apply IH|].
    destruct (all !! (r `mod` List.length all)%nat) as [q|] eqn:Hq; [|done].
    apply IH.
    + rewrite length_app. cbn. lia.
    + apply NoDup_app. split; [done|]. split; [|apply NoDup_singleton].
      intros x Hx Hx'. by apply list_elem_of_singleton in Hx' as ->.
    + apply Forall2_app; [done|]. by constructor.
Qed.

Lemma distinct_step (used rest : list nat) (i : nat) :
  i ∉ used →
  (List.length (remove_dups (List.filter (λ x, bool_decide (x ∉ used))
                                         (i :: rest)))
   ≤ S (List.length
          (remove_dups (List.filter (λ x, bool_decide (x ∉ used ++ [i]))
                                    rest))))%nat.
Proof.
  intros Hi.
  set (A := remove_dups _). set (B := remove_dups _).
  assert (A ⊆+ i :: B) as Hsub.
  { apply NoDup_submseteq; [apply NoDup_remove_dups|].
    intros x Hx. unfold A in Hx.
    apply elem_of_remove_dups, list_elem_of_In, filter_In in Hx as [Hx Hnot].
    apply list_elem_of_In, elem_of_cons in Hx as [->|Hx]; [by left|].
    apply bool_decide_eq_true in Hnot.
    destruct (decide (x = i)) as [->|Hne]; [by left|right].
    apply elem_of_remove_dups, list_elem_of_In, filter_In.
    split; [by apply list_elem_of_In|].
    apply bool_decide_eq_true. rewrite elem_of_app, list_elem_of_singleton.
    tauto. }
  apply submseteq_length in Hsub. exact Hsub.
Qed.

Lemma sampleLoop_returns {A} rnd limit (all sampled : list A) used :
  (0 < limit → 0 < List.length all)%nat →
  (limit ≤ List.length sampled
           + List.length
               (remove_dups
                  (List.filter (λ x, bool_decide (x ∉ used))
                     ((λ r, r `mod` List.length all)%nat <$> rnd))))%nat →
  is_Some (sampleLoop rnd limit all sampled used).
Proof.
  intros Hall. revert sampled used.
  induction rnd as [|r rnd IH]; intros sampled used Hdraws;
    cbn [sampleLoop];
    destruct (limit <=? List.length sampled)%nat eqn:Hdone; try done.
  - apply Nat.leb_gt in Hdone. cbn in Hdraws. lia.
  - apply Nat.leb_gt in Hdone.
    cbn [fmap list_fmap] in Hdraws.
    set (i := (r `mod` List.length all)%nat) in *.
    case_bool_decide as Hin.
    + apply IH. cbn [List.filter] in Hdraws.
      by rewrite bool_decide_eq_false_2 in Hdraws by tauto.
    + destruct (all !! i) as [q|] eqn:Hq.
      * apply IH. rewrite length_app. cbn [List.length].
        pose proof (distinct_step used
                      ((λ r, r `mod` List.length all)%nat <$> rnd) i Hin).
        lia.
      * apply lookup_ge_None in Hq.
        pose proof (Nat.mod_upper_bound r (List.length all)). lia.
Qed.


Lemma filter_nothing_used (l : list nat) :
  List.filter (λ x, bool_decide (x ∉ [])) l = l.
Proof.
  induction l as [|x l IH]; [done|]. cbn [List.filter].
  rewrite bool_decide_eq_true_2 by apply not_elem_of_nil. by rewrite IH.
Qed.

Lemma findOne_Some P (quizzes : gmap ObjectId IQuiz) quiz :
  findOne P quizzes = Some quiz →
  (∃ id, quizzes !! id = Some quiz) ∧ P quiz = true.
Proof.
  unfold findOne. destruct (List.find _ _) as [[id q]|] eqn:Hfind; [|done].
  intros [= <-]. apply find_some in Hfind as [Hin HP].
  split; [|done]. exists id. by apply elem_of_map_to_list, list_elem_of_In.
Qed.

Lemma findOne_None P (quizzes : gmap ObjectId IQuiz) id quiz :
  findOne P quizzes = None → quizzes !! id = Some quiz → P quiz = false.
Proof.
  unfold findOne. destruct (List.find _ _) as [?|] eqn:Hfind; [done|].
  intros _ Hq. apply (find_none _ _ Hfind (id, quiz)).
  by apply list_elem_of_In, elem_of_map_to_list.
Qed.

Lemma served_matches db slug quiz :
  servedAs db slug quiz
  ↔ (∃ id, Quizzes db !! id = Some quiz)
    ∧ String.eqb (quiz_slug quiz) slug && isPublic quiz && isPublished quiz
      = true.
Proof.
  unfold servedAs. rewrite !andb_true_iff, String.eqb_eq. tauto.
Qed.

(** X20. getPublicQuizBySlugService never changes the store, serves a quiz
    under a slug only if it is public and published, and throws 404 when there
    is none. With a limit other than 0 and below the number of questions, the
    quiz it returns has exactly limit questions (none for a negative limit),
    taken at pairwise distinct positions of the manifest, and otherwise all
    questions; they are populated whole. The call returns as soon as the draws
    hit enough distinct positions. *)
Theorem getPublicQuizBySlug_sample rnd slug limit db :
  (∀ db' view,
     getPublicQuizBySlugService rnd slug limit db = (db', inr (Some view)) →
     db' = db
     ∧ ∃ quiz,
         servedAs db slug quiz
         ∧ populated_quiz view
           = set_quiz_questions (quiz_questions (populated_quiz view)) quiz
         ∧ List.length (populated_questions view)
           = (if sampling limit quiz then Z.to_nat (default 0%Z limit)
              else List.length (quiz_questions quiz))
         ∧ drawnFrom (quiz_questions quiz)
                     (quiz_questions (populated_quiz view))
         ∧ populated_questions view
           = populateManifest (Questions db) IQuestion_json
               (quiz_questions (populated_quiz view)))
  ∧ ((∃ quiz, servedAs db slug quiz) →
     (∀ quiz, servedAs db slug quiz → sampling limit quiz = true →
              (Z.to_nat (default 0%Z limit)
               ≤ distinctDraws (List.length (quiz_questions quiz)) rnd)%nat) →
     ∃ view,
       getPublicQuizBySlugService rnd slug limit db = (db, inr (Some view)))
  ∧ ((∀ quiz, ¬ servedAs db slug quiz) →
     getPublicQuizBySlugService rnd slug limit db = (db, inl PublicNotFound)).
Proof.
  unfold getPublicQuizBySlugService, try_catch. mrun.
  fold (sampling limit).
  destruct (findOne _ (Quizzes db)) as [quiz|] eqn:Hfind.
  - apply findOne_Some in Hfind as Hserved. apply served_matches in Hserved.
    mrun. fold (sampling limit quiz).
    split; [|split].
    + intros db' view H. 
      destruct (sampling limit quiz) eqn:Hsampling.
      * destruct (sampleLoop rnd _ _ [] []) as [l|] eqn:Hloop;
          cbn [fmap option_fmap option_map] in H; [|done].
        injection H as <- <-. split; [done|]. exists quiz.
        rewrite Hsampling.
        apply sampleLoop_sound in Hloop as [Hlen Hdrawn];
          [|cbn; lia|constructor|constructor].
        split; [done|]. split; [done|].
        cbn [populated_questions populated_quiz quiz_questions
             set_quiz_questions].
        unfold populateManifest. rewrite length_fmap.
        split; [exact Hlen|]. split; [exact Hdrawn|done].
      * cbn [fmap option_fmap option_map] in H.
        injection H as <- <-. split; [done|]. exists quiz.
        rewrite Hsampling.
        split; [done|]. split; [by destruct quiz|].
        cbn [populated_questions populated_quiz quiz_questions
             set_quiz_questions].
        unfold populateManifest. rewrite length_fmap. split; [done|].
        split; [|done].
        exists (seq 0 (List.length (quiz_questions quiz))).
        split; [apply NoDup_seq|].
        apply Forall2_lookup. intros i.
        destruct (decide (i < List.length (quiz_questions quiz))%nat) as [Hi|Hi].
        -- rewrite lookup_seq_lt by done.
           destruct (lookup_lt_is_Some_2 _ _ Hi) as [q Hq].
           rewrite Hq. constructor. cbn. done.
        -- rewrite lookup_seq_ge by lia.
           rewrite (proj2 (lookup_ge_None _ _)) by lia. constructor.
    + intros _ Hdraws. specialize (Hdraws quiz Hserved).
      destruct (sampling limit quiz) eqn:Hsampling; [|by eexists].
      specialize (Hdraws eq_refl).
      unfold sampling in Hsampling.
      apply andb_true_iff in Hsampling as [Hlimit Hbelow].
      apply Z.ltb_lt in Hbelow.
      destruct (sampleLoop_returns rnd (Z.to_nat (default 0%Z limit))
                  (quiz_questions quiz) [] []) as [l Hl].
      { lia. }
      { cbn [List.length]. rewrite filter_nothing_used. exact Hdraws. }
      rewrite Hl. by eexists.
    + intros Hnone. by destruct (Hnone quiz).
  - mrun. split; [done|]. split; [|done].
    intros [quiz Hserved] _. apply served_matches in Hserved as [[id Hq] HP].
    by rewrite (findOne_None _ _ _ _ Hfind Hq) in HP.
Qed.

(** ** The public view of a quiz *)

(** Rewrites the comparisons of a key that a list of keys excludes. *)
Ltac other_keys Hk :=
  repeat match goal with
    | |- context [String.eqb ?k ?k'] =>
        rewrite (eqb_other k _ k' Hk)
          by (repeat first [ apply list_elem_of_here
                           | apply list_elem_of_further ])
    end.

Lemma mentions_IChoice k (c : IChoice) :
  k ∉ ["fr"; "en"; "ar"; "es"; "text"; "isCorrect"; "choiceMediaType";
       "choiceMediaUrl"; "choiceMediaAltText"] →
  mentions k (IChoice_json c) = false.
Proof.
  intros Hk. destruct c as [t ok mt mu ma]. unfold IChoice_json.
  cbn [choice_text choice_isCorrect choiceMediaType choiceMediaUrl
       choiceMediaAltText].
  assert (mentions k (ILocalizedChoice_json t) = false) as Htext
    by (apply mentions_localizedChoice; set_solver).
  destruct mt, mu, ma; cbn [opt_field app]; rewrite !mentions_cons;
    cbn [mentions]; rewrite Htext; other_keys Hk; done.
Qed.

Lemma mentions_IChoices k (cs : list IChoice) :
  k ∉ ["fr"; "en"; "ar"; "es"; "text"; "isCorrect"; "choiceMediaType";
       "choiceMediaUrl"; "choiceMediaAltText"] →
  existsb (mentions k) (IChoice_json <$> cs) = false.
Proof.
  intros Hk. induction cs as [|c cs IH]; [done|].
  cbn [fmap list_fmap existsb]. by rewrite IH, mentions_IChoice.
Qed.

Lemma mentions_publicQuestion k id q :
  k ∉ ["fr"; "en"; "ar"; "es"; "text"; "isCorrect"; "choiceMediaType";
       "choiceMediaUrl"; "choiceMediaAltText"; "_id"; "type"; "difficulty";
       "tags"; "correctAnswerFormula"; "mediaType"; "mediaUrl";
       "mediaAltText"; "choices"] →
  mentions k (publicQuestion id q) = false.
Proof.
  intros Hk. unfold publicQuestion.
  assert (mentions k (ILocalizedString_json (question_text q)) = false)
    as Htext by (apply mentions_localizedString; set_solver).
  assert (∀ cs : list IChoice,
            existsb (mentions k) (IChoice_json <$> cs) = false) as Hchoices
    by (intros cs; apply mentions_IChoices; set_solver).
  assert (mentions k (JObj (opt_field "choices" JArr (publicChoices q)))
          = false) as Hcs.
  { unfold publicChoices.
    destruct (question_type q), (choices q); cbn [opt_field]; try done;
      rewrite mentions_cons; cbn [mentions]; rewrite Hchoices;
      other_keys Hk; done. }
  revert Hcs. generalize (opt_field "choices" JArr (publicChoices q)) as tail.
  intros tail Htail.
  destruct (correctAnswerFormula q), (mediaType q), (mediaUrl q),
    (mediaAltText q);
    cbn [opt_field app]; rewrite !mentions_cons, Htail; cbn [mentions];
    rewrite Htext, mentions_strings; other_keys Hk; done.
Qed.

Lemma publicQuestion_fields id q :
  field "correctAnswerFormula" (publicQuestion id q)
  = JStr <$> correctAnswerFormula q
  ∧ field "choices" (publicQuestion id q) = JArr <$> publicChoices q.
Proof.
  unfold publicQuestion.
  destruct (correctAnswerFormula q), (mediaType q), (mediaUrl q),
    (mediaAltText q), (publicChoices q); by split.
Qed.

(** X21. getPublicQuizByIdService never changes the store and serves a quiz
    only if it is public and published: it throws 404 for a quiz that is not,
    as for one that does not exist. Each existing question is returned without
    its explanation and its chapter, and with its correctAnswerFormula and,
    for a multiple-choice question, its choices and their isCorrect flags. *)
Theorem getPublicQuizById_spec quizId db :
  (∀ db' view,
     getPublicQuizByIdService quizId db = (db', inr view) →
     db' = db
     ∧ Quizzes db !! quizId = Some (populated_quiz view)
     ∧ isPublic (populated_quiz view) = true
     ∧ isPublished (populated_quiz view) = true
     ∧ Forall2
         (λ qItem entry,
            entry_score entry = score qItem
            ∧ ∃ doc,
                entry_question entry = QuestionDoc doc
                ∧ mentions "explanation" doc = false
                ∧ mentions "chapter" doc = false
                ∧ ∀ q, Questions db !! questionId qItem = Some q →
                       field "correctAnswerFormula" doc
                       = JStr <$> correctAnswerFormula q
                       ∧ field "choices" doc = JArr <$> publicChoices q)
         (quiz_questions (populated_quiz view)) (populated_questions view))
  ∧ (∀ quiz, Quizzes db !! quizId = Some quiz →
             isPublic quiz && isPublished quiz = false →
             getPublicQuizByIdService quizId db = (db, inl PublicNotFound))
  ∧ (Quizzes db !! quizId = None →
     getPublicQuizByIdService quizId db = (db, inl PublicNotFound)).
Proof.
  unfold getPublicQuizByIdService, try_catch. mrun.
  destruct (Quizzes db !! quizId) as [quiz|] eqn:Hquiz;
    [|by repeat split].
  destruct (isPublic quiz && isPublished quiz) eqn:Hpublic; mrun.
  - split; [|split; [|done]]; [|by intros ? [= <-]; congruence].
    intros db' view [= <- <-]. split; [done|].
    apply andb_true_iff in Hpublic as [? ?].
    do 3 (split; [done|]). cbn [populated_quiz populated_questions].
    unfold populateManifest. apply Forall2_fmap_r, Forall_Forall2_diag.
    apply Forall_forall. intros qItem _. cbn [entry_score entry_question].
    split; [done|]. eexists. split; [done|].
    destruct (Questions db !! questionId qItem) as [q|]; [|done].
    rewrite !mentions_publicQuestion
      by (rewrite !elem_of_cons, elem_of_nil; intros Hin;
          repeat destruct Hin as [Hin|Hin]; done).
    do 2 (split; [done|]). intros ? [= <-]. apply publicQuestion_fields.
  - by repeat split.
Qed.

(** ** Writing a quiz *)

Lemma createQuiz_written newId rnd data db db' quiz :
  createQuizService newId rnd data db = (db', inr quiz) →
  ∃ creator training,
    Users db !! creatorId data = Some creator
    ∧ Trainings db !! create_trainingId data = Some training
    ∧ (role creator = STUDENT → create_quizType data = REVISION)
    ∧ (role creator = TEACHER → create_quizType data ≠ REVISION)
    ∧ quiz = newQuizOf data (quiz_questions quiz)
    ∧ validateQuiz quiz = []
    ∧ Quizzes db !! newId = None
    ∧ slugTaken newId (create_slug data) (Quizzes db) = false
    ∧ db' = set_Trainings (alter (pushQuiz newId) (create_trainingId data))
              (set_Quizzes (insert newId quiz) db)
    ∧ countExisting (Questions db) (selectedIds data)
      = List.length (selectedIds data).
Proof.
  unfold createQuizService. intros H. invert_run H.
  match goal with
  | Hq : match questionsConfig data with _ => _ end _ = _ |- _ =>
      rename Hq into Hquestions
  end.
  match type of Hquestions with
  | ?m db = (?d0, _) =>
      assert (preserves eq m) as Hpure
        by (unfold generateQuestionsForQuiz; repeat preserves_step; done);
      apply Hpure in Hquestions as Heq; subst d0; clear Hpure
  end.
  apply try_catch_inr in H as [H|(db1 & e & _ & H)]; [|by destruct e].
  apply bind_inr in H as (db1 & [] & Hsave & H).
  apply bind_inr in H as (db2 & [] & Hpush & H).
  injection Hpush as <-. injection H as <- <-.
  unfold saveQuiz in Hsave. invert_run Hsave. injection Hsave as <-.
  rename a into creator, a3 into training, a4 into manifest.
  match goal with
  | Hs : bool_decide (role creator = STUDENT) && _ = false,
    Ht : bool_decide (role creator = TEACHER) && _ = false,
    Hv : negb (is_nil (validateQuiz _)) = false,
    Hdup : _ || slugTaken _ _ _ = false |- _ =>
      rename Hs into Hstudent, Ht into Hteacher, Hv into Hvalid;
      apply orb_false_iff in Hdup as [Hnew Hslug];
      cbn [andb] in Hnew; apply bool_decide_eq_false in Hnew;
      rewrite <- eq_None_not_Some in Hnew
  end.
  assert ((if bool_decide (role creator = STUDENT)
              && bool_decide (create_quizType data = REVISION)
           then false else false) = false) as Hpub
    by (destruct (bool_decide (role creator = STUDENT)
                  && bool_decide (create_quizType data = REVISION));
        reflexivity).
  rewrite Hpub in *. clear Hpub.
  fold (newQuizOf data manifest) in *.
  exists creator, training. do 2 (split; [done|]).
  split.
  { intros Hrole. rewrite Hrole, bool_decide_eq_true_2 in Hstudent by done.
    cbn [andb] in Hstudent. apply bool_decide_eq_false in Hstudent.
    by destruct (decide (create_quizType data = REVISION)). }
  split.
  { intros Hrole. rewrite Hrole, bool_decide_eq_true_2 in Hteacher by done.
    cbn [andb] in Hteacher. by apply bool_decide_eq_false in Hteacher. }
  split; [done|].
  split.
  { apply negb_false_iff in Hvalid.
    by destruct (validateQuiz (newQuizOf data manifest)). }
  do 3 (split; [done|]).
  unfold selectedIds.
  destruct (questionsConfig data) as [cfg|]; [|discriminate Hquestions].
  destruct (method cfg); [done|].
  invert_run Hquestions.
  match goal with
  | Hc : negb (_ =? _)%nat = false |- _ =>
      apply negb_false_iff, Nat.eqb_eq in Hc; exact Hc
  end.
Qed.

Lemma validateQuiz_nil q :
  validateQuiz q = [] →
  (quizType q ≠ REVISION → is_Some (deadline q))
  ∧ (isPublished q = true → is_Some (publishedAt q))
  ∧ quiz_questions q ≠ []
  ∧ Forall (λ qItem, (0 <=? score qItem)%float = true) (quiz_questions q)
  ∧ (1 <=? globalScore q)%float = true
  ∧ (∀ a, allowedAttempts q = Some a → (0 <=? a)%float = true).
Proof.
  unfold validateQuiz. intros H.
  apply app_eq_nil in H as [_ H]. apply app_eq_nil in H as [_ H].
  apply app_eq_nil in H as [Hdeadline H].
  apply app_eq_nil in H as [Hat H]. apply app_eq_nil in H as [_ H].
  apply app_eq_nil in H as [Hnonempty H].
  apply app_eq_nil in H as [Hscores H].
  apply app_eq_nil in H as [Hglobal Hattempts].
  split.
  { intros Hty. rewrite bool_decide_eq_true_2 in Hdeadline by done.
    cbn [andb] in Hdeadline.
    destruct (deadline q); [done|]. by rewrite bool_decide_eq_true_2 in Hdeadline. }
  split.
  { intros Hpub. rewrite Hpub in Hat. cbn [andb] in Hat.
    destruct (publishedAt q); [done|]. by rewrite bool_decide_eq_true_2 in Hat. }
  split; [by destruct (quiz_questions q)|].
  split.
  { clear -Hscores. induction (quiz_questions q) as [|qItem l IH];
      [constructor|].
    cbn [fmap list_fmap concat] in Hscores.
    apply app_eq_nil in Hscores as [Hscore Hscores].
    constructor; [by apply checkMin_nil in Hscore|by apply IH]. }
  split; [by apply checkMin_nil in Hglobal|].
  intros a Ha. rewrite Ha in Hattempts. by apply checkMin_nil in Hattempts.
Qed.

Lemma remove_dups_length_le (l : list ObjectId) :
  (List.length (remove_dups l) ≤ List.length l)%nat.
Proof.
  induction l as [|x l IH]; [done|]. cbn [remove_dups].
  destruct (decide_rel _ _ _); cbn [List.length]; lia.
Qed.

Lemma remove_dups_length_NoDup (l : list ObjectId) :
  List.length (remove_dups l) = List.length l → NoDup l.
Proof.
  induction l as [|x l IH]; [constructor|]. cbn [remove_dups].
  pose proof (remove_dups_length_le l).
  destruct (decide_rel _ _ _) as [Hin|Hin]; cbn [List.length]; intros Hlen;
    [lia|].
  constructor; [done|]. apply IH. lia.
Qed.

Lemma filter_length_all {A} (P : A → bool) (l : list A) :
  List.length (List.filter P l) = List.length l → Forall (λ x, P x = true) l.
Proof.
  induction l as [|x l IH]; [constructor|]. cbn [List.filter].
  pose proof (List.filter_length_le P l).
  destruct (P x) eqn:HP; cbn [List.length]; intros Hlen; [|lia].
  constructor; [done|]. apply IH. lia.
Qed.

(** All the given questions exist, and none is given twice. *)
Lemma countExisting_full (qs : gmap ObjectId IQuestion) ids :
  countExisting qs ids = List.length ids →
  NoDup ids ∧ Forall (λ id, is_Some (qs !! id)) ids.
Proof.
  unfold countExisting. intros Hlen.
  pose proof (List.filter_length_le
                (λ id, bool_decide (is_Some (qs !! id))) (remove_dups ids)).
  pose proof (remove_dups_length_le ids).
  assert (NoDup ids) as Hnodup by (apply remove_dups_length_NoDup; lia).
  split; [done|].
  assert (remove_dups ids = ids) as Hids.
  { clear -Hnodup. induction Hnodup as [|x l Hx _ IH]; [done|].
    cbn [remove_dups]. destruct (decide_rel _ _ _); [done|]. by rewrite IH. }
  rewrite Hids in Hlen. apply filter_length_all in Hlen.
  eapply Forall_impl; [exact Hlen|]. intros id. apply bool_decide_eq_true.
Qed.

(** X22. The manifest of a quiz that createQuizService created is not empty,
    names no question twice, and holds only questions that exist, with scores
    that are not negative; with the method select it is the selected list in
    its order, a question without score getting 1. *)
Theorem created_quiz_manifest newId rnd data db db' quiz :
  createQuizService newId rnd data db = (db', inr quiz) →
  quiz_questions quiz ≠ []
  ∧ NoDup (questionId <$> quiz_questions quiz)
  ∧ Forall (λ qItem, is_Some (Questions db !! questionId qItem)
                     ∧ (0 <=? score qItem)%float = true)
           (quiz_questions quiz)
  ∧ ∀ cfg, questionsConfig data = Some cfg → method cfg = select_ →
           quiz_questions quiz
           = (λ q, {| questionId := sel_questionId q;
                      score := default 1%float (sel_score q) |})
               <$> default [] (selectedQuestionIdsWithScores cfg).
Proof.
  intros H.
  destruct (createQuiz_written _ _ _ _ _ _ H)
    as (_ & _ & _ & _ & _ & _ & _ & Hvalid & _ & _ & _ & Hcount).
  apply validateQuiz_nil in Hvalid as (_ & _ & Hnonempty & Hscores & _).
  apply createQuiz_success in H as (_ & _ & _ & _ & cfg & Hcfg & H).
  split; [done|].
  assert (NoDup (questionId <$> quiz_questions quiz)
          ∧ Forall (λ qItem, is_Some (Questions db !! questionId qItem))
                   (quiz_questions quiz)) as [Hnodup Hexist].
  { unfold selectedIds in Hcount. rewrite Hcfg in Hcount.
    destruct (method cfg).
    - destruct H as (n & _ & _ & _ & ->). split.
      + rewrite <- list_fmap_compose.
        apply (sample_NoDup fst), matchingQuestions_NoDup.
      + apply Forall_fmap, Forall_forall. intros [id q] Hin.
        apply sample_elem_of, matchingQuestions_spec in Hin as [Hq _].
        cbn. eauto.
    - apply countExisting_full in Hcount as [Hnodup Hexist]. rewrite H.
      rewrite <- list_fmap_compose. split; [done|].
      apply Forall_forall. intros qItem Hin.
      apply list_elem_of_fmap in Hin as (sq & -> & Hsq). cbn [questionId].
      rewrite Forall_forall in Hexist. apply Hexist.
      apply list_elem_of_fmap. by exists sq. }
  split; [done|]. split.
  { apply Forall_forall. intros qItem Hin. split.
    - by eapply Forall_forall in Hexist.
    - by eapply Forall_forall in Hscores. }
  intros cfg' Hcfg' Hmethod. rewrite Hcfg in Hcfg'. injection Hcfg' as <-.
  by rewrite Hmethod in H.
Qed.

Lemma slugTaken_false id slug (quizzes : gmap ObjectId IQuiz) :
  slugTaken id slug quizzes = false →
  ∀ id' other, quizzes !! id' = Some other → id' ≠ id →
               quiz_slug other ≠ slug.
Proof.
  unfold slugTaken. intros H id' other Hother Hne Hslug.
  apply bool_decide_eq_false in H. apply H. by exists id', other.
Qed.

(** X23. When createQuizService succeeds, the creator and the training exist,
    a student has created a revision quiz and a teacher another kind; the quiz
    has the given creator and training, is unpublished without publication
    date, has a deadline unless it is a revision quiz, a global score of 1 or
    more, an attempt cap that is positive if there is one, and a slug that no
    other quiz has. It is stored under the new id, the id is appended to the
    quizzes of the training, and nothing else changes. *)
Theorem created_quiz_policy newId rnd data db db' quiz :
  createQuizService newId rnd data db = (db', inr quiz) →
  ∃ creator training,
    Users db !! creatorId data = Some creator
    ∧ Trainings db !! create_trainingId data = Some training
    ∧ (role creator = STUDENT → quizType quiz = REVISION)
    ∧ (role creator = TEACHER → quizType quiz ≠ REVISION)
    ∧ quiz_creator quiz = creatorId data
    ∧ quiz_training quiz = create_trainingId data
    ∧ isPublished quiz = false ∧ publishedAt quiz = None
    ∧ (quizType quiz ≠ REVISION → is_Some (deadline quiz))
    ∧ (1 <=? globalScore quiz)%float = true
    ∧ (∀ a, allowedAttempts quiz = Some a → (0 <? a)%float = true)
    ∧ (∀ id other, Quizzes db !! id = Some other →
                   quiz_slug other ≠ quiz_slug quiz)
    ∧ Quizzes db !! newId = None
    ∧ Quizzes db' = <[newId := quiz]> (Quizzes db)
    ∧ Trainings db'
      = <[create_trainingId data := pushQuiz newId training]> (Trainings db)
    ∧ Users db' = Users db ∧ Questions db' = Questions db
    ∧ QuizSessions db' = QuizSessions db
    ∧ Notifications db' = Notifications db.
Proof.
  intros H.
  apply createQuiz_written in H
    as (creator & training & Hcreator & Htraining & Hstudent & Hteacher
        & Hquiz & Hvalid & Hnew & Hslug & -> & _).
  apply validateQuiz_nil in Hvalid
    as (Hdeadline & _ & _ & _ & Hglobal & Hattempts).
  exists creator, training. do 2 (split; [done|]).
  rewrite Hquiz in Hdeadline, Hglobal, Hattempts |- *.
  cbn [quizType quiz_creator quiz_training isPublished publishedAt
       newQuizOf quiz_slug] in *.
  do 8 (split; [done|]).
  split.
  { intros a Ha. specialize (Hattempts a Ha).
    cbn [allowedAttempts newQuizOf] in Ha.
    destruct (create_allowedAttempts data) as [a'|]; [|done].
    cbn [orNull] in Ha. unfold falsy in Ha.
    destruct (a' =? 0)%float eqn:Hzero; [done|].
    destruct (is_nan a'); [done|]. injection Ha as ->.
    by apply leb_neq_ltb. }
  split.
  { intros id other Hother.
    eapply slugTaken_false; [exact Hslug|exact Hother|]. congruence. }
  split; [done|].
  cbn [Quizzes Trainings Users Questions QuizSessions Notifications
       set_Trainings set_Quizzes].
  split; [done|]. split; [|done].
  apply map_eq. intros id.
  destruct (decide (id = create_trainingId data)) as [->|Hne].
  - by rewrite lookup_alter_eq, lookup_insert_eq, Htraining.
  - by rewrite lookup_alter_ne, lookup_insert_ne.
Qed.

Lemma updateQuiz_written quizId data requestingUser db db' quiz' :
  updateQuizService quizId data requestingUser db = (db', inr quiz') →
  ∃ quiz,
    Quizzes db !! quizId = Some quiz
    ∧ (quiz_creator quiz = req_id requestingUser
       ∨ isAdminOrManager (req_role requestingUser) = true)
    ∧ (isPublished quiz = true →
       isAdminOrManager (req_role requestingUser) = false →
       update_questions data = None ∧ update_globalScore data = None
       ∧ update_durationMinutes data = None
       ∧ update_allowedAttempts data = None)
    ∧ quiz' = match update_questions data with
              | Some questions =>
                  set_quiz_questions questions (applyQuizUpdate data quiz)
              | None => applyQuizUpdate data quiz
              end
    ∧ (∀ questions, update_questions data = Some questions →
         questions ≠ []
         ∧ countExisting (Questions db) (questionId <$> questions)
           = List.length (questionId <$> questions))
    ∧ validateQuiz quiz' = []
    ∧ slugTaken quizId (quiz_slug quiz') (Quizzes db) = false
    ∧ db' = set_Quizzes (insert quizId quiz') db.
Proof.
  unfold updateQuizService. intros H. invert_run H.
  apply try_catch_inr in H as [H|(db1 & e & _ & H)]; [|by destruct e].
  apply bind_inr in H as (db1 & [] & Hsave & H).
  injection H as <- <-.
  unfold saveQuiz in Hsave. invert_run Hsave. injection Hsave as <-.
  rename a into quiz.
  match goal with
  | Hauth : negb (bool_decide (quiz_creator quiz = _)) && _ = false,
    Hsens : isPublished quiz && _ && _ = false,
    Hqs : match update_questions data with _ => _ end _ = (?d, inr ?q),
    Hvalid : negb (is_nil (validateQuiz _)) = false,
    Hdup : _ || slugTaken _ _ _ = false |- _ =>
      rename Hauth into Hauthorized, Hsens into Hsensitive,
             Hqs into Hquestions, Hvalid into Hvalidated, Hdup into Hslug;
      rename q into quiz'
  end.
  assert (db0 = db
          ∧ quiz' = match update_questions data with
                    | Some questions =>
                        set_quiz_questions questions (applyQuizUpdate data quiz)
                    | None => applyQuizUpdate data quiz
                    end
          ∧ ∀ questions, update_questions data = Some questions →
              questions ≠ []
              ∧ countExisting (Questions db) (questionId <$> questions)
                = List.length (questionId <$> questions))
    as (-> & Hquiz' & Hcount).
  { destruct (update_questions data) as [questions|].
    - invert_run Hquestions. injection Hquestions as <- <-.
      do 2 (split; [done|]). intros ? [= <-].
      match goal with
      | Hnil : is_nil _ = false, Hc : negb (_ =? _)%nat = false |- _ =>
          apply negb_false_iff, Nat.eqb_eq in Hc;
          split; [by destruct questions|exact Hc]
      end.
    - injection Hquestions as <- <-. by repeat split. }
  exists quiz. split; [done|]. split.
  { apply andb_false_iff in Hauthorized as [Hc|Ha].
    - left. apply negb_false_iff in Hc. by apply bool_decide_eq_true in Hc.
    - right. by apply negb_false_iff in Ha. }
  split.
  { intros Hpub Hrole. rewrite Hpub, Hrole in Hsensitive.
    cbn [andb negb] in Hsensitive.
    apply orb_false_iff in Hsensitive as [Hsensitive H4].
    apply orb_false_iff in Hsensitive as [Hsensitive H3].
    apply orb_false_iff in Hsensitive as [H1 H2].
    repeat match goal with
      | Hb : bool_decide (is_Some _) = false |- _ =>
          apply bool_decide_eq_false in Hb;
          rewrite <- eq_None_not_Some in Hb
      end.
    done. }
  do 2 (split; [done|]). split.
  { apply negb_false_iff in Hvalidated. by destruct (validateQuiz quiz'). }
  split; [|done].
  by apply orb_false_iff in Hslug as [_ ?].
Qed.

(** X24. An update that succeeds is by the creator of the quiz, an
    administrator or a manager, and replaces the stored quiz only. Creator,
    training, slug, type, publication status and date, and thumbnail are never
    changed by it, whatever the data holds (isPublished and thumbnailUrl are
    accepted and not applied); on a published quiz, a user who is neither
    administrator nor manager leaves the questions, the global score, the
    duration and the attempt cap as they were; a new list of questions is not
    empty, names no question twice and holds existing questions with scores
    that are not negative. *)
Theorem updateQuiz_frozen_fields quizId data requestingUser db db' quiz' :
  updateQuizService quizId data requestingUser db = (db', inr quiz') →
  ∃ quiz,
    Quizzes db !! quizId = Some quiz
    ∧ db' = set_Quizzes (insert quizId quiz') db
    ∧ (quiz_creator quiz = req_id requestingUser
       ∨ req_role requestingUser = ADMIN ∨ req_role requestingUser = MANAGER)
    ∧ quiz_creator quiz' = quiz_creator quiz
    ∧ quiz_training quiz' = quiz_training quiz
    ∧ quiz_slug quiz' = quiz_slug quiz
    ∧ quizType quiz' = quizType quiz
    ∧ isPublished quiz' = isPublished quiz
    ∧ publishedAt quiz' = publishedAt quiz
    ∧ thumbnailUrl quiz' = thumbnailUrl quiz
    ∧ (isPublished quiz = true →
       req_role requestingUser ≠ ADMIN → req_role requestingUser ≠ MANAGER →
       quiz_questions quiz' = quiz_questions quiz
       ∧ globalScore quiz' = globalScore quiz
       ∧ durationMinutes quiz' = durationMinutes quiz
       ∧ allowedAttempts quiz' = allowedAttempts quiz)
    ∧ (∀ questions, update_questions data = Some questions →
         quiz_questions quiz' = questions
         ∧ questions ≠ []
         ∧ NoDup (questionId <$> questions)
         ∧ Forall (λ qItem, is_Some (Questions db !! questionId qItem)
                            ∧ (0 <=? score qItem)%float = true) questions).
Proof.
  intros H.
  apply updateQuiz_written in H
    as (quiz & Hquiz & Hauth & Hsensitive & Hquiz' & Hcount & Hvalid & _ & ->).
  exists quiz. do 2 (split; [done|]).
  assert (isAdminOrManager (req_role requestingUser) = true
          ↔ req_role requestingUser = ADMIN
            ∨ req_role requestingUser = MANAGER) as Hrole.
  { unfold isAdminOrManager. rewrite bool_decide_eq_true, !elem_of_cons.
    rewrite elem_of_nil. tauto. }
  split; [rewrite <- Hrole; tauto|].
  assert (∀ (T : Type) (f : IQuiz → T),
            (∀ qs q, f (set_quiz_questions qs q) = f q) →
            f quiz' = f (applyQuizUpdate data quiz)) as Hfield.
  { intros T f Hf. rewrite Hquiz'.
    by destruct (update_questions data); rewrite ?Hf. }
  do 7 (split; [by rewrite Hfield|]).
  split.
  { intros Hpub Hadmin Hmanager.
    destruct (Hsensitive Hpub) as (Hq & Hg & Hd & Ha).
    { apply not_true_iff_false. rewrite Hrole. tauto. }
    rewrite Hquiz', Hq. cbn [applyQuizUpdate quiz_questions globalScore
                               durationMinutes allowedAttempts].
    by rewrite Hg, Hd, Ha. }
  intros questions Hqs. destruct (Hcount _ Hqs) as [Hne Hall].
  apply countExisting_full in Hall as [Hnodup Hexist].
  rewrite Hqs in Hquiz'.
  apply validateQuiz_nil in Hvalid as (_ & _ & _ & Hscores & _).
  rewrite Hquiz' in Hscores |- *. cbn [quiz_questions set_quiz_questions] in *.
  do 3 (split; [done|]).
  apply Forall_forall. intros qItem Hin. split.
  - rewrite Forall_forall in Hexist. apply Hexist.
    apply list_elem_of_fmap. by exists qItem.
  - by eapply Forall_forall in Hscores.
Qed.

Lemma isAdminOrManager_true r :
  isAdminOrManager r = true ↔ r = ADMIN ∨ r = MANAGER.
Proof.
  unfold isAdminOrManager. rewrite bool_decide_eq_true, !elem_of_cons.
  rewrite elem_of_nil. tauto.
Qed.

Lemma publishQuiz_written now quizId status requestingUser db db' quiz' :
  publishQuizService now quizId status requestingUser db = (db', inr quiz') →
  ∃ quiz,
    Quizzes db !! quizId = Some quiz
    ∧ mayPublish requestingUser quiz
    ∧ (status = true → quizType quiz ≠ REVISION)
    ∧ isPublished quiz = negb status
    ∧ quiz' = set_published status (if status then Some now else None) quiz
    ∧ validateQuiz quiz' = []
    ∧ slugTaken quizId (quiz_slug quiz) (Quizzes db) = false
    ∧ db' = set_Quizzes (insert quizId quiz') db.
Proof.
  unfold publishQuizService. intros H. invert_run H.
  apply try_catch_inr in H as [H|(db1 & e & _ & H)]; [|done].
  apply bind_inr in H as (db1 & [] & Hsave & H).
  injection H as <- <-.
  unfold saveQuiz in Hsave. invert_run Hsave. injection Hsave as <-.
  rename a into quiz.
  match goal with
  | Hauth : negb (_ && _) && negb (isAdminOrManager _) = false,
    Hrev : bool_decide (quizType quiz = REVISION) && status = false,
    Hpub : status && isPublished quiz = false,
    Hunpub : negb status && negb (isPublished quiz) = false,
    Hvalid : negb (is_nil (validateQuiz _)) = false,
    Hdup : _ || slugTaken _ _ _ = false |- _ =>
      rename Hauth into Hauthorized, Hrev into Hrevision,
             Hpub into Hpublished, Hunpub into Hunpublished,
             Hvalid into Hvalidated, Hdup into Hslug
  end.
  exists quiz. split; [done|]. split.
  { unfold mayPublish. rewrite <- isAdminOrManager_true.
    apply andb_false_iff in Hauthorized as [Hc|Ha].
    - left. apply negb_false_iff, andb_true_iff in Hc as [Hc Ht].
      by apply bool_decide_eq_true in Hc, Ht.
    - right. by apply negb_false_iff in Ha. }
  split.
  { intros ->. rewrite andb_true_r in Hrevision.
    by apply bool_decide_eq_false in Hrevision. }
  split.
  { by destruct status, (isPublished quiz). }
  split; [done|]. split.
  { apply negb_false_iff in Hvalidated.
    by destruct (validateQuiz (set_published _ _ _)). }
  split; [|done].
  by apply orb_false_iff in Hslug as [_ ?].
Qed.

Lemma publishQuiz_run now quizId status requestingUser db quiz :
  Quizzes db !! quizId = Some quiz →
  mayPublish requestingUser quiz →
  (status = true → quizType quiz ≠ REVISION) →
  isPublished quiz = negb status →
  let quiz' := set_published status (if status then Some now else None) quiz in
  validateQuiz quiz' = [] →
  slugTaken quizId (quiz_slug quiz) (Quizzes db) = false →
  publishQuizService now quizId status requestingUser db
  = (set_Quizzes (insert quizId quiz') db, inr quiz').
Proof.
  intros Hquiz Hmay Hrev Hpub quiz' Hvalid Hslug.
  unfold publishQuizService, try_catch, saveQuiz. mrun.
  rewrite Hquiz. mrun.
  assert (negb (bool_decide (quiz_creator quiz = req_id requestingUser)
                && bool_decide (req_role requestingUser = TEACHER))
          && negb (isAdminOrManager (req_role requestingUser)) = false) as ->.
  { destruct Hmay as [[Hc Ht]|Ha].
    - by rewrite !bool_decide_eq_true_2.
    - apply isAdminOrManager_true in Ha. rewrite Ha. apply andb_false_r. }
  assert (bool_decide (quizType quiz = REVISION) && status = false) as ->.
  { destruct status; [|apply andb_false_r].
    rewrite bool_decide_eq_false_2; [done|]. by apply Hrev. }
  rewrite Hpub.
  assert (status && negb status = false) as -> by (by destruct status).
  assert (negb status && negb (negb status) = false) as ->
    by (by destruct status).
  fold quiz'. rewrite Hvalid. cbn [is_nil negb]. mrun. rewrite Hquiz.
  change (quiz_slug quiz') with (quiz_slug quiz). rewrite Hslug. done.
Qed.

Lemma slugTaken_insert id slug q (quizzes : gmap ObjectId IQuiz) :
  slugTaken id slug (<[id := q]> quizzes) = slugTaken id slug quizzes.
Proof.
  unfold slugTaken. apply bool_decide_ext. split.
  - intros (id' & q' & Hq' & Hne & Hslug).
    rewrite lookup_insert_ne in Hq' by done. by exists id', q'.
  - intros (id' & q' & Hq' & Hne & Hslug). exists id', q'.
    by rewrite lookup_insert_ne.
Qed.

Lemma validateQuiz_unpublished at_ q :
  validateQuiz (set_published true (Some at_) q) = [] →
  validateQuiz (set_published false None q) = [].
Proof.
  unfold validateQuiz.
  cbn [set_published quiz_title quiz_slug quizType deadline isPublished
       publishedAt durationMinutes quiz_questions globalScore allowedAttempts
       andb].
  rewrite (bool_decide_eq_false_2 (Some at_ = None)) by done. done.
Qed.

(** X25. A publication that succeeds is by the teacher who created the quiz,
    an administrator or a manager, on an unpublished quiz that is not a
    revision quiz; it sets isPublished and the publication date and nothing
    else. Publishing again throws 400 and changes nothing; and when the quiz
    had no publication date before, unpublishing gives back the store and the
    quiz from before the publication. *)
Theorem publish_unpublish_round_trip now later quizId requestingUser
    db db1 quiz1 :
  publishQuizService now quizId true requestingUser db = (db1, inr quiz1) →
  ∃ quiz,
    Quizzes db !! quizId = Some quiz
    ∧ mayPublish requestingUser quiz
    ∧ isPublished quiz = false ∧ quizType quiz ≠ REVISION
    ∧ quiz1 = set_published true (Some now) quiz
    ∧ db1 = set_Quizzes (insert quizId quiz1) db
    ∧ publishQuizService later quizId true requestingUser db1
      = (db1, inl (ApiError "Quiz is already published." 400))
    ∧ (publishedAt quiz = None →
       publishQuizService later quizId false requestingUser db1
       = (db, inr quiz)).
Proof.
  intros H.
  apply publishQuiz_written in H
    as (quiz & Hquiz & Hmay & Hrev & Hpub & -> & Hvalid & Hslug & ->).
  exists quiz. cbn [negb] in Hpub. specialize (Hrev eq_refl).
  do 6 (split; [done|]).
  set (quiz1 := set_published true (Some now) quiz).
  set (db1 := set_Quizzes (insert quizId quiz1) db).
  assert (Quizzes db1 !! quizId = Some quiz1) as Hquiz1
    by apply lookup_insert_eq.
  assert (mayPublish requestingUser quiz1) as Hmay1 by exact Hmay.
  split.
  - unfold publishQuizService. mrun. rewrite Hquiz1. mrun.
    assert (negb (bool_decide (quiz_creator quiz1 = req_id requestingUser)
                  && bool_decide (req_role requestingUser = TEACHER))
            && negb (isAdminOrManager (req_role requestingUser)) = false)
      as ->.
    { destruct Hmay1 as [[Hc Ht]|Ha].
      - by rewrite !bool_decide_eq_true_2.
      - apply isAdminOrManager_true in Ha. rewrite Ha. apply andb_false_r. }
    change (quizType quiz1) with (quizType quiz).
    by rewrite bool_decide_eq_false_2.
  - intros Hat.
    assert (validateQuiz (set_published false None quiz1) = []) as Hvalid1
      by (by eapply validateQuiz_unpublished).
    assert (slugTaken quizId (quiz_slug quiz1) (Quizzes db1) = false)
      as Hslug1.
    { change (quiz_slug quiz1) with (quiz_slug quiz).
      unfold db1. cbn [Quizzes set_Quizzes]. by rewrite slugTaken_insert. }
    rewrite (publishQuiz_run later quizId false requestingUser db1 quiz1
               Hquiz1 Hmay1 ltac:(done) eq_refl Hvalid1 Hslug1).
    assert (set_published false None quiz1 = quiz) as ->.
    { unfold quiz1. destruct quiz. cbn in Hpub, Hat. by subst. }
    f_equal. unfold db1, set_Quizzes. destruct db. cbn. f_equal.
    rewrite insert_insert_eq. by apply insert_id.
Qed.

(** ** Deleting a quiz *)

Lemma deleteQuiz_written quizId requestingUser db db' u :
  deleteQuizService quizId requestingUser db = (db', inr u) →
  ∃ quiz,
    Quizzes db !! quizId = Some quiz
    ∧ (req_role requestingUser = ADMIN ∨ req_role requestingUser = MANAGER
       ∨ (quiz_creator quiz = req_id requestingUser
          ∧ isPublished quiz = false))
    ∧ db' = set_Quizzes (delete quizId)
              (set_Trainings (alter (pullQuiz quizId) (quiz_training quiz))
                             db).
Proof.
  unfold deleteQuizService. intros H. invert_run H. rename a into quiz.
  match goal with
  | Hpull : modify (set_Trainings _) _ = _ |- _ => injection Hpull as <-
  end.
  injection H as <-.
  exists quiz. split; [done|]. split; [|done].
  destruct (isAdminOrManager (req_role requestingUser)) eqn:Hrole.
  - apply isAdminOrManager_true in Hrole. tauto.
  - right. right.
    repeat match goal with
      | Hc : negb false && _ = false |- _ => cbn [negb andb] in Hc
      end.
    split.
    + match goal with
      | Hc : negb (bool_decide _) = false |- _ =>
          apply negb_false_iff in Hc; by apply bool_decide_eq_true in Hc
      end.
    + done.
Qed.

(** X26. deleteQuizService succeeds only for an administrator, a manager, or
    the creator of the quiz while it is unpublished; it then removes the quiz,
    takes its id out of the quizzes of its training, and changes nothing else,
    the sessions on the quiz included. When it throws, the store is unchanged:
    404 when the quiz does not exist, and 403 otherwise, in which case the
    user is neither administrator nor manager and the quiz is published or is
    not theirs. *)
Theorem deleteQuiz_authorization quizId requestingUser db db' r :
  deleteQuizService quizId requestingUser db = (db', r) →
  match r with
  | inr _ =>
      ∃ quiz,
        Quizzes db !! quizId = Some quiz
        ∧ (req_role requestingUser = ADMIN ∨ req_role requestingUser = MANAGER
           ∨ (quiz_creator quiz = req_id requestingUser
              ∧ isPublished quiz = false))
        ∧ Quizzes db' = delete quizId (Quizzes db)
        ∧ Trainings db'
          = alter (pullQuiz quizId) (quiz_training quiz) (Trainings db)
        ∧ (∀ training, Trainings db' !! quiz_training quiz = Some training →
                       quizId ∉ training_quizzes training)
        ∧ Users db' = Users db ∧ Questions db' = Questions db
        ∧ QuizSessions db' = QuizSessions db
        ∧ Notifications db' = Notifications db
  | inl e =>
      db' = db
      ∧ match Quizzes db !! quizId with
        | None => statusOf e = Some 404%nat
        | Some quiz =>
            statusOf e = Some 403%nat
            ∧ req_role requestingUser ≠ ADMIN
            ∧ req_role requestingUser ≠ MANAGER
            ∧ (isPublished quiz = true
               ∨ quiz_creator quiz ≠ req_id requestingUser)
        end
  end.
Proof.
  destruct r as [e|[]].
  - unfold deleteQuizService. mrun.
    destruct (Quizzes db !! quizId) as [quiz|] eqn:Hquiz;
      [|by intros [= <- <-]].
    mrun.
    destruct (isAdminOrManager (req_role requestingUser)) eqn:Hrole;
      cbn [negb andb]; [done|].
    assert (req_role requestingUser ≠ ADMIN
            ∧ req_role requestingUser ≠ MANAGER) as [? ?].
    { apply not_true_iff_false in Hrole. rewrite isAdminOrManager_true in Hrole.
      tauto. }
    destruct (isPublished quiz); [by intros [= <- <-]; eauto 10|].
    mrun. case_bool_decide; cbn [negb]; [done|].
    intros [= <- <-]. by eauto 10.
  - intros H. apply deleteQuiz_written in H as (quiz & Hquiz & Hauth & ->).
    exists quiz. do 2 (split; [done|]).
    cbn [Quizzes Trainings Users Questions QuizSessions Notifications
         set_Quizzes set_Trainings].
    do 2 (split; [done|]). split; [|done].
    intros training Htraining.
    apply lookup_alter_Some in Htraining
      as [(_ & t & _ & ->)|[Hne _]]; [|done].
    unfold pullQuiz. cbn [training_quizzes].
    rewrite list_elem_of_In, filter_In. intros [_ Hkeep].
    by rewrite bool_decide_eq_true_2 in Hkeep.
Qed.

(** X27. deleteQuizService leaves the sessions on the deleted quiz in the
    store.  Afterwards no submission on such a session succeeds, whoever the
    requester is: every call throws and leaves the store unchanged, and the
    call of a requester who passes the owner test, on an open session and
    with a duration that is not negative, throws the 500 error of a missing
    quiz.  No session can be started on the quiz either: the start by an
    existing user throws 404 and leaves the store unchanged. *)
Theorem deleted_quiz_strands_sessions quizId requestingUser db db' :
  deleteQuizService quizId requestingUser db = (db', inr tt) →
  QuizSessions db' = QuizSessions db
  ∧ (∀ sessionId session data uid,
       QuizSessions db !! sessionId = Some session →
       session_quiz session = quizId →
       (∃ e, submitQuizSessionService sessionId data uid db' = (db', inl e))
       ∧ (passesOwnerTest db session uid →
          isCompleted session = false →
          (sub_durationSeconds data <? 0)%float = false →
          submitQuizSessionService sessionId data uid db'
          = (db', inl MissingQuiz)))
  ∧ (∀ newId data user,
       start_quizId data = quizId →
       Users db !! start_user data = Some user →
       startQuizSessionService newId data db' = (db', inl NotFound_quiz)).
Proof.
  intros H. apply deleteQuiz_written in H as (quiz & Hquiz & _ & ->).
  set (db' := set_Quizzes _ _).
  assert (Quizzes db' !! quizId = None) as Hgone by apply lookup_delete_eq.
  split; [done|]. split.
  - intros sessionId session data uid Hs Hq. split.
    + destruct (gradeSubmission sessionId data uid db') as [db1 [e|u]] eqn:Hg.
      * apply gradeSubmission_pure in Hg as Hpure. subst db1.
        exists e. unfold submitQuizSessionService. by apply bind_throw.
      * apply gradeSubmission_success in Hg
          as (s0 & quiz' & _ & _ & Hs0 & _ & _ & _ & Hquiz' & _).
        change (QuizSessions db') with (QuizSessions db) in Hs0.
        rewrite Hs in Hs0. injection Hs0 as <-. congruence.
    + intros [[user Huser] ->] Hopen Hduration.
      unfold submitQuizSessionService. apply bind_throw.
      unfold gradeSubmission. mrun.
      change (QuizSessions db') with (QuizSessions db). rewrite Hs. mrun.
      change (Users db') with (Users db). rewrite Huser.
      unfold Object_toString. rewrite String.eqb_refl. cbn [negb].
      rewrite Hopen, Hduration. mrun.
      by rewrite Hq, Hgone.
  - intros newId data user Hq Huser.
    unfold startQuizSessionService. mrun.
    change (Users db') with (Users db). rewrite Huser. mrun.
    by rewrite Hq, Hgone.
Qed.

(** ** Public quizzes *)

Lemma allPrivate_same db db' :
  Quizzes db' = Quizzes db → keepsPrivate db db'.
Proof. intros Heq Hinv id quiz. rewrite Heq. apply Hinv. Qed.

Lemma allPrivate_insert db db' id quiz :
  isPublic quiz = false →
  Quizzes db' = <[id := quiz]> (Quizzes db) → keepsPrivate db db'.
Proof.
  intros Hquiz Heq Hinv id' quiz'. rewrite Heq.
  destruct (decide (id' = id)) as [->|Hne].
  - rewrite lookup_insert_eq. by intros [= <-].
  - rewrite lookup_insert_ne by done. apply Hinv.
Qed.

Lemma preserves_sameQuizzes_private {A} (m : M A) :
  preserves sameQuizzes m → preserves keepsPrivate m.
Proof. intros Hm db db' r H. apply allPrivate_same. by eapply Hm. Qed.

Lemma saveQuiz_private isNew id quiz :
  isPublic quiz = false → preserves keepsPrivate (saveQuiz isNew id quiz).
Proof.
  intros Hquiz db db' r H.
  apply saveQuiz_quizzes in H as [[Heq _]|(Heq & _)].
  - by apply allPrivate_same.
  - by eapply allPrivate_insert.
Qed.

Lemma createQuiz_private newId rnd data :
  create_isPublic data = None →
  preserves keepsPrivate (createQuizService newId rnd data).
Proof.
  intros Hpublic. unfold createQuizService, generateQuestionsForQuiz.
  repeat first
    [ apply saveQuiz_private; cbn [isPublic]; by rewrite Hpublic
    | preserves_step ];
    try done.
  by apply allPrivate_same.
Qed.

Lemma updateQuiz_private quizId data requestingUser :
  update_isPublic data = None →
  preserves keepsPrivate (updateQuizService quizId data requestingUser).
Proof.
  intros Hpublic db db' r H Hinv.
  assert (Quizzes db' = Quizzes db
          ∨ ∃ quiz quiz', Quizzes db' = <[quizId := quiz']> (Quizzes db)
                          ∧ Quizzes db !! quizId = Some quiz
                          ∧ isPublic quiz' = isPublic quiz)
    as [Heq|(quiz & quiz' & Heq & Hquiz & Hsame)].
  { revert H. unfold updateQuizService, try_catch. mrun. intros H.
    destruct (Quizzes db !! quizId) as [quiz|] eqn:Hquiz;
      [|simplify_eq; by left].
    repeat first
      [ match type of H with
        | context [saveQuiz ?n ?i ?q ?d] =>
            let Hs := fresh "Hsave" in
            destruct (saveQuiz n i q d) as [? [?|[]]] eqn:Hs;
            apply saveQuiz_quizzes in Hs as [[? [? ?]]|(? & ? & ?)]
        end
      | case_match ];
      simplify_eq; first [ by left | right ];
      eexists _, _; (split; [eassumption|]); (split; [done|]);
      cbn [isPublic set_quiz_questions applyQuizUpdate];
      by rewrite Hpublic. }
  - by apply (allPrivate_same db).
  - apply (allPrivate_insert db db' quizId quiz'); [|done|done].
    rewrite Hsame. by eapply Hinv.
Qed.

Lemma publishQuiz_private now quizId status requestingUser :
  preserves keepsPrivate (publishQuizService now quizId status requestingUser).
Proof.
  intros db db' r H Hinv.
  assert (Quizzes db' = Quizzes db
          ∨ ∃ quiz quiz', Quizzes db' = <[quizId := quiz']> (Quizzes db)
                          ∧ Quizzes db !! quizId = Some quiz
                          ∧ isPublic quiz' = isPublic quiz)
    as [Heq|(quiz & quiz' & Heq & Hquiz & Hsame)].
  { revert H. unfold publishQuizService, try_catch. mrun. intros H.
    destruct (Quizzes db !! quizId) as [quiz|] eqn:Hquiz;
      [|simplify_eq; by left].
    repeat first
      [ match type of H with
        | context [saveQuiz ?n ?i ?q ?d] =>
            let Hs := fresh "Hsave" in
            destruct (saveQuiz n i q d) as [? [?|[]]] eqn:Hs;
            apply saveQuiz_quizzes in Hs as [[? [? ?]]|(? & ? & ?)]
        end
      | case_match ];
      simplify_eq; first [ by left | right ];
      eexists _, _; (split; [eassumption|]); by split. }
  - by apply (allPrivate_same db).
  - apply (allPrivate_insert db db' quizId quiz'); [|done|done].
    rewrite Hsame. by eapply Hinv.
Qed.

Lemma deleteQuiz_private quizId requestingUser :
  preserves keepsPrivate (deleteQuizService quizId requestingUser).
Proof.
  intros db db' r H Hinv.
  apply deleteQuiz_quizzes in H as [Heq|Heq].
  - by apply (allPrivate_same db).
  - intros id quiz. rewrite Heq.
    intros [_ Hq]%lookup_delete_Some. by eapply Hinv.
Qed.

Lemma deleteQuizSession_private sessionId requestingUser :
  preserves keepsPrivate (deleteQuizSessionService sessionId requestingUser).
Proof.
  unfold deleteQuizSessionService. repeat preserves_step.
  by apply allPrivate_same.
Qed.

Lemma route_private user request : preserves keepsPrivate (route user request).
Proof.
  destruct request; unfold route, authorize, createQuiz, updateQuiz,
    startQuizSession, submitQuizSession;
    repeat first
      [ apply createQuiz_private; reflexivity
      | apply updateQuiz_private; reflexivity
      | apply publishQuiz_private
      | apply deleteQuiz_private
      | apply deleteQuizSession_private
      | apply preserves_sameQuizzes_private, start_sameQuizzes
      | apply preserves_sameQuizzes_private, submit_sameQuizzes
      | preserves_step ].
Qed.

Lemma allPrivate_not_served db quizId :
  allPrivate db →
  getPublicQuizByIdService quizId db = (db, inl PublicNotFound).
Proof.
  intros Hinv. unfold getPublicQuizByIdService, try_catch. mrun.
  destruct (Quizzes db !! quizId) as [quiz|] eqn:Hquiz; [|done].
  by rewrite (Hinv _ _ Hquiz).
Qed.

Lemma allPrivate_no_slug db rnd slug limit :
  allPrivate db →
  getPublicQuizBySlugService rnd slug limit db = (db, inl PublicNotFound).
Proof.
  intros Hinv. unfold getPublicQuizBySlugService, try_catch. mrun.
  destruct (findOne _ (Quizzes db)) as [quiz|] eqn:Hfind; [|done].
  apply findOne_Some in Hfind as [[id Hquiz] HP].
  rewrite (Hinv _ _ Hquiz) in HP. by rewrite andb_false_r in HP.
Qed.

(** X28. No request on the writing routes of quizRoutes.ts and
    quizSessionRoutes.ts makes a quiz public, since the controllers createQuiz
    and updateQuiz do not pass isPublic on to the services: from a store
    without public quiz, after any sequence of such requests by any users,
    whether they succeed or fail, the store has no public quiz, and the two
    public services throw 404 for every id and every slug. *)
Theorem api_never_makes_public requests db :
  allPrivate db →
  allPrivate (serve requests db)
  ∧ (∀ quizId,
       getPublicQuizByIdService quizId (serve requests db)
       = (serve requests db, inl PublicNotFound))
  ∧ (∀ rnd slug limit,
       getPublicQuizBySlugService rnd slug limit (serve requests db)
       = (serve requests db, inl PublicNotFound)).
Proof.
  intros Hinv.
  assert (allPrivate (serve requests db)) as Hserved.
  { revert db Hinv. unfold serve.
    induction requests as [|[user request] requests IH]; intros db Hinv;
      [done|].
    cbn [foldl]. apply IH. cbn [fst snd].
    destruct (route user request db) as [db' r] eqn:H.
    by apply route_private in H; apply H. }
  split; [done|]. split.
  - intros quizId. by apply allPrivate_not_served.
  - intros rnd slug limit. by apply allPrivate_no_slug.
Qed.

(** ** Completed sessions *)

Lemma keepsCompleted_same db db' :
  QuizSessions db' = QuizSessions db → keepsCompleted db db'.
Proof. intros Heq id s. by rewrite Heq. Qed.

Lemma saveNewSession_keeps_completed id s :
  preserves keepsCompleted (saveNewSession id s).
Proof.
  intros db db' r. unfold saveNewSession. mrun.
  destruct (negb _); [by intros [= <- _]|]. mrun.
  destruct (QuizSessions db !! id) as [s'|] eqn:Hid.
  - rewrite bool_decide_eq_true_2 by done. by intros [= <- _].
  - rewrite bool_decide_eq_false_2 by (by intros [? ?]).
    intros [= <- _] id' s' Hs' _. cbn.
    rewrite lookup_insert_ne; [done|]. by intros ->; rewrite Hid in Hs'.
Qed.

Lemma start_keeps_completed newId data :
  preserves keepsCompleted (startQuizSessionService newId data).
Proof.
  unfold startQuizSessionService.
  repeat first [ apply saveNewSession_keeps_completed | preserves_step ]; done.
Qed.

Lemma completeSession_others sessionId u :
  preserves (sameOtherSessions sessionId) (completeSession sessionId u).
Proof.
  unfold completeSession, findByIdAndUpdate, createNotificationService,
    saveNotification.
  repeat preserves_step; try done.
  all: intros id Hid; cbn; by rewrite ?lookup_insert_ne.
Qed.

Lemma submit_keeps_completed sessionId data uid :
  preserves keepsCompleted (submitQuizSessionService sessionId data uid).
Proof.
  intros db db' r. unfold submitQuizSessionService, mbind, M_bind.
  destruct (gradeSubmission sessionId data uid db) as [db1 [e|u]] eqn:Hgrade.
  - apply gradeSubmission_pure in Hgrade as ->. by intros [= <- _].
  - apply gradeSubmission_pure in Hgrade as Hpure. subst db1.
    apply gradeSubmission_success in Hgrade
      as (s0 & _ & _ & _ & Hs0 & _ & Hopen & _).
    intros H id s Hs Hdone.
    apply completeSession_others in H. rewrite H; [done|].
    intros ->. rewrite Hs0 in Hs. injection Hs as <-. congruence.
Qed.

Lemma deleteQuizSession_keeps_completed sessionId requestingUser :
  req_role requestingUser ∉ [ADMIN; MANAGER] →
  preserves keepsCompleted (deleteQuizSessionService sessionId requestingUser).
Proof.
  intros Hrole db db' r. unfold deleteQuizSessionService, isAdminOrManager.
  mrun.
  destruct (QuizSessions db !! sessionId) as [session|] eqn:Hs;
    [|by intros [= <- _]].
  mrun. rewrite (bool_decide_eq_false_2 _ Hrole). cbn [negb andb].
  destruct (bool_decide (req_role requestingUser = STUDENT));
    cbn [negb andb orb]; [|by intros [= <- _]].
  destruct (bool_decide (session_user session = req_id requestingUser));
    cbn [negb andb orb]; [|by intros [= <- _]].
  destruct (isCompleted session) eqn:Hdone;
    cbn [negb andb orb]; [by intros [= <- _]|].
  intros [= <- _] id s Hid Hs'. cbn.
  rewrite lookup_delete_ne; [done|]. intros ->. congruence.
Qed.

Lemma deleteQuizSession_others sessionId requestingUser :
  preserves (sameOtherSessions sessionId)
            (deleteQuizSessionService sessionId requestingUser).
Proof.
  unfold deleteQuizSessionService. repeat preserves_step; try done.
  intros id Hid. cbn. by rewrite lookup_delete_ne.
Qed.

Lemma createQuiz_sessions newId rnd data :
  preserves keepsCompleted (createQuizService newId rnd data).
Proof.
  unfold createQuizService, generateQuestionsForQuiz, saveQuiz.
  repeat preserves_step; by apply keepsCompleted_same.
Qed.

Lemma updateQuiz_sessions quizId data requestingUser :
  preserves keepsCompleted (updateQuizService quizId data requestingUser).
Proof.
  unfold updateQuizService, saveQuiz.
  repeat preserves_step; by apply keepsCompleted_same.
Qed.

Lemma publishQuiz_sessions now quizId status requestingUser :
  preserves keepsCompleted
            (publishQuizService now quizId status requestingUser).
Proof.
  unfold publishQuizService, saveQuiz.
  repeat preserves_step; by apply keepsCompleted_same.
Qed.

Lemma deleteQuiz_sessions quizId requestingUser :
  preserves keepsCompleted (deleteQuizService quizId requestingUser).
Proof.
  unfold deleteQuizService.
  repeat preserves_step; by apply keepsCompleted_same.
Qed.

Lemma route_keeps_completed user request sessionId s db db' r :
  staffDeletion sessionId (user, request) = false →
  route user request db = (db', r) →
  QuizSessions db !! sessionId = Some s → isCompleted s = true →
  QuizSessions db' !! sessionId = Some s.
Proof.
  intros Hstaff H Hs Hdone.
  assert (preserves keepsCompleted (route user request)
          ∨ ∃ id, id ≠ sessionId ∧ request = DELETE_quiz_sessions id)
    as [Hkeeps|(id & Hid & ->)].
  { destruct request; try (left; unfold route, authorize, createQuiz,
      updateQuiz, startQuizSession, submitQuizSession;
      repeat first
        [ apply createQuiz_sessions
        | apply updateQuiz_sessions
        | apply publishQuiz_sessions
        | apply deleteQuiz_sessions
        | apply start_keeps_completed
        | apply submit_keeps_completed
        | preserves_step ]; fail).
    unfold staffDeletion in Hstaff. cbn [fst snd] in Hstaff.
    apply andb_false_iff in Hstaff as [Hne|Hrole].
    - right. eexists. split; [|done]. by apply bool_decide_eq_false in Hne.
    - left. apply bool_decide_eq_false in Hrole. unfold route, authorize.
      repeat first
        [ by apply deleteQuizSession_keeps_completed | preserves_step ]. }
  - by eapply Hkeeps.
  - assert (preserves (sameOtherSessions id)
                      (route user (DELETE_quiz_sessions id))) as Hothers.
    { unfold route, authorize.
      repeat first [ apply deleteQuizSession_others | preserves_step ]. }
    apply Hothers in H. rewrite H; [done|]. by intros ->.
Qed.

(** X30. A completed session stays in the store as it is through any sequence
    of requests on the writing routes of quizRoutes.ts and
    quizSessionRoutes.ts, whether they succeed or fail, as long as none of
    them is the deletion of this session by an administrator or a manager:
    neither a submission, nor a deletion by a student or a teacher, nor a
    start under the same id, nor the update, publication or deletion of its
    quiz changes or removes it. *)
Theorem completed_sessions_are_final requests db sessionId s :
  QuizSessions db !! sessionId = Some s →
  isCompleted s = true →
  Forall (λ r, staffDeletion sessionId r = false) requests →
  QuizSessions (serve requests db) !! sessionId = Some s.
Proof.
  intros Hs Hdone Hrequests. revert db Hs. unfold serve.
  induction Hrequests as [|[user request] requests Hr _ IH]; intros db Hs;
    [done|].
  cbn [foldl fst snd]. apply IH.
  destruct (route user request db) as [db' r] eqn:H.
  by eapply route_keeps_completed.
Qed.



End Extras.

(** * The samples *)

#[local] Existing Instance Sample.runtime.

(** On the sample store: the first session of the student, whose quiz has a
    question with two correct choices. *)
Lemma start_returns_redacted_views_witness :
  startQuizSessionService "s1" Sample.start Sample.db0
  = (Sample.db1, inr Sample.session1)
  ∧ Forall (λ r, ∃ doc, response_question r = QuestionDoc doc ∧ redacted doc)
           (responses Sample.session1).
Proof.
  assert (startQuizSessionService "s1" Sample.start Sample.db0
          = (Sample.db1, inr Sample.session1)) as H by (vm_compute; reflexivity).
  split; [exact H|].
  exact (start_returns_redacted_views _ _ _ _ _ H).
Defined.

(** On the sample store: the student's second start on a quiz capped at one
    attempt is refused, and the first one was numbered 1. *)
Lemma start_enforces_attempt_cap_witness :
  startQuizSessionService "s2" Sample.start Sample.db1
  = (Sample.db1, inl AttemptsExceeded)
  ∧ attemptNumber Sample.session1 = 1%nat.
Proof.
  split.
  - refine (proj2 (proj1 (start_enforces_attempt_cap "s2" Sample.start
                            Sample.db1 Sample.quiz 1%float _ _) _)
                  Sample.student _ _);
      vm_compute; first [reflexivity | discriminate].
  - refine (proj1 (proj2 (start_enforces_attempt_cap "s1" Sample.start
                            Sample.db0 Sample.quiz 1%float _ _)
                         Sample.db1 Sample.session1 _));
      vm_compute; reflexivity.
Defined.

(** C2. The grade of a multiple-choice answer is not set equality when the
    submission repeats an answer: on the sample question whose correct
    choices are ["2"] and ["3"], the answer [["2"; "2"]] has the right length
    and each of its elements is a correct text, so it is graded correct and
    earns the point, although it names one of the two correct choices
    only.  The submission of this answer, by the one requester that the
    owner test lets through, stores the response as correct. *)
Theorem grading_accepts_repeated_answer :
  let correct := correctChoiceTexts EN [Sample.choice "2" true;
                                        Sample.choice "3" true;
                                        Sample.choice "4" false] in
  correct = [Some "2"; Some "3"]
  ∧ gradeAnswer EN Sample.q1 (AnswerList ["2"; "2"]) = true
  ∧ ¬ sameSet ["2"; "2"] correct
  ∧ gradeAnswer EN Sample.q1 (AnswerList ["2"]) = false
  ∧ gradeAnswer EN Sample.q1 (AnswerList ["3"; "2"]) = true
  ∧ ((λ r, (isCorrect r, scoreEarned r)) <$>
       match (submitQuizSessionService "s1"
                {| sub_responses := [Sample.answer "q1" (AnswerList ["2"; "2"])];
                   sub_durationSeconds := 1 |} Sample.requester Sample.db1).2 with
       | inr s => responses s
       | inl _ => []
       end) = [(true, 1%float)].
Proof.
  cbv zeta. split; [reflexivity|]. split; [reflexivity|].
  split.
  { intros H. specialize (H (Some "3")) as [_ H].
    assert (Some "3" ∈ (Some <$> ["2"; "2"])) as Hin.
    { apply H. apply list_elem_of_further, list_elem_of_here. }
    apply list_elem_of_fmap in Hin as (ua & [= <-] & Hin).
    apply list_elem_of_In in Hin. cbn in Hin. naive_solver. }
  split; [reflexivity|]. split; [reflexivity|]. by vm_compute.
Qed.

(** X6. The total, the final score and the pass status of a submission
    depend on the order of its responses, since each addition is rounded.
    On a quiz with the scores 0.1, 0.2, 0.3 and 0.4, of maximum 1, and the
    global score 3, the right answers to the first, the second and the
    fourth question earn 0.7000000000000001 and pass in this order, and
    earn 0.7 and fail when the fourth is sent before the second.  On a quiz
    with the scores 0.2, 0.1, 0.7 and 1.5, of maximum 2.5, and the global
    score 20, the four right answers sent last question first, none of
    them twice, total 2.5000000000000004, above the maximum, with a final
    score above the global score. *)
Theorem grading_depends_on_order :
  let scores (data : SubmitQuizSessionData) (sessionId : ObjectId) (db : DB) :=
    match (submitQuizSessionService sessionId data Sample.requester db).2 with
    | inr s => Some (maxPossibleScore s, totalScoreEarned s,
                     finalCalculatedScore s, passStatus s)
    | inl _ => None
    end in
  sub_responses Scenario.outOfOrder ≡ₚ sub_responses Scenario.inOrder
  ∧ scores Scenario.inOrder "s6" Scenario.dbDecimal
    = Some (1, 0.7000000000000001, 2.1, Some passed)%float
  ∧ scores Scenario.outOfOrder "s6" Scenario.dbDecimal
    = Some (1, 0.7, 2.0999999999999996, Some failed)%float
  ∧ NoDup (sub_question <$> sub_responses Scenario.lastFirst)
  ∧ scores Scenario.lastFirst "s7" Scenario.dbHeavy
    = Some (2.5, 2.5000000000000004, 20.000000000000004, Some passed)%float
  ∧ (2.5 <? 2.5000000000000004)%float = true
  ∧ (20 <? 20.000000000000004)%float = true.
Proof.
  cbv zeta. split; [apply perm_skip, perm_swap|].
  split; [by vm_compute|]. split; [by vm_compute|].
  split; [|repeat split; by vm_compute].
  cbn. repeat (apply NoDup_cons; split; [set_solver|]). apply NoDup_nil_2.
Qed.

(** The weighting example: global score 20, four questions of one point,
    three right answers. *)
Lemma submit_computes_scores_witness :
  submitQuizSessionService "s1" Sample.threeOfFour Sample.requester Sample.db1
  = (Sample.db2, inr Sample.graded1)
  ∧ totalScoreEarned Sample.graded1 = 3%float
  ∧ maxPossibleScore Sample.graded1 = 4%float
  ∧ finalCalculatedScore Sample.graded1 = 15%float
  ∧ passStatus Sample.graded1 = Some passed
  ∧ totalScoreEarned Sample.graded1 = sumScores (responses Sample.graded1).
Proof.
  assert (submitQuizSessionService "s1" Sample.threeOfFour Sample.requester
            Sample.db1 = (Sample.db2, inr Sample.graded1)) as H
    by (vm_compute; reflexivity).
  split; [exact H|].
  do 4 (split; [by vm_compute|]).
  exact (proj1 (submit_computes_scores _ _ _ _ _ _ H)).
Defined.

(** On the sample store: the graded session cannot be submitted again. *)
Lemma second_submit_fails_witness :
  submitQuizSessionService "s1" Sample.threeOfFour Sample.requester Sample.db1
  = (Sample.db2, inr Sample.graded1)
  ∧ submitQuizSessionService "s1"
      {| sub_responses := [Sample.answer "q4" (AnswerText "2")];
         sub_durationSeconds := 5 |} Sample.requester Sample.db2
    = (Sample.db2, inl AlreadyCompleted).
Proof.
  assert (submitQuizSessionService "s1" Sample.threeOfFour Sample.requester
            Sample.db1 = (Sample.db2, inr Sample.graded1)) as H
    by (vm_compute; reflexivity).
  split; [exact H|].
  exact (proj1 (second_submit_fails _ _ _ _ _ _ H) _).
Defined.

(** The store of the sample once the teacher who created the quiz has been
    deleted: the submission is graded and written, and fails. *)
Lemma notification_failure_fails_submit_counterexample :
  let r := submitQuizSessionService "s1" Sample.threeOfFour Sample.requester
             Sample.db1_orphan in
  r.2 = inl (ApiError "Notification recipient user not found." 404)
  ∧ (isCompleted <$> QuizSessions r.1 !! "s1") = Some true
  ∧ (passStatus <$> QuizSessions r.1 !! "s1") = Some (Some passed).
Proof. by vm_compute. Qed.

Lemma notification_failure_fails_submit_witness :
  ∃ db' message code,
    submitQuizSessionService "s1" Sample.threeOfFour Sample.requester
      Sample.db1_orphan
    = (db', inl (ApiError message code))
    ∧ (code = 404 ∨ code = 400)%nat
    ∧ QuizSessions db' !! "s1"
      = Some (applyUpdate Sample.update1 Sample.stored1).
Proof.
  destruct (notification_failure_fails_submit "s1" Sample.threeOfFour
              Sample.requester Sample.db1_orphan Sample.update1 Sample.stored1
              Sample.quiz Sample.student)
    as (db' & message & code & Hrun & Hcode & Hstored & _).
  - vm_compute; reflexivity.
  - vm_compute; reflexivity.
  - vm_compute; reflexivity.
  - vm_compute; reflexivity.
  - vm_compute; reflexivity.
  - intros [Hall _]. vm_compute in Hall.
    inversion Hall as [|? ? [x Hx] _]. discriminate Hx.
  - by exists db', message, code.
Defined.

(** On the sample store: two submissions, three right answers in one and a
    single answer in the other, are both accepted; the store keeps the
    second one, which fails the quiz the first one passed. *)
Lemma racing_submits_counterexample :
  let r := raceSubmit "s1" Sample.threeOfFour Sample.requester
             Sample.oneAnswer Sample.requester Sample.db1 in
  (∃ sA sB, r.2 = inr (sA, sB)
            ∧ isCompleted sA = true ∧ passStatus sA = Some passed
            ∧ isCompleted sB = true ∧ passStatus sB = Some failed)
  ∧ (passStatus <$> QuizSessions r.1 !! "s1") = Some (Some failed).
Proof.
  cbv zeta.
  destruct (raceSubmit "s1" Sample.threeOfFour Sample.requester
              Sample.oneAnswer Sample.requester Sample.db1) as [db' [e|[sA sB]]] eqn:H;
    vm_compute in H; [discriminate H|].
  injection H as <- <- <-. split; [|by vm_compute].
  eexists _, _. split; [reflexivity|]. by vm_compute.
Qed.

Lemma racing_submits_both_succeed_witness :
  ∃ dbB sB,
    raceSubmit "s1" Sample.threeOfFour Sample.requester
      Sample.oneAnswer Sample.requester Sample.db1
    = (dbB, inr (Sample.graded1, sB))
    ∧ (passStatus <$> QuizSessions dbB !! "s1") = Some (Some failed).
Proof.
  destruct (racing_submits_both_succeed "s1" Sample.threeOfFour
              Sample.oneAnswer Sample.requester Sample.db1 Sample.update1
              Sample.update1B Sample.db2 Sample.graded1)
    as [(dbB & sB & s0 & _ & Hrace & _ & _ & Hstored) _].
  - vm_compute; reflexivity.
  - vm_compute; reflexivity.
  - vm_compute; reflexivity.
  - vm_compute; reflexivity.
  - exists dbB, sB. split; [exact Hrace|]. by rewrite Hstored.
Defined.

(** On the sample store: an answer to a question that the manifest of the
    quiz lists is refused once the question has been deleted, and it is
    refused with a negative duration. *)
Lemma submit_accepts_any_responses_counterexample :
  sub_responses Sample.oneAnswer ≠ []
  ∧ Forall (λ r, ∃ qItem, qItem ∈ quiz_questions Sample.quiz
                          ∧ questionId qItem = sub_question r)
           (sub_responses Sample.oneAnswer)
  ∧ Quizzes Scenario.dbQ2Gone !! "quiz1" = Some Sample.quiz
  ∧ submitQuizSessionService "s1" Sample.oneAnswer Sample.requester
      Scenario.dbQ2Gone
    = (Scenario.dbQ2Gone, inl InvalidQuestion)
  ∧ sub_responses Scenario.backdated = sub_responses Sample.oneAnswer
  ∧ submitQuizSessionService "s1" Scenario.backdated Sample.requester
      Sample.db1
    = (Sample.db1, inl InvalidDuration).
Proof.
  split; [done|]. split.
  { repeat constructor. exists {| questionId := "q2"; score := 1 |}.
    split; [|reflexivity]. apply list_elem_of_further, list_elem_of_here. }
  repeat split; computed.
Qed.

(** On the sample store: one right answer to a question of one point, sent
    five times, is accepted and earns five points, above the maximum of
    four; the final score is 25 on a global score of 20. *)
Lemma submit_accepts_any_responses_witness :
  submitQuizSessionService "s1" Sample.fiveTimes Sample.requester Sample.db1
  = (Sample.db5, inr Sample.graded5)
  ∧ totalScoreEarned Sample.graded5
    = Nat.iter 5 (λ total, (total + 1)%float) 0%float
  ∧ totalScoreEarned Sample.graded5 = 5%float
  ∧ maxPossibleScore Sample.graded5 = 4%float
  ∧ finalCalculatedScore Sample.graded5 = 25%float
  ∧ quizGlobalScore Sample.graded5 = 20%float
  ∧ passStatus Sample.graded5 = Some passed.
Proof.
  destruct (submit_accepts_any_responses "s1" Sample.fiveTimes
              Sample.requester Sample.db1 Sample.stored1 Sample.quiz
              Sample.student)
    as [(db' & s & Hrun & _ & _ & Hk) _].
  - computed.
  - computed.
  - reflexivity.
  - reflexivity.
  - computed.
  - split.
    + vm_compute. repeat constructor; eexists; reflexivity.
    + vm_compute. lia.
  - computed.
  - apply Forall_replicate. split.
    + exists {| questionId := "q2"; score := 1 |}. split; [|reflexivity].
      apply list_elem_of_further, list_elem_of_here.
    + vm_compute. eexists; reflexivity.
  - intros u Hu. vm_compute in Hu. injection Hu as <-. computed.
  - assert (submitQuizSessionService "s1" Sample.fiveTimes Sample.requester
              Sample.db1 = (Sample.db5, inr Sample.graded5)) as Hrun5
      by computed.
    rewrite Hrun5 in Hrun. injection Hrun as _ <-.
    split; [exact Hrun5|]. split; [|repeat split; computed].
    apply (Hk 5%nat (Sample.answer "q2" (AnswerText "Paris")) Sample.q2
              1%float);
      [reflexivity|computed|reflexivity].
Defined.

(** On the sample store: the student creates a revision quiz; an
    administrator asks to publish it and the student sends an update with
    [isPublished: true]; the quiz is still unpublished. *)
Lemma revision_quiz_never_published_witness :
  revisionUnpublished (handleAll Sample.publishAttempts Sample.db0)
  ∧ (quizType <$> Quizzes (handleAll Sample.publishAttempts Sample.db0)
                  !! "quiz2") = Some REVISION
  ∧ (isPublished <$> Quizzes (handleAll Sample.publishAttempts Sample.db0)
                     !! "quiz2") = Some false
  ∧ (quiz_tags <$> Quizzes (handleAll Sample.publishAttempts Sample.db0)
                   !! "quiz2") = Some ["published"].
Proof.
  split; [|by vm_compute].
  apply (proj1 revision_quiz_never_published).
  intros id quiz Hquiz Hrev.
  change (Quizzes Sample.db0) with ({[ "quiz1" := Sample.quiz ]} : gmap _ _)
    in Hquiz.
  apply lookup_singleton_Some in Hquiz as [_ <-]. discriminate Hrev.
Defined.

(** On the sample store, whose chapter holds four questions: ten cannot be
    generated, two can. *)
Lemma generate_requires_enough_questions_witness :
  createQuizService "quiz3" [5; 1]%nat (Sample.generated 10) Sample.db0
  = (Sample.db0, inl InsufficientQuestions)
  ∧ ∃ db' quiz,
      createQuizService "quiz3" [5; 1]%nat (Sample.generated 2) Sample.db0
      = (db', inr quiz)
      ∧ length (quiz_questions quiz) = 2%nat
      ∧ NoDup (questionId <$> quiz_questions quiz).
Proof.
  split.
  - destruct (generate_requires_enough_questions "quiz3" [5; 1]%nat
                (Sample.generated 10) Sample.db0 _ 10
                eq_refl eq_refl eq_refl) as [Hfail _].
    destruct Hfail as [_ Hfail]; [by vm_compute|].
    apply (Hfail Sample.teacher Sample.training).
    + vm_compute; reflexivity.
    + by intros [[=] _].
    + by intros [_ [=]].
    + vm_compute; reflexivity.
    + done.
  - destruct (createQuizService "quiz3" [5; 1]%nat (Sample.generated 2)
                Sample.db0) as [db' [e|quiz]] eqn:H;
      [by vm_compute in H|].
    exists db', quiz. split; [done|].
    destruct (proj1 (proj2 (generate_requires_enough_questions "quiz3"
                              [5; 1]%nat (Sample.generated 2) Sample.db0 _ 2
                              eq_refl eq_refl eq_refl)) db' quiz H)
      as (_ & Hlen & _ & _ & Hnodup & _).
    split; [lia|done].
Defined.

(** On the sample store: the student's first session on the sample quiz. *)
Lemma start_succeeds_witness :
  startQuizSessionService "s1" Sample.start Sample.db0
  = (set_QuizSessions
       (insert "s1" (freshSession Sample.db0 Sample.start Sample.quiz))
       Sample.db0,
     inr (populateResponses (Questions Sample.db0) startSelect
            (freshSession Sample.db0 Sample.start Sample.quiz))).
Proof.
  apply (start_succeeds "s1" Sample.start Sample.db0 Sample.student
           Sample.quiz); try computed.
  intros allowed [= <-]. computed.
Defined.

(** On the sample store: the session that the first start stores is open
    and its maximum is the four points of the quiz. *)
Lemma start_session_contents_witness :
  startQuizSessionService "s1" Sample.start Sample.db0
  = (Sample.db1, inr Sample.session1)
  ∧ ∃ stored,
      Sample.db1 = set_QuizSessions (insert "s1" stored) Sample.db0
      ∧ isCompleted stored = false
      ∧ maxPossibleScore stored
        = sumOfScores (validEntries (Questions Sample.db0)
                                    (quiz_questions Sample.quiz))
      ∧ maxPossibleScore stored = 4%float
      ∧ responses stored
        = placeholder <$> ["q1"; "q2"; "q3"; "q4"].
Proof.
  assert (startQuizSessionService "s1" Sample.start Sample.db0
          = (Sample.db1, inr Sample.session1)) as H by computed.
  split; [exact H|].
  pose proof (start_session_contents _ _ _ _ _ H) as Hc. cbv zeta in Hc.
  destruct Hc as (quiz & stored & Hquiz & _ & Hdb & _ & _ & _ & Hopen & _ & _
                  & _ & _ & Hmax & _ & Hresponses & _).
  assert (quiz = Sample.quiz) as ->
    by (vm_compute in Hquiz; injection Hquiz as <-; reflexivity).
  exists stored. split; [exact Hdb|]. split; [exact Hopen|].
  split; [exact Hmax|]. split; [rewrite Hmax; computed|]. exact Hresponses.
Defined.

(** On the sample store with the teacher's draft: the student cannot start
    a session on it. *)
Lemma start_student_access_witness :
  startQuizSessionService "s3" Scenario.startDraft Scenario.dbDraft
  = (Scenario.dbDraft, inl Forbidden_quiz).
Proof.
  refine (proj1 (start_student_access "s3" Scenario.startDraft
                   Scenario.dbDraft Sample.student Scenario.draft _ _ _ _) _);
    try computed.
  intros [Hcreator _]. vm_compute in Hcreator. discriminate Hcreator.
Defined.

(** On the sample store without its questions: the sample quiz cannot be
    started. *)
Lemma start_requires_scored_questions_witness :
  startQuizSessionService "s1" Sample.start Scenario.dbNoQuestions
  = (Scenario.dbNoQuestions, inl InvalidQuiz).
Proof.
  refine (proj1 (start_requires_scored_questions "s1" Sample.start
                   Scenario.dbNoQuestions Sample.student Sample.quiz
                   _ _ _ _) _);
    try computed.
  intros allowed [= <-]. computed.
Defined.

(** On the sample store: an answer to a question that does not exist. *)
Lemma submit_rejects_unknown_question_witness :
  submitQuizSessionService "s1" Scenario.unknownQuestion Sample.requester Sample.db1
  = (Sample.db1, inl InvalidQuestion).
Proof.
  apply (submit_rejects_unknown_question "s1" Scenario.unknownQuestion
           Sample.requester Sample.db1 Sample.stored1 Sample.quiz
           (Sample.answer "q9" (AnswerText "?"))).
  - computed.
  - split; [by exists Sample.student|reflexivity].
  - reflexivity.
  - computed.
  - computed.
  - apply list_elem_of_here.
  - left. computed.
Defined.

(** On the sample question with two correct choices: the choices and the
    answers in another order. *)
Lemma QCM_order_irrelevant_witness :
  gradeAnswer EN Sample.q1 (AnswerList ["3"; "2"])
  = gradeAnswer EN Scenario.q1_reversed (AnswerList ["2"; "3"]).
Proof.
  eapply (QCM_order_irrelevant EN Sample.q1 Scenario.q1_reversed);
    [reflexivity|reflexivity|reflexivity|reflexivity
    |apply Permutation_rev|apply perm_swap].
Defined.

(** On a quiz with a true/false question: the answer to it earns nothing. *)
Lemma questions_without_key_earn_nothing_witness :
  submitQuizSessionService "s5" Scenario.trueOrFalse Sample.requester
                           Scenario.dbTF1
  = (Scenario.dbTF2, inr Scenario.gradedTF)
  ∧ hasNoKey Scenario.q5
  ∧ Forall2 (λ r g,
               ∀ q, Questions Scenario.dbTF1 !! sub_question r = Some q →
                    hasNoKey q →
                    isCorrect g = false ∧ scoreEarned g = 0%float)
            (sub_responses Scenario.trueOrFalse)
            (responses Scenario.gradedTF).
Proof.
  assert (submitQuizSessionService "s5" Scenario.trueOrFalse Sample.requester
            Scenario.dbTF1 = (Scenario.dbTF2, inr Scenario.gradedTF)) as H
    by computed.
  split; [exact H|]. split; [by left|].
  exact (questions_without_key_earn_nothing _ _ _ _ _ _ H).
Defined.

(** On the sample question, whose choices have no Arabic text. *)
Lemma grading_language_fallback_witness :
  gradeAnswer AR Sample.q1 (AnswerList ["2"; "3"])
  = gradeAnswer EN Sample.q1 (AnswerList ["2"; "3"]).
Proof.
  eapply (grading_language_fallback AR Sample.q1); [reflexivity|reflexivity|].
  repeat (apply List.Forall_cons; [intros _; computed|]).
  apply List.Forall_nil.
Defined.

(** On the sample store: the teacher, who created the quiz and teaches its
    training, is notified once. *)
Lemma submit_notifies_recipients_witness :
  submitQuizSessionService "s1" Sample.threeOfFour Sample.requester Sample.db1
  = (Sample.db2, inr Sample.graded1)
  ∧ ∃ quiz user,
      Notifications Sample.db2
      = Notifications Sample.db1
        ++ (gradedNote "s1" quiz user <$> recipientsIn Sample.db1 quiz)
      ∧ NoDup (recipientsIn Sample.db1 quiz)
      ∧ head (recipientsIn Sample.db1 quiz) = Some (quiz_creator quiz).
Proof.
  assert (submitQuizSessionService "s1" Sample.threeOfFour Sample.requester
            Sample.db1 = (Sample.db2, inr Sample.graded1)) as H by computed.
  split; [exact H|].
  destruct (submit_notifies_recipients _ _ _ _ _ _ H)
    as (quiz & user & _ & _ & Hnotes & Hnodup & Hhead & _).
  exists quiz, user. split; [exact Hnotes|]. split; [exact Hnodup|].
  exact Hhead.
Defined.

(** On the sample store: the submission replaces the open session by a
    completed one. *)
Lemma submit_changes_one_session_witness :
  submitQuizSessionService "s1" Sample.threeOfFour Sample.requester Sample.db1
  = (Sample.db2, inr Sample.graded1)
  ∧ ∃ s0 stored,
      QuizSessions Sample.db1 !! "s1" = Some s0
      ∧ QuizSessions Sample.db2 = <["s1" := stored]> (QuizSessions Sample.db1)
      ∧ Quizzes Sample.db2 = Quizzes Sample.db1
      ∧ isCompleted s0 = false ∧ isCompleted stored = true
      ∧ attemptNumber stored = attemptNumber s0.
Proof.
  assert (submitQuizSessionService "s1" Sample.threeOfFour Sample.requester
            Sample.db1 = (Sample.db2, inr Sample.graded1)) as H by computed.
  split; [exact H|].
  destruct (submit_changes_one_session _ _ _ _ _ _ H)
    as (s0 & stored & Hs0 & Hsessions & _ & _ & _ & Hquizzes & Hopen & Hdone
        & _ & _ & _ & _ & _ & Hattempt & _).
  exists s0, stored. split; [exact Hs0|]. split; [exact Hsessions|].
  split; [exact Hquizzes|]. split; [exact Hopen|]. split; [exact Hdone|].
  exact Hattempt.
Defined.

(** On the sample store: the student deletes the open session. *)
Lemma deleteQuizSession_authorization_witness :
  deleteQuizSessionService "s1" Scenario.studentUser Sample.db1
  = (Scenario.dbDeleted, inr tt)
  ∧ ∃ session,
      QuizSessions Sample.db1 !! "s1" = Some session
      ∧ (req_role Scenario.studentUser = ADMIN
         ∨ req_role Scenario.studentUser = MANAGER
         ∨ (req_role Scenario.studentUser = STUDENT
            ∧ session_user session = req_id Scenario.studentUser
            ∧ isCompleted session = false))
      ∧ Scenario.dbDeleted = set_QuizSessions (delete "s1") Sample.db1.
Proof.
  assert (deleteQuizSessionService "s1" Scenario.studentUser Sample.db1
          = (Scenario.dbDeleted, inr tt)) as H by computed.
  split; [exact H|].
  exact (deleteQuizSession_authorization _ _ _ _ _ H).
Defined.

(** On the sample store: the student's only session on the quiz is
    deleted, and none is left. *)
Lemma delete_frees_attempt_witness :
  deleteQuizSessionService "s1" Scenario.studentUser Sample.db1
  = (Scenario.dbDeleted, inr tt)
  ∧ countDocuments (sessionOf "student1" "quiz1") (QuizSessions Sample.db1)
    = S (countDocuments (sessionOf "student1" "quiz1")
                        (QuizSessions Scenario.dbDeleted)).
Proof.
  assert (deleteQuizSessionService "s1" Scenario.studentUser Sample.db1
          = (Scenario.dbDeleted, inr tt)) as H by computed.
  split; [exact H|].
  refine (proj1 (delete_frees_attempt "s1" Scenario.studentUser Sample.db1
                   Scenario.dbDeleted Sample.stored1 H _)).
  computed.
Defined.

(** The window of the sample runtime is cut with [drop] and [take], so it
    is a part of the list it is cut from. *)
Lemma window_sublist : windowIsSublist.
Proof.
  intros A skip limit l window. cbn. unfold Sample.window.
  destruct (Sample.integerOf skip) as [s|]; [|done].
  destruct (Sample.integerOf limit) as [n|]; [|done].
  destruct (s <? 0)%Z; [done|]. intros [= <-].
  destruct (n =? 0)%Z.
  - apply sublist_drop.
  - etrans; [apply sublist_take|apply sublist_drop].
Qed.

(** On the sample store: the student asks for the sessions of the teacher
    and is given their own. *)
Lemma getAllQuizSessions_scoped_witness :
  getAllQuizSessionsService (λ _, 0%N) Scenario.ofTeacher Scenario.firstPage
                            Scenario.studentUser Sample.db2
  = (Sample.db2, inr Scenario.listing)
  ∧ List.length Scenario.listing = 1%nat
  ∧ Forall (λ kv, ∃ stored,
                    QuizSessions Sample.db2 !! kv.1 = Some stored
                    ∧ kv.2 = stored
                    ∧ session_user stored = "student1")
           Scenario.listing.
Proof.
  assert (getAllQuizSessionsService (λ _, 0%N) Scenario.ofTeacher
            Scenario.firstPage Scenario.studentUser Sample.db2
          = (Sample.db2, inr Scenario.listing)) as H by computed.
  split; [exact H|]. split; [reflexivity|].
  destruct (getAllQuizSessions_scoped _ _ _ _ _ _ _ window_sublist H)
    as (_ & _ & Hall).
  eapply List.Forall_impl; [|exact Hall].
  intros kv (stored & Hstored & Hkv & Hstudent & _).
  exists stored. split; [exact Hstored|]. split; [exact Hkv|].
  exact (Hstudent eq_refl).
Defined.

(** On the sample store with the public quiz: two questions out of four,
    for draws that hit the second question three times. *)
Lemma getPublicQuizBySlug_sample_witness :
  getPublicQuizBySlugService Scenario.draws "quiz" (Some 2%Z)
                             Scenario.dbPublic
  = (Scenario.dbPublic, inr (Some Scenario.sampleView))
  ∧ ∃ quiz,
      servedAs Scenario.dbPublic "quiz" quiz
      ∧ List.length (populated_questions Scenario.sampleView)
        = (if sampling (Some 2%Z) quiz then 2%nat
           else List.length (quiz_questions quiz))
      ∧ drawnFrom (quiz_questions quiz)
                  (quiz_questions (populated_quiz Scenario.sampleView)).
Proof.
  assert (getPublicQuizBySlugService Scenario.draws "quiz" (Some 2%Z)
            Scenario.dbPublic
          = (Scenario.dbPublic, inr (Some Scenario.sampleView))) as H
    by computed.
  split; [exact H|].
  destruct (proj1 (getPublicQuizBySlug_sample Scenario.draws "quiz"
                     (Some 2%Z) Scenario.dbPublic) _ _ H)
    as (_ & quiz & Hserved & _ & Hlength & Hdrawn & _).
  exists quiz. split; [exact Hserved|]. split; [exact Hlength|].
  exact Hdrawn.
Defined.

(** On the sample store: the quiz is served once it is public, without the
    explanations of its questions, and not before. *)
Lemma getPublicQuizById_spec_witness :
  getPublicQuizByIdService "quiz1" Scenario.dbPublic
  = (Scenario.dbPublic, inr Scenario.publicView)
  ∧ isPublic (populated_quiz Scenario.publicView) = true
  ∧ Forall2
      (λ qItem entry,
         entry_score entry = score qItem
         ∧ ∃ doc,
             entry_question entry = QuestionDoc doc
             ∧ mentions "explanation" doc = false
             ∧ mentions "chapter" doc = false
             ∧ ∀ q, Questions Scenario.dbPublic !! questionId qItem = Some q →
                    field "correctAnswerFormula" doc
                    = JStr <$> correctAnswerFormula q
                    ∧ field "choices" doc = JArr <$> publicChoices q)
      (quiz_questions (populated_quiz Scenario.publicView))
      (populated_questions Scenario.publicView)
  ∧ getPublicQuizByIdService "quiz1" Sample.db0
    = (Sample.db0, inl PublicNotFound).
Proof.
  assert (getPublicQuizByIdService "quiz1" Scenario.dbPublic
          = (Scenario.dbPublic, inr Scenario.publicView)) as H by computed.
  split; [exact H|].
  destruct (proj1 (getPublicQuizById_spec "quiz1" Scenario.dbPublic) _ _ H)
    as (_ & _ & Hpublic & _ & Hall).
  split; [exact Hpublic|]. split; [exact Hall|].
  refine (proj1 (proj2 (getPublicQuizById_spec "quiz1" Sample.db0))
            Sample.quiz _ _); computed.
Defined.

(** On the sample store: the revision quiz that the student assembles from
    two questions. *)
Lemma created_quiz_manifest_witness :
  createQuizService "quiz2" [] Sample.revisionQuiz Sample.db0
  = (Scenario.dbRevision, inr Scenario.revision)
  ∧ quiz_questions Scenario.revision ≠ []
  ∧ NoDup (questionId <$> quiz_questions Scenario.revision)
  ∧ Forall (λ qItem, is_Some (Questions Sample.db0 !! questionId qItem)
                     ∧ (0 <=? score qItem)%float = true)
           (quiz_questions Scenario.revision).
Proof.
  assert (createQuizService "quiz2" [] Sample.revisionQuiz Sample.db0
          = (Scenario.dbRevision, inr Scenario.revision)) as H by computed.
  split; [exact H|].
  destruct (created_quiz_manifest _ _ _ _ _ _ H)
    as (Hsome & Hnodup & Hall & _).
  split; [exact Hsome|]. split; [exact Hnodup|]. exact Hall.
Defined.

(** On the sample store: the student's revision quiz is stored under its
    new id, unpublished, and listed in its training. *)
Lemma created_quiz_policy_witness :
  createQuizService "quiz2" [] Sample.revisionQuiz Sample.db0
  = (Scenario.dbRevision, inr Scenario.revision)
  ∧ ∃ training,
      Trainings Sample.db0 !! "t1" = Some training
      ∧ isPublished Scenario.revision = false
      ∧ Quizzes Scenario.dbRevision
        = <["quiz2" := Scenario.revision]> (Quizzes Sample.db0)
      ∧ Trainings Scenario.dbRevision
        = <["t1" := pushQuiz "quiz2" training]> (Trainings Sample.db0).
Proof.
  assert (createQuizService "quiz2" [] Sample.revisionQuiz Sample.db0
          = (Scenario.dbRevision, inr Scenario.revision)) as H by computed.
  split; [exact H|].
  destruct (created_quiz_policy _ _ _ _ _ _ H)
    as (creator & training & _ & Htraining & _ & _ & _ & _ & Hdraft & _ & _
        & _ & _ & _ & _ & Hquizzes & Htrainings & _).
  exists training. split; [exact Htraining|]. split; [exact Hdraft|].
  split; [exact Hquizzes|]. exact Htrainings.
Defined.

(** On the sample store: the student gives the revision quiz a new title
    and asks for its publication, which is not applied. *)
Lemma updateQuiz_frozen_fields_witness :
  updateQuizService "quiz2" Scenario.retitled Scenario.studentUser
                    Scenario.dbRevision
  = (Scenario.dbRetitled, inr Scenario.retitledQuiz)
  ∧ ∃ quiz,
      Quizzes Scenario.dbRevision !! "quiz2" = Some quiz
      ∧ Scenario.dbRetitled
        = set_Quizzes (insert "quiz2" Scenario.retitledQuiz)
                      Scenario.dbRevision
      ∧ quiz_slug Scenario.retitledQuiz = quiz_slug quiz
      ∧ quizType Scenario.retitledQuiz = quizType quiz
      ∧ isPublished Scenario.retitledQuiz = isPublished quiz.
Proof.
  assert (updateQuizService "quiz2" Scenario.retitled Scenario.studentUser
            Scenario.dbRevision
          = (Scenario.dbRetitled, inr Scenario.retitledQuiz)) as H
    by computed.
  split; [exact H|].
  destruct (updateQuiz_frozen_fields _ _ _ _ _ _ H)
    as (quiz & Hquiz & Hdb & _ & _ & _ & Hslug & Htype & Hpublished & _).
  exists quiz. split; [exact Hquiz|]. split; [exact Hdb|].
  split; [exact Hslug|]. split; [exact Htype|]. exact Hpublished.
Defined.

(** On the sample store with the teacher's draft: published, it cannot be
    published again, and unpublishing it gives the first store back. *)
Lemma publish_unpublish_round_trip_witness :
  publishQuizService 5%N "quiz3" true Scenario.teacherUser Scenario.dbDraft
  = (Scenario.dbPublished, inr Scenario.published)
  ∧ ∃ quiz,
      Quizzes Scenario.dbDraft !! "quiz3" = Some quiz
      ∧ Scenario.published = set_published true (Some 5%N) quiz
      ∧ publishQuizService 9%N "quiz3" true Scenario.teacherUser
                           Scenario.dbPublished
        = (Scenario.dbPublished, inl (ApiError "Quiz is already published." 400))
      ∧ (publishedAt quiz = None →
         publishQuizService 9%N "quiz3" false Scenario.teacherUser
                            Scenario.dbPublished
         = (Scenario.dbDraft, inr quiz)).
Proof.
  assert (publishQuizService 5%N "quiz3" true Scenario.teacherUser
            Scenario.dbDraft
          = (Scenario.dbPublished, inr Scenario.published)) as H by computed.
  split; [exact H|].
  destruct (publish_unpublish_round_trip 5%N 9%N _ _ _ _ _ H)
    as (quiz & Hquiz & _ & _ & _ & Hpublished & _ & Hagain & Hback).
  exists quiz. split; [exact Hquiz|]. split; [exact Hpublished|].
  split; [exact Hagain|]. exact Hback.
Defined.

(** On the sample store with the teacher's draft: the teacher deletes
    it. *)
Lemma deleteQuiz_authorization_witness :
  deleteQuizService "quiz3" Scenario.teacherUser Scenario.dbDraft
  = (Scenario.dbDraftDeleted, inr tt)
  ∧ ∃ quiz,
      Quizzes Scenario.dbDraft !! "quiz3" = Some quiz
      ∧ Quizzes Scenario.dbDraftDeleted
        = delete "quiz3" (Quizzes Scenario.dbDraft)
      ∧ QuizSessions Scenario.dbDraftDeleted = QuizSessions Scenario.dbDraft.
Proof.
  assert (deleteQuizService "quiz3" Scenario.teacherUser Scenario.dbDraft
          = (Scenario.dbDraftDeleted, inr tt)) as H by computed.
  split; [exact H|].
  destruct (deleteQuiz_authorization _ _ _ _ _ H)
    as (quiz & Hquiz & _ & Hquizzes & _ & _ & _ & _ & Hsessions & _).
  exists quiz. split; [exact Hquiz|]. split; [exact Hquizzes|].
  exact Hsessions.
Defined.

(** On the sample store: once the administrator has deleted the quiz, the
    student's open session cannot be submitted. *)
Lemma deleted_quiz_strands_sessions_witness :
  deleteQuizService "quiz1" Sample.admin Sample.db1
  = (Scenario.dbGone, inr tt)
  ∧ QuizSessions Scenario.dbGone = QuizSessions Sample.db1
  ∧ submitQuizSessionService "s1" Sample.threeOfFour Sample.requester
                             Scenario.dbGone
    = (Scenario.dbGone, inl MissingQuiz)
  ∧ startQuizSessionService "s2" Sample.start Scenario.dbGone
    = (Scenario.dbGone, inl NotFound_quiz).
Proof.
  assert (deleteQuizService "quiz1" Sample.admin Sample.db1
          = (Scenario.dbGone, inr tt)) as H by computed.
  split; [exact H|].
  destruct (deleted_quiz_strands_sessions _ _ _ _ H)
    as (Hsessions & Hsubmit & Hstart).
  split; [exact Hsessions|]. split.
  - refine (proj2 (Hsubmit "s1" Sample.stored1 Sample.threeOfFour
                     Sample.requester _ _) _ _ _); try computed.
    split; [|reflexivity]. eexists. computed.
  - apply (Hstart "s2" Sample.start Sample.student); computed.
Defined.

(** On the sample store: the teacher creates a quiz with [isPublic: true]
    in the body, asks again in an update, and the administrator publishes
    the quiz; it is stored and published, and the public services do not
    serve it. *)
Lemma api_never_makes_public_witness :
  (∃ quiz, Quizzes (serve Scenario.openingRequests Sample.db0) !! "quiz4"
           = Some quiz
           ∧ isPublished quiz = true)
  ∧ allPrivate (serve Scenario.openingRequests Sample.db0)
  ∧ getPublicQuizBySlugService [] "open" None
      (serve Scenario.openingRequests Sample.db0)
    = (serve Scenario.openingRequests Sample.db0, inl PublicNotFound).
Proof.
  assert (allPrivate Sample.db0) as Hprivate.
  { intros id quiz Hquiz. unfold Sample.db0, Quizzes in Hquiz.
    apply lookup_singleton_Some in Hquiz as [_ <-]. reflexivity. }
  destruct (api_never_makes_public Scenario.openingRequests Sample.db0
              Hprivate) as (Hall & _ & Hslug).
  split; [|split; [exact Hall|exact (Hslug [] "open" None)]].
  eexists. split; computed.
Defined.

(** On the sample store: the graded session outlives a deletion by the
    student, a second submission, a deletion by the teacher, the deletion
    of its quiz and a new start under its id. *)
Lemma completed_sessions_are_final_witness :
  QuizSessions (serve Scenario.laterRequests Sample.db2) !! "s1"
  = Some Scenario.storedGraded.
Proof.
  apply (completed_sessions_are_final Scenario.laterRequests Sample.db2 "s1"
           Scenario.storedGraded).
  - computed.
  - reflexivity.
  - repeat (apply List.Forall_cons; [computed|]). apply List.Forall_nil.
Defined.

(** On a multiple-choice question stored with the empty array of choices:
    the empty list is graded correct, the text of a choice is not. *)
Lemma QCM_without_correct_choice_witness :
  noCorrectChoice (Sample.qcm "none" [])
  ∧ gradeAnswer EN (Sample.qcm "none" []) (AnswerList []) = true
  ∧ gradeAnswer EN (Sample.qcm "none" []) (AnswerText "2") ≠ true.
Proof.
  assert (noCorrectChoice (Sample.qcm "none" [])) as Hnone.
  { split; [reflexivity|]. exists []. split; reflexivity. }
  split; [exact Hnone|]. split.
  - apply (QCM_without_correct_choice EN (Sample.qcm "none" [])
             (AnswerList []) Hnone). reflexivity.
  - intros Htrue.
    apply (QCM_without_correct_choice EN (Sample.qcm "none" [])
             (AnswerText "2") Hnone) in Htrue.
    discriminate Htrue.
Defined.

(** On the sample store: the student who started the session submits it
    under their own id and is refused. *)
Lemma submit_owner_test_witness :
  QuizSessions Sample.db1 !! "s1" = Some Sample.stored1
  ∧ Users Sample.db1 !! session_user Sample.stored1 = Some Sample.student
  ∧ session_user Sample.stored1 = "student1"
  ∧ submitQuizSessionService "s1" Sample.threeOfFour "student1" Sample.db1
    = (Sample.db1, inl Forbidden_submit).
Proof.
  assert (QuizSessions Sample.db1 !! "s1" = Some Sample.stored1) as Hs
    by computed.
  assert (Users Sample.db1 !! session_user Sample.stored1
          = Some Sample.student) as Hu by computed.
  split; [exact Hs|]. split; [exact Hu|]. split; [reflexivity|].
  apply (proj1 (submit_owner_test "s1" Sample.db1 Sample.stored1
                  Sample.student Hs Hu) Sample.threeOfFour "student1").
  discriminate.
Defined.

(** On the sample question with two correct choices: the two of them, in
    the other order, are graded correct; one of them alone is not. *)
Lemma QCM_exact_without_repeats_witness :
  gradeAnswer EN Sample.q1 (AnswerList ["3"; "2"]) = true
  ∧ sameSet ["3"; "2"] [Some "2"; Some "3"]
  ∧ ¬ sameSet ["2"] [Some "2"; Some "3"].
Proof.
  assert (∀ l, NoDup l →
            gradeAnswer EN Sample.q1 (AnswerList l) = true
            ↔ sameSet l [Some "2"; Some "3"]) as Hexact.
  { intros l Hl.
    apply (QCM_exact_without_repeats EN Sample.q1
             [Sample.choice "2" true; Sample.choice "3" true;
              Sample.choice "4" false] (AnswerList l));
      [reflexivity|reflexivity|exact Hl|].
    vm_compute. apply NoDup_cons. split; [set_solver|].
    apply NoDup_singleton. }
  split; [reflexivity|]. split.
  - apply (Hexact ["3"; "2"]); [|reflexivity].
    apply NoDup_cons. split; [set_solver|]. apply NoDup_singleton.
  - intros Hsame. apply (Hexact ["2"]) in Hsame; [discriminate Hsame|].
    apply NoDup_singleton.
Defined.
